(** * Revenue calculator of the alliance bank bot (bank.py)

    A shallow embedding of [calculate_nation_revenue] and
    [calculate_alliance_revenue] together with the fetchers they call.

    Numbers.  Python [int] values are [Z].  Python [float] values are exact
    rationals [Q]: every formula below is the source's formula read over the
    rationals, so results are stated up to [==] (equality of fractions).
    [math.log] is the one operation that leaves the rationals; it is a
    parameter [math_log] of the engine, and the lemmas that need it assume
    only what they use of it.

    Dictionaries.  [production] has a fixed set of eleven string keys and is
    a total map over the enumeration [resource]; [market_prices] and
    [color_bonuses] come from outside and are finite maps keyed by strings.

    Effects.  Every request to the game API is read from a [World]: a
    snapshot of what each request answers.  A fetcher sees an answer as the
    source sees it, a status code and a payload that has or lacks the data
    path the fetcher looks for.  Exceptions are modelled where the source
    handles them, inside [get_pnw_market_prices] and around the per-member
    call of [calculate_alliance_revenue], and where
    [calculate_nation_revenue] leaves them unhandled: each of its awaits
    outside a [try] can raise, and the call then raises.

    Other functions.  The file also embeds the rate limiter
    [PnwApiLimiter], the aggregation of the members' resources, the
    recording and the clean-up of the bank history, the statistics of
    [show_bank_stats] and the grouping of the tax records by day.  Clock
    readings and timestamps are arguments of these models; a date is read
    as the value that the source's parsing gives it. *)

From Stdlib Require Import ZArith QArith Qround Qminmax Lqa Lia Sorted.
From stdpp Require Import base decidable option list strings gmap.

Local Open Scope Z_scope.
Local Open Scope Q_scope.

(** ** Python numerics *)

(** An [int] used where a [float] is expected. *)
Local Coercion inject_Z : Z >-> Q.

(** [max(a, b)]: the first argument unless the second is strictly larger. *)
Definition py_max (a b : Q) : Q :=
  match a ?= b with Lt => b | _ => a end.

(** [round(x)] with one argument: the nearest integer, ties to even. *)
Definition py_round (x : Q) : Z :=
  let f := Qfloor x in
  match ((x - f) ?= (1 # 2))%Q with
  | Lt => f
  | Gt => (f + 1)%Z
  | Eq => if Z.even f then f else (f + 1)%Z
  end.

(** [x // d] on floats: the floor of the quotient. *)
Definition float_floordiv (x d : Q) : Z := Qfloor (x / d).

(** ** Data *)

Inductive resource :=
  | food | uranium | oil | iron | coal | bauxite | lead
  | aluminum | gasoline | munitions | steel.

#[global] Instance resource_eq_dec : EqDecision resource.
Proof. solve_decision. Defined.

(** The keys of [production], in the order of the dict literal. *)
Definition resources : list resource :=
  [food; uranium; oil; iron; coal; bauxite; lead;
   aluminum; gasoline; munitions; steel].

Definition resource_key (r : resource) : string :=
  match r with
  | food => "food" | uranium => "uranium" | oil => "oil" | iron => "iron"
  | coal => "coal" | bauxite => "bauxite" | lead => "lead"
  | aluminum => "aluminum" | gasoline => "gasoline"
  | munitions => "munitions" | steel => "steel"
  end.

(** [production]: one amount per resource. *)
Definition Production := resource -> Q.

Definition production_init : Production := fun _ => 0.

(** [production[r] += x]. *)
Definition padd (p : Production) (r : resource) (x : Q) : Production :=
  fun r' => if decide (r = r') then p r' + x else p r'.

(** [production[r] -= x]. *)
Definition psub (p : Production) (r : resource) (x : Q) : Production :=
  fun r' => if decide (r = r') then p r' - x else p r'.

(** One entry of [cities]; [date] is the founding day as a day number. *)
Record City := {
  date : Z;
  infrastructure : Q;
  land : Q;
  oil_refinery : Z; steel_mill : Z; aluminum_refinery : Z;
  munitions_factory : Z;
  uranium_mine : Z; oil_well : Z; iron_mine : Z; coal_mine : Z;
  bauxite_mine : Z; lead_mine : Z; farm : Z;
  subway : Z; stadium : Z; shopping_mall : Z; bank : Z; supermarket : Z;
  police_station : Z; hospital : Z; recycling_center : Z;
  nuclear_power : Z; coal_power : Z; oil_power : Z; wind_power : Z
}.

(** The fields of the nation query that the calculation reads. *)
Record Nation := {
  nation_name : string;
  flag : string;
  alliance_id : string;
  num_cities : Z;
  color : string;
  continent : string;
  domestic_policy : string;
  soldiers : Z; tanks : Z; aircraft : Z; ships : Z; spies : Z;
  missiles : Z; nukes : Z;
  offensive_wars_count : Z; defensive_wars_count : Z;
  bauxite_works : bool;
  emergency_gasoline_reserve : bool;
  iron_works : bool;
  uranium_enrichment_program : bool;
  specialized_police_training_program : bool;
  international_trade_center : bool;
  telecommunications_satellite : bool;
  clinical_research_center : bool;
  green_technologies : bool;
  arms_stockpile : bool;
  government_support_agency : bool;
  mass_irrigation : bool;
  fallout_shelter : bool;
  bureau_of_domestic_affairs : bool;
  recycling_initiative : bool;
  cities : list City
}.

(** [game_info["radiation"]]. *)
Record Radiation := {
  global : Q;
  north_america : Q; south_america : Q; europe : Q; africa : Q;
  asia : Q; australia : Q; antarctica : Q
}.

(** [game_info]; of [game_date] only the month is read. *)
Record GameInfo := {
  game_date_month : Z;
  radiation : Radiation
}.

(** The accumulator [income] of [calculate_nation_revenue]. *)
Module Income.
Record t := {
  gross_income : Q;
  military_upkeep : Q;
  improvement_upkeep : Q
}.
Definition init : t :=
  {| gross_income := 0; military_upkeep := 0; improvement_upkeep := 0 |}.
End Income.

(** ** The body of the loop over [nation["cities"]] *)

Section CityLoop.

(** [math.log], and the values the body reads from the enclosing call:
    [today] is [truncated_date] as a day number. *)
Variable math_log : Z -> Q.
Variable nation : Nation.
Variable game_info : GameInfo.
Variable today : Z.

(** [radiation.get(nation["continent"], 0)] over the seven-key dict. *)
Definition continent_radiation : Q :=
  let r := radiation game_info in
  let c := continent nation in
  if bool_decide (c = "na") then north_america r
  else if bool_decide (c = "sa") then south_america r
  else if bool_decide (c = "as") then asia r
  else if bool_decide (c = "an") then antarctica r
  else if bool_decide (c = "eu") then europe r
  else if bool_decide (c = "af") then africa r
  else if bool_decide (c = "au") then australia r
  else 0.

Variable city : City.

(** *** Age and food demand *)

Definition age_days : Z := Z.max 1 (today - date city).
Definition ln_age : Q := math_log age_days.
Definition city_age_modifier : Q := 1 + py_max (ln_age / 15) 0.

Definition base_population : Q := infrastructure city * 100.

Definition population_formula : Q :=
  ((base_population * base_population) / 125000000)
  + ((base_population * city_age_modifier - base_population) / 850).

(** *** Food production *)

Definition improvement_specialization_bonus : Q :=
  1 + ((0.5 * inject_Z (farm city - 1)) / inject_Z (20 - 1)).

Definition food_production_rate : Q :=
  let rate := if mass_irrigation nation
              then land city / 400 else land city / 500 in
  if bool_decide (continent nation = "an") then rate * 0.5 else rate.

Definition base_food_production : Q :=
  inject_Z (py_round (farm city * improvement_specialization_bonus
                      * food_production_rate * 100)) / 100.

Definition hemisphere : string :=
  if bool_decide (continent nation ∈ ["sa"; "as"; "af"])
  then "Southern" else "Northern".

Definition seasonal_modifier : Q :=
  let month := game_date_month game_info in
  if bool_decide (continent nation ≠ "an") then
    if bool_decide (hemisphere = "Northern") then
      if bool_decide (month ∈ [12; 1; 2]%Z) then 0.8
      else if bool_decide (month ∈ [6; 7; 8]%Z) then 1.2
      else 1
    else
      if bool_decide (month ∈ [12; 1; 2]%Z) then 1.2
      else if bool_decide (month ∈ [6; 7; 8]%Z) then 0.8
      else 1
  else 1.

Definition radiation_index : Q :=
  continent_radiation + global (radiation game_info).

Definition fallout_shelter_multiplier : Q :=
  if fallout_shelter nation then 0.85 else 1.

Definition radiation_penalty : Q :=
  (radiation_index / (-1000)) * fallout_shelter_multiplier.

Definition food_production : Q :=
  py_max (base_food_production * seasonal_modifier * (1 + radiation_penalty)) 0.

(** *** Power plants

    The source assigns [current_infrastructure], [infrastructure_can_power]
    and [smallest_two] once per plant kind; each assignment has its own name
    here.  The oil plant reuses the [current_infrastructure] of the coal
    plant. *)

Definition current_infrastructure_nuclear : Z :=
  float_floordiv (infrastructure city + 999) 1000.
Definition infrastructure_can_power_nuclear : Z :=
  (nuclear_power city * 2000 / 1000)%Z.
Definition smallest_two_nuclear : Z :=
  Z.min current_infrastructure_nuclear infrastructure_can_power_nuclear.

Definition current_infrastructure_coal : Z :=
  float_floordiv (infrastructure city + 99) 100.
Definition infrastructure_can_power_coal : Z :=
  (coal_power city * 500 / 100)%Z.
Definition smallest_two_coal : Z :=
  Z.min current_infrastructure_coal infrastructure_can_power_coal.

Definition infrastructure_can_power_oil : Z :=
  (oil_power city * 500 / 100)%Z.
Definition smallest_two_oil : Z :=
  Z.min current_infrastructure_coal infrastructure_can_power_oil.

(** *** Project multipliers

    The dict [multipliers] has the keys oil, steel, uranium, aluminum and
    munitions; the other resources are never looked up. *)

Definition multipliers (r : resource) : Q :=
  match r with
  | aluminum => if bauxite_works nation then 1.36 else 1
  | oil => if emergency_gasoline_reserve nation then 2 else 1
  | steel => if iron_works nation then 1.36 else 1
  | munitions => if arms_stockpile nation then 1.20 else 1
  | uranium => if uranium_enrichment_program nation then 2 else 1
  | _ => 1
  end.

(** The factor [(1 + (0.5 * (count - 1)) / (5 - 1))] that every factory and
    mine line repeats. *)
Definition specialization (count : Z) : Q :=
  1 + (0.5 * inject_Z (count - 1)) / inject_Z (5 - 1).

(** *** The updates of [production], in source order *)

Definition city_production (p : Production) : Production :=
  let p := psub p food population_formula in
  let p := padd p food (food_production * 12) in
  (* power plants *)
  let p := psub p uranium (smallest_two_nuclear * 2.4) in
  let p := psub p coal (smallest_two_coal * 1.2) in
  let p := psub p oil (smallest_two_oil * 1.2) in
  (* factories, consumption *)
  let p := psub p oil (inject_Z (3 * oil_refinery city)
                       * specialization (oil_refinery city) * multipliers oil) in
  let p := psub p iron (inject_Z (3 * steel_mill city)
                        * specialization (steel_mill city) * multipliers steel) in
  let p := psub p coal (inject_Z (3 * steel_mill city)
                        * specialization (steel_mill city) * multipliers steel) in
  let p := psub p bauxite (inject_Z (3 * aluminum_refinery city)
                           * specialization (aluminum_refinery city)
                           * multipliers aluminum) in
  let p := psub p lead (inject_Z (6 * munitions_factory city)
                        * specialization (munitions_factory city)) in
  (* factories, production *)
  let p := padd p gasoline (inject_Z (6 * oil_refinery city)
                            * specialization (oil_refinery city)
                            * multipliers oil) in
  let p := padd p steel (inject_Z (9 * steel_mill city)
                         * specialization (steel_mill city)
                         * multipliers steel) in
  let p := padd p aluminum (inject_Z (9 * aluminum_refinery city)
                            * specialization (aluminum_refinery city)
                            * multipliers aluminum) in
  let p := padd p munitions (inject_Z (18 * munitions_factory city)
                             * specialization (munitions_factory city)
                             * multipliers munitions) in
  (* mines *)
  let p := padd p uranium (inject_Z (uranium_mine city * 3)
                           * specialization (uranium_mine city)
                           * multipliers uranium) in
  let p := padd p oil (inject_Z (oil_well city * 3)
                       * specialization (oil_well city)) in
  let p := padd p iron (inject_Z (iron_mine city * 3)
                        * specialization (iron_mine city)) in
  let p := padd p coal (inject_Z (coal_mine city * 3)
                        * specialization (coal_mine city)) in
  let p := padd p bauxite (inject_Z (bauxite_mine city * 3)
                           * specialization (bauxite_mine city)) in
  let p := padd p lead (inject_Z (lead_mine city * 3)
                        * specialization (lead_mine city)) in
  p.

(** *** Commerce *)

Definition commerce_cap : Z :=
  if international_trade_center nation then
    if telecommunications_satellite nation then 125 else 115
  else 100.

Definition commerce_addition : Z :=
  ((if international_trade_center nation then 1 else 0)
   + (if specialized_police_training_program nation then 4 else 0)
   + (if telecommunications_satellite nation then 2 else 0))%Z.

Definition population_density : Q :=
  match 0 ?= land city with
  | Lt => base_population / land city
  | _ => 0
  end.

Definition commerce : Z :=
  Z.min (supermarket city * 4 + bank city * 6 + shopping_mall city * 8
         + stadium city * 10 + subway city * 8 + commerce_addition)
        commerce_cap.

(** *** Police, hospital and green technologies *)

Definition police_modifier_modifier : Q :=
  if specialized_police_training_program nation then 3.5 else 2.5.
Definition hospital_modifier_modifier : Q :=
  if clinical_research_center nation then 3.5 else 2.5.

Definition farm_greentech_multiplier : Q :=
  if green_technologies nation then 0.5 else 1.
Definition manu_greentech_multiplier : Q :=
  if green_technologies nation then 0.75 else 1.
Definition subway_greentech_addition : Z :=
  if green_technologies nation then 25 else 0.
Definition resource_production_upkeep_multiplier : Q :=
  if green_technologies nation then 0.9 else 1.

(** *** Upkeep of the improvements: the term added to
    [income["improvement_upkeep"]] *)

Definition city_improvement_upkeep : Q :=
  (coal_power city * 1200)
  + (oil_power city * 1800)
  + (nuclear_power city * 10500)
  + (wind_power city * 500)
  + (coal_mine city * 400 * resource_production_upkeep_multiplier)
  + (iron_mine city * 1600 * resource_production_upkeep_multiplier)
  + (lead_mine city * 1500 * resource_production_upkeep_multiplier)
  + (farm city * 300 * resource_production_upkeep_multiplier)
  + (oil_well city * 600 * resource_production_upkeep_multiplier)
  + (bauxite_mine city * 1600 * resource_production_upkeep_multiplier)
  + (uranium_mine city * 5000 * resource_production_upkeep_multiplier)
  + (oil_refinery city * 4000 * resource_production_upkeep_multiplier)
  + (steel_mill city * 4000 * resource_production_upkeep_multiplier)
  + (aluminum_refinery city * 2500 * resource_production_upkeep_multiplier)
  + (munitions_factory city * 3500 * resource_production_upkeep_multiplier)
  + (police_station city * 750)
  + (hospital city * 1000)
  + (recycling_center city * 2500)
  + (subway city * 3250)
  + (supermarket city * 600)
  + (bank city * 1800)
  + (shopping_mall city * 5400)
  + (stadium city * 12150).

(** *** Pollution *)

Definition pollution_index : Q :=
  (coal_power city * 8)
  + (oil_power city * 6)
  + (bauxite_mine city * 12)
  + (coal_mine city * 12)
  + (farm city * 2 * farm_greentech_multiplier)
  + (iron_mine city * 12)
  + (lead_mine city * 12)
  + (oil_well city * 12)
  + (uranium_mine city * 20)
  + (oil_refinery city * 32 * manu_greentech_multiplier)
  + (steel_mill city * 40 * manu_greentech_multiplier)
  + (aluminum_refinery city * 40 * manu_greentech_multiplier)
  + (munitions_factory city * 32 * manu_greentech_multiplier)
  + (police_station city * 1)
  + (hospital city * 4)
  - (recycling_center city
     * inject_Z (if recycling_initiative nation then 75 else 70))
  - (subway city * inject_Z (45 + subway_greentech_addition))
  + (shopping_mall city * 2)
  + (stadium city * 5).

Definition police_modifier : Q := police_station city * police_modifier_modifier.
Definition pollution_modifier : Q := pollution_index * 0.05.
Definition hospital_modifier : Q := hospital city * hospital_modifier_modifier.

(** *** Crime, disease and population *)

Definition crime_rate : Q :=
  (inject_Z ((103 - commerce) * (103 - commerce))
   + (infrastructure city * 100)) / 111111
  - police_modifier.

Definition disease_rate : Q :=
  ((((population_density * population_density) * 0.01) - 25) / 100)
  + (base_population / 100000) + pollution_modifier - hospital_modifier.

(** The two terms subtracted from [base_population]. *)
Definition disease_loss : Q :=
  py_max ((disease_rate * 100 * infrastructure city) / 100) 0.
Definition crime_loss : Q :=
  py_max ((crime_rate / 10) * (100 * infrastructure city) - 25) 0.

(** [population] after its first assignment. *)
Definition population_unscaled : Q :=
  base_population - disease_loss - crime_loss.

(** [population] after its second assignment, the value the income uses. *)
Definition population : Q := population_unscaled * (1 + ln_age / 15).

(** The term added to [income["gross_income"]]. *)
Definition city_gross_income : Q :=
  (((commerce / 50) * 0.725) + 0.725) * population.

(** *** One iteration *)

Definition city_income (i : Income.t) : Income.t :=
  {| Income.gross_income := Income.gross_income i + city_gross_income;
     Income.military_upkeep := Income.military_upkeep i;
     Income.improvement_upkeep :=
       Income.improvement_upkeep i + city_improvement_upkeep |}.

Definition city_step (st : Production * Income.t) : Production * Income.t :=
  (city_production (fst st), city_income (snd st)).

End CityLoop.

(** ** After the loop: military, domestic policy, colour, prices *)

(** What [calculate_nation_revenue] returns on success. *)
Module Report.
Record income_t := {
  gross_income : Q;
  color_bonus : Q;
  gross_total : Q;
  military_upkeep : Q;
  improvement_upkeep : Q;
  gross_upkeep : Q;
  net_income : Q;
  monetary_net_income : Q
}.
Record monetary := { amount : Q; value : Q }.
Record t := {
  nation_name : string;
  flag : string;
  num_cities : Z;
  production : Production;
  monetary_resources : resource -> monetary;
  total_monetary_value : Q;
  income : income_t
}.
End Report.

(** [d.get(k, default)]. *)
Definition dict_get (d : gmap string Q) (k : string) (dflt : Q) : Q :=
  default dflt (d !! k).

Section NationRevenue.

Variable math_log : Z -> Q.
Variable nation : Nation.
Variable game_info : GameInfo.
Variable today : Z.
Variable color_bonuses : gmap string Q.
Variable market_prices : gmap string Q.
Variable alliance_color : option string.

(** The [for city in nation["cities"]] loop. *)
Definition city_loop : Production * Income.t :=
  foldl (fun st city => city_step math_log nation game_info today city st)
        (production_init, Income.init) (cities nation).

(** *** Military upkeep *)

Definition peacetime : bool :=
  bool_decide ((offensive_wars_count nation + defensive_wars_count nation)%Z = 0%Z).

Definition soldier_formula : Q :=
  if peacetime then soldiers nation / 750 else soldiers nation / 500.

(** The term added to [income["military_upkeep"]] by the chosen branch. *)
Definition unit_upkeep : Q :=
  if peacetime then
    (soldiers nation * 1.25) + (tanks nation * 50) + (aircraft nation * 500)
    + (ships nation * 3375) + (missiles nation * 21000)
    + (nukes nation * 35000)
  else
    (soldiers nation * 1.88) + (tanks nation * 75) + (aircraft nation * 750)
    + (ships nation * 5062.50) + (missiles nation * 31500)
    + (nukes nation * 52500).

Definition military (st : Production * Income.t) : Production * Income.t :=
  let '(p, i) := st in
  let m := Income.military_upkeep i + unit_upkeep in
  let m := m + inject_Z (spies nation * 2400) in
  (psub p food soldier_formula,
   {| Income.gross_income := Income.gross_income i;
      Income.military_upkeep := m;
      Income.improvement_upkeep := Income.improvement_upkeep i |}).

(** *** Domestic policy *)

Definition domestic_policy_increase : Q :=
  let d := 1 in
  if government_support_agency nation then
    let d := d + 0.5 in
    if bureau_of_domestic_affairs nation then d + 0.25 else d
  else d.

Definition apply_domestic_policy (i : Income.t) : Income.t :=
  if bool_decide (domestic_policy nation = "OPEN_MARKETS") then
    {| Income.gross_income :=
         Income.gross_income i * (1 + (0.01 * domestic_policy_increase));
       Income.military_upkeep := Income.military_upkeep i;
       Income.improvement_upkeep := Income.improvement_upkeep i |}
  else if bool_decide (domestic_policy nation = "IMPERIALISM") then
    {| Income.gross_income := Income.gross_income i;
       Income.military_upkeep :=
         Income.military_upkeep i * (1 - (0.05 * domestic_policy_increase));
       Income.improvement_upkeep := Income.improvement_upkeep i |}
  else i.

(** *** Colour bonus *)

Definition color_bonus : Q :=
  let beige_or_nothing :=
    if bool_decide (color nation = "beige")
    then dict_get color_bonuses "beige" 0 else 0 in
  let bonus :=
    match alliance_color with
    | Some ac =>
        if bool_decide (color nation = ac)
        then dict_get color_bonuses ac 0 else beige_or_nothing
    | None => beige_or_nothing
    end in
  bonus * 12.

(** *** Money value of the resources *)

Definition price (r : resource) : Q := dict_get market_prices (resource_key r) 0.

Definition total_value (p : Production) : Q :=
  foldl (fun total r => total + p r * price r) 0 resources.

Definition monetary_of (p : Production) (r : resource) : Report.monetary :=
  {| Report.amount := p r; Report.value := p r * price r |}.

(** *** The report *)

Definition nation_report : Report.t :=
  let '(p, i) := military city_loop in
  let i := apply_domestic_policy i in
  let total_monetary_value := total_value p in
  let gross_income := color_bonus + Income.gross_income i in
  let gross_upkeep := Income.improvement_upkeep i + Income.military_upkeep i in
  let net_income := gross_income - gross_upkeep in
  let monetary_net_income := net_income + total_monetary_value in
  {| Report.nation_name := nation_name nation;
     Report.flag := flag nation;
     Report.num_cities := num_cities nation;
     Report.production := p;
     Report.monetary_resources := monetary_of p;
     Report.total_monetary_value := total_monetary_value;
     Report.income :=
       {| Report.gross_income := Income.gross_income i;
          Report.color_bonus := color_bonus;
          Report.gross_total := gross_income;
          Report.military_upkeep := Income.military_upkeep i;
          Report.improvement_upkeep := Income.improvement_upkeep i;
          Report.gross_upkeep := gross_upkeep;
          Report.net_income := net_income;
          Report.monetary_net_income := monetary_net_income |} |}.

End NationRevenue.

(** ** The game API as the fetchers see it *)

(** An answer to a request: the status code, and the payload found under the
    data path the fetcher checks ([None] when a step of the path is missing
    or empty). *)
Record Response (A : Type) := {
  status : Z;
  data : option A
}.
Arguments status {A} _.
Arguments data {A} _.

(** A request that may raise instead of answering. *)
Inductive Exchange (A : Type) :=
  | raises
  | answers (r : Response A).
Arguments raises {A}.
Arguments answers {A} r.

(** A function of the bot returns a dict with the key ["error"], or its
    result. *)
Inductive returned (A : Type) :=
  | error (msg : string)
  | result (a : A).
Arguments error {A} msg.
Arguments result {A} a.

Definition is_error {A} (r : returned A) : bool :=
  match r with error _ => true | result _ => false end.

(** An awaited call that no [try] guards: it raises, or it returns. *)
Inductive Await (A : Type) :=
  | throws
  | gives (a : A).
Arguments throws {A}.
Arguments gives {A} a.

(** A fetcher has no [try] around its request: when the request raises, so
    does the fetcher. *)
Definition await {A B : Type} (fetch : Response A -> B) (x : Exchange A)
  : Await B :=
  match x with
  | raises => throws
  | answers r => gives (fetch r)
  end.

Definition fetch_nation_data (x : Exchange Nation) : Await (option Nation) :=
  match x with
  | raises => throws
  | answers r => gives (if bool_decide (status r = 200%Z) then data r else None)
  end.

(** [fetch_game_info] once its request is answered; [await fetch_game_info]
    is the fetcher with the exception of its request. *)
Definition fetch_game_info (r : Response GameInfo) : option GameInfo :=
  if bool_decide (status r = 200%Z) then data r else None.

(** [{color["color"]: color["turn_bonus"] for color in colors}]: a later
    entry replaces an earlier one with the same colour. *)
Definition color_dict (colors : list (string * Q)) : gmap string Q :=
  foldl (fun d c => <[c.1 := c.2]> d) ∅ colors.

Definition fetch_color_data (x : Exchange (list (string * Q)))
  : Await (gmap string Q) :=
  match x with
  | raises => throws
  | answers r =>
      gives (if bool_decide (status r = 200%Z) then
               match data r with
               | Some colors => color_dict colors
               | None => ∅
               end
             else ∅)
  end.

(** *** Market prices *)

Definition DEFAULT_PRICES_items : list (string * Q) :=
  [("food", 50); ("coal", 100); ("oil", 150); ("uranium", 400);
   ("lead", 100); ("iron", 100); ("bauxite", 100); ("gasoline", 175);
   ("munitions", 250); ("steel", 200); ("aluminum", 150)].

Definition DEFAULT_PRICES : gmap string Q := list_to_map DEFAULT_PRICES_items.

(** The cache file when [get_pnw_market_prices] opens it: absent, unreadable
    as the expected JSON, or a dict that has or lacks each of the keys
    ["timestamp"] and ["prices"]. *)
Inductive CacheFile :=
  | cache_absent
  | cache_corrupted
  | cache_loaded (timestamp : option Q) (prices : option (gmap string Q)).

Record Market := {
  cache_file : CacheFile;
  time_now : Q;                 (* time.time() *)
  api_key_set : bool;           (* PNW_API_KEY is truthy *)
  tradeprices : Exchange (gmap string (option Q));
                                (* the first entry of tradeprices.data; a
                                   resource maps to a number or to null *)
  cache_writable : bool         (* writing the cache file succeeds *)
}.

(** The first [if] of [get_pnw_market_prices]: the cached prices when the
    cache is less than two hours old. *)
Definition cached_prices (m : Market) : option (gmap string Q) :=
  match cache_file m with
  | cache_loaded timestamp prices =>
      let cache_time := default 0 timestamp in
      match (time_now m - cache_time) ?= 7200 with
      | Lt => Some (default DEFAULT_PRICES prices)
      | _ => None
      end
  | _ => None
  end.

(** The loop over [DEFAULT_PRICES.keys()] that overrides the defaults. *)
Definition merge_prices (trade_data : gmap string (option Q)) : gmap string Q :=
  foldl (fun prices resource =>
           match trade_data !! resource with
           | Some (Some v) => <[resource := v]> prices
           | _ => prices
           end)
        DEFAULT_PRICES (DEFAULT_PRICES_items.*1).

Definition get_pnw_market_prices (m : Market) : gmap string Q :=
  match cached_prices m with
  | Some prices => prices
  | None =>
      if negb (api_key_set m) then DEFAULT_PRICES
      else
        match tradeprices m with
        | raises => DEFAULT_PRICES
        | answers r =>
            if bool_decide (status r ≠ 200%Z) then DEFAULT_PRICES
            else
              match data r with
              | Some trade_data =>
                  let prices := merge_prices trade_data in
                  if cache_writable m then prices else DEFAULT_PRICES
              | None => DEFAULT_PRICES
              end
        end
  end.

(** *** The world of one calculation *)

Record Member := {
  id : Z;
  alliance_position : string
}.

Record AllianceData := {
  name : option string;
  nations : list Member
}.

(** The awaits of [calculate_nation_revenue] that stand outside any [try]:
    its four requests, and the reading of the price cache file, around which
    [get_pnw_market_prices] catches [JSONDecodeError] and [KeyError] only. *)
Inductive Unguarded :=
  | nation_fetch
  | game_info_fetch
  | color_fetch
  | price_cache_read
  | alliance_color_fetch.

(** What the requests answer, and, for the calculation of each nation,
    which of its unguarded awaits raises instead (a connection that fails, a
    body that is no JSON, a cache file that cannot be opened).  Where an
    await raises, what the world would have answered is not read. *)
Record World := {
  today : Z;
  nations_response : Z -> Response Nation;
  game_info_response : Response GameInfo;
  colors_response : Response (list (string * Q));
  alliance_color_response : string -> Response string;
  alliances_response : Z -> Response AllianceData;
  market : Market;
  raising : Z -> Unguarded -> bool
}.

(** A request of the calculation for [nation_id]: it raises, or it gets
    the answer of the world. *)
Definition sent {A : Type} (w : World) (nation_id : Z) (u : Unguarded)
    (r : Response A) : Exchange A :=
  if raising w nation_id u then raises else answers r.

(** [await get_pnw_market_prices()] inside the calculation. *)
Definition fetch_market_prices (w : World) (nation_id : Z)
  : Await (gmap string Q) :=
  if raising w nation_id price_cache_read then throws
  else gives (get_pnw_market_prices (market w)).

(** The request for the alliance colour inside [calculate_nation_revenue]:
    sent only when [nation.get("alliance_id")] is truthy. *)
Definition fetch_alliance_color (w : World) (nation_id : Z) (nation : Nation)
  : Await (option string) :=
  if bool_decide (alliance_id nation ≠ "") then
    match sent w nation_id alliance_color_fetch
            (alliance_color_response w (alliance_id nation)) with
    | raises => throws
    | answers r =>
        gives (if bool_decide (status r = 200%Z) then data r else None)
    end
  else gives None.

(** ** [calculate_nation_revenue] *)

(** What [await calculate_nation_revenue(nation_id)] does, alone or inside
    the [try] of the member loop: it raises, or it returns. *)
Inductive Outcome :=
  | raised
  | returns (r : returned Report.t).

Section Calculate.

Variable math_log : Z -> Q.

Definition calculate_nation_revenue (w : World) (nation_id : Z) : Outcome :=
  match fetch_nation_data
          (sent w nation_id nation_fetch (nations_response w nation_id)) with
  | throws => raised
  | gives None => returns (error "Nation non trouvée")
  | gives (Some nation) =>
      match await fetch_game_info
              (sent w nation_id game_info_fetch (game_info_response w)) with
      | throws => raised
      | gives None =>
          returns (error "Impossible de récupérer les informations du jeu")
      | gives (Some game_info) =>
          match fetch_color_data
                  (sent w nation_id color_fetch (colors_response w)) with
          | throws => raised
          | gives color_bonuses =>
              match fetch_market_prices w nation_id with
              | throws => raised
              | gives market_prices =>
                  match fetch_alliance_color w nation_id nation with
                  | throws => raised
                  | gives alliance_color =>
                      returns
                        (result (nation_report math_log nation game_info
                                   (today w) color_bonuses market_prices
                                   alliance_color))
                  end
              end
          end
      end
  end.

End Calculate.

(** ** [calculate_alliance_revenue] *)

Definition fetch_alliance_data (r : Response AllianceData) : option AllianceData :=
  if bool_decide (status r = 200%Z) then data r else None.

(** One entry of [member_results]. *)
Record MemberResult := {
  mr_id : Z;
  mr_name : string;
  mr_cities : Z;
  mr_net_income : Q;
  mr_total_income : Q
}.

(** What [calculate_alliance_revenue] returns on success; the loop updates
    every field but the first two in place. *)
Module Alliance.
Record t := {
  alliance_name : string;
  member_count : Z;
  processed_nations : Z;
  failed_nations : Z;
  total_cities : Z;
  production : Production;
  monetary_resources : resource -> Report.monetary;
  total_monetary_value : Q;
  income : Report.income_t;
  member_results : list MemberResult
}.
End Alliance.

Definition income_zero : Report.income_t :=
  {| Report.gross_income := 0; Report.color_bonus := 0;
     Report.gross_total := 0; Report.military_upkeep := 0;
     Report.improvement_upkeep := 0; Report.gross_upkeep := 0;
     Report.net_income := 0; Report.monetary_net_income := 0 |}.

(** The eight [alliance_income[...] += ...] lines. *)
Definition income_add (a b : Report.income_t) : Report.income_t :=
  {| Report.gross_income := Report.gross_income a + Report.gross_income b;
     Report.color_bonus := Report.color_bonus a + Report.color_bonus b;
     Report.gross_total := Report.gross_total a + Report.gross_total b;
     Report.military_upkeep :=
       Report.military_upkeep a + Report.military_upkeep b;
     Report.improvement_upkeep :=
       Report.improvement_upkeep a + Report.improvement_upkeep b;
     Report.gross_upkeep := Report.gross_upkeep a + Report.gross_upkeep b;
     Report.net_income := Report.net_income a + Report.net_income b;
     Report.monetary_net_income :=
       Report.monetary_net_income a + Report.monetary_net_income b |}.

Definition monetary_add (a b : Report.monetary) : Report.monetary :=
  {| Report.amount := Report.amount a + Report.amount b;
     Report.value := Report.value a + Report.value b |}.

(** [failed_nations += 1], nothing else touched. *)
Definition count_failure (acc : Alliance.t) : Alliance.t :=
  {| Alliance.alliance_name := Alliance.alliance_name acc;
     Alliance.member_count := Alliance.member_count acc;
     Alliance.processed_nations := Alliance.processed_nations acc;
     Alliance.failed_nations := (Alliance.failed_nations acc + 1)%Z;
     Alliance.total_cities := Alliance.total_cities acc;
     Alliance.production := Alliance.production acc;
     Alliance.monetary_resources := Alliance.monetary_resources acc;
     Alliance.total_monetary_value := Alliance.total_monetary_value acc;
     Alliance.income := Alliance.income acc;
     Alliance.member_results := Alliance.member_results acc |}.

(** The part of the loop body after the ["error"] test. *)
Definition add_member (acc : Alliance.t) (nation_id : Z) (r : Report.t)
  : Alliance.t :=
  {| Alliance.alliance_name := Alliance.alliance_name acc;
     Alliance.member_count := Alliance.member_count acc;
     Alliance.processed_nations := (Alliance.processed_nations acc + 1)%Z;
     Alliance.failed_nations := Alliance.failed_nations acc;
     Alliance.total_cities :=
       (Alliance.total_cities acc + Report.num_cities r)%Z;
     Alliance.production :=
       fun res => Alliance.production acc res + Report.production r res;
     Alliance.monetary_resources :=
       fun res => monetary_add (Alliance.monetary_resources acc res)
                               (Report.monetary_resources r res);
     Alliance.total_monetary_value :=
       Alliance.total_monetary_value acc + Report.total_monetary_value r;
     Alliance.income := income_add (Alliance.income acc) (Report.income r);
     Alliance.member_results :=
       Alliance.member_results acc ++
       [{| mr_id := nation_id;
           mr_name := Report.nation_name r;
           mr_cities := Report.num_cities r;
           mr_net_income := Report.net_income (Report.income r);
           mr_total_income := Report.monetary_net_income (Report.income r) |}]
  |}.

(** [member_results.sort(key=total_income, reverse=True)]: a stable sort,
    largest first. *)
Fixpoint insert_result (x : MemberResult) (l : list MemberResult)
  : list MemberResult :=
  match l with
  | [] => [x]
  | y :: l' =>
      match mr_total_income y ?= mr_total_income x with
      | Lt => x :: l
      | _ => y :: insert_result x l'
      end
  end.

Definition sort_results (l : list MemberResult) : list MemberResult :=
  foldl (fun sorted x => insert_result x sorted) [] l.

Section AllianceRevenue.

(** The per-member call. *)
Variable call_nation : Z -> Outcome.

(** One iteration of [for nation in member_nations]. *)
Definition member_step (acc : Alliance.t) (nation : Member) : Alliance.t :=
  let nation_id := id nation in
  match call_nation nation_id with
  | raised => count_failure acc
  | returns (error _) => count_failure acc
  | returns (result r) => add_member acc nation_id r
  end.

Definition member_nations (alliance_data : AllianceData) : list Member :=
  filter (fun nation => alliance_position nation ≠ "APPLICANT")
         (nations alliance_data).

Definition alliance_init (alliance_data : AllianceData) : Alliance.t :=
  {| Alliance.alliance_name := default "Alliance inconnue" (name alliance_data);
     Alliance.member_count := Z.of_nat (length (member_nations alliance_data));
     Alliance.processed_nations := 0;
     Alliance.failed_nations := 0;
     Alliance.total_cities := 0;
     Alliance.production := production_init;
     Alliance.monetary_resources :=
       fun _ => {| Report.amount := 0; Report.value := 0 |};
     Alliance.total_monetary_value := 0;
     Alliance.income := income_zero;
     Alliance.member_results := [] |}.

Definition member_loop (alliance_data : AllianceData) : Alliance.t :=
  foldl member_step (alliance_init alliance_data) (member_nations alliance_data).

Definition finish (acc : Alliance.t) : Alliance.t :=
  {| Alliance.alliance_name := Alliance.alliance_name acc;
     Alliance.member_count := Alliance.member_count acc;
     Alliance.processed_nations := Alliance.processed_nations acc;
     Alliance.failed_nations := Alliance.failed_nations acc;
     Alliance.total_cities := Alliance.total_cities acc;
     Alliance.production := Alliance.production acc;
     Alliance.monetary_resources := Alliance.monetary_resources acc;
     Alliance.total_monetary_value := Alliance.total_monetary_value acc;
     Alliance.income := Alliance.income acc;
     Alliance.member_results := sort_results (Alliance.member_results acc) |}.

Definition calculate_alliance_revenue_with (w : World) (alliance_id : Z)
  : returned Alliance.t :=
  match fetch_alliance_data (alliances_response w alliance_id) with
  | None => error "Alliance non trouvée"
  | Some alliance_data =>
      match fetch_game_info (game_info_response w) with
      | None => error "Impossible de récupérer les informations du jeu"
      | Some _ => result (finish (member_loop alliance_data))
      end
  end.

End AllianceRevenue.

(** The per-member call is [calculate_nation_revenue] on the same world. *)
Definition calculate_alliance_revenue (math_log : Z -> Q) (w : World)
    (alliance_id : Z) : returned Alliance.t :=
  calculate_alliance_revenue_with (calculate_nation_revenue math_log w)
    w alliance_id.

(** ** [PnwApiLimiter]

    The limiter keeps the times of the requests it let through.  The two
    readings of [time.time()] in [execute_request] are arguments of the
    model: [current_time], read on entry, and [sent_time], read when the
    request is recorded, after the sleep if there is one. *)

(** [x < y] on floats. *)
Definition Qlt_bool (x y : Q) : bool :=
  match x ?= y with Lt => true | _ => false end.

(** [min(l)]; [None] stands for the [ValueError] of an empty list. *)
Definition py_min_list (l : list Q) : option Q :=
  match l with
  | [] => None
  | x :: l' => Some (foldl (fun m y => if Qlt_bool y m then y else m) x l')
  end.

Module Limiter.

Record t := {
  requests_per_minute : Z;
  request_times : list Q
}.

(** [PnwApiLimiter(requests_per_minute)]. *)
Definition init (requests_per_minute : Z) : t :=
  {| requests_per_minute := requests_per_minute; request_times := [] |}.

(** [[t for t in self.request_times if current_time - t < 60]]. *)
Definition recent (current_time : Q) (times : list Q) : list Q :=
  List.filter (fun t => Qlt_bool (current_time - t) 60) times.

(** What the block under [if len(self.request_times) >= ...] does. *)
Inductive Wait :=
  | value_error
  | no_wait
  | sleep (wait_time : Q).

Definition wait (l : t) (current_time : Q) : Wait :=
  let times := recent current_time (request_times l) in
  if (requests_per_minute l <=? Z.of_nat (length times))%Z then
    match py_min_list times with
    | None => value_error
    | Some oldest_request =>
        let wait_time := 60 - (current_time - oldest_request) + 0.1 in
        if Qlt_bool 0 wait_time then sleep wait_time else no_wait
    end
  else no_wait.

(** The limiter when the request has been recorded; [None] when [min]
    raised. *)
Definition record (l : t) (current_time sent_time : Q) : option t :=
  match wait l current_time with
  | value_error => None
  | _ =>
      Some {| requests_per_minute := requests_per_minute l;
              request_times :=
                recent current_time (request_times l) ++ [sent_time] |}
  end.

(** The limiter after the call and what the call returns: the body of an
    answer with status 200, [None] for another status or when the request
    or the decoding of the body raises. *)
Definition execute_request {A : Type} (l : t) (current_time sent_time : Q)
    (x : Exchange A) : option (t * option A) :=
  match record l current_time sent_time with
  | None => None
  | Some l' =>
      Some (l',
            match x with
            | raises => None
            | answers r => if bool_decide (status r = 200%Z) then data r else None
            end)
  end.

(** The two clock readings of one call. *)
Record Call := {
  current_time : Q;
  sent_time : Q
}.

(** A sequence of calls on the same limiter. *)
Fixpoint run (l : t) (calls : list Call) : option t :=
  match calls with
  | [] => Some l
  | c :: calls' =>
      match record l (current_time c) (sent_time c) with
      | None => None
      | Some l' => run l' calls'
      end
  end.

End Limiter.

(** ** [fetch_and_aggregate_member_resources] *)

(** The keys of [total_resources]. *)
Inductive stock_key :=
  | money
  | stocked (r : resource).

#[global] Instance stock_key_eq_dec : EqDecision stock_key.
Proof. solve_decision. Defined.

(** [total_resources.keys()], in the order of the dict. *)
Definition stock_keys : list stock_key :=
  [money; stocked food; stocked steel; stocked aluminum; stocked gasoline;
   stocked munitions; stocked uranium; stocked coal; stocked oil;
   stocked iron; stocked lead; stocked bauxite].

Definition stock_key_name (k : stock_key) : string :=
  match k with
  | money => "money"
  | stocked r => resource_key r
  end.

(** [nation_data.get(key, 0)] on the JSON object of a nation: a number, or
    [None] for a JSON null. *)
Definition json_get (nation_data : gmap string (option Q)) (key : string)
  : option Q :=
  match nation_data !! key with
  | Some v => v
  | None => Some 0
  end.

(** The dict that [fetch_nation_resources] returns, without its
    ["nation_name"], which the aggregation does not read. *)
Definition fetch_nation_resources (r : Response (gmap string (option Q)))
  : option (stock_key -> option Q) :=
  if bool_decide (status r = 200%Z) then
    match data r with
    | Some nation_data =>
        Some (fun k => json_get nation_data (stock_key_name k))
    | None => None
    end
  else None.

Definition Stock : Type := stock_key -> Q.

Definition stock_init : Stock := fun _ => 0.

(** The loop [total_resources[resource] += resources_data[resource]] over
    the keys; [None] is the [TypeError] of adding a null. *)
Definition add_stock (total_resources : Stock)
    (resources_data : stock_key -> option Q) : option Stock :=
  foldl (fun acc resource =>
           match acc, resources_data resource with
           | Some total, Some v =>
               Some (fun k => if decide (k = resource)
                              then total k + v else total k)
           | _, _ => None
           end)
        (Some total_resources) stock_keys.

(** What [fetch_and_aggregate_member_resources] does: it raises, it returns
    [None], or it returns the resources and their value. *)
Inductive Aggregated :=
  | type_error
  | no_aggregate
  | aggregated (resources : Stock) (total_value : Q).

(** The loop over [total_resources.items()] that prices the stock. *)
Definition stock_value (market_prices : gmap string Q)
    (total_resources : Stock) : Q :=
  foldl (fun total_value k =>
           match k with
           | money => total_value + total_resources money
           | stocked r =>
               total_value
               + total_resources k * dict_get market_prices (resource_key r) 0
           end)
        0 stock_keys.

Section MemberResources.

(** What the request of [fetch_nation_resources] answers for a nation. *)
Variable resources_response : Z -> Response (gmap string (option Q)).

(** One iteration of [for nation_id in member_nation_ids]. *)
Definition aggregate_step (acc : option Stock) (nation_id : Z)
  : option Stock :=
  match acc with
  | None => None
  | Some total_resources =>
      match fetch_nation_resources (resources_response nation_id) with
      | Some resources_data => add_stock total_resources resources_data
      | None => Some total_resources
      end
  end.

Definition fetch_and_aggregate_member_resources (w : World)
    (alliance_id : Z) : Aggregated :=
  match fetch_alliance_data (alliances_response w alliance_id) with
  | None => no_aggregate
  | Some alliance_data =>
      let member_nation_ids := map id (member_nations alliance_data) in
      match foldl aggregate_step (Some stock_init) member_nation_ids with
      | None => type_error
      | Some total_resources =>
          aggregated total_resources
            (stock_value (get_pnw_market_prices (market w)) total_resources)
      end
  end.

End MemberResources.

(** ** The bank history: [is_duplicate_entry], the recording step of
    [on_message], [remove_outliers]

    A record of [bank_records] is read through its timestamp, as the number
    of seconds that [datetime.strptime] gives it, and through
    [record["resources"].get("total_value")], [None] when the key is
    absent. *)

Record BankRecord := {
  br_timestamp : Z;
  br_requested_by : string;
  br_total_value : option Q
}.

(** [is_duplicate_entry(history_data, timestamp, total_value)]. *)
Fixpoint is_duplicate_entry (bank_records : list BankRecord) (timestamp : Z)
    (total_value : Q) : bool :=
  match bank_records with
  | [] => false
  | record :: rest =>
      let time_diff := Z.abs (br_timestamp record - timestamp) in
      if (time_diff <? 300)%Z
         && match br_total_value record with
            | Some v => Qeq_bool v total_value
            | None => false
            end
      then true
      else is_duplicate_entry rest timestamp total_value
  end.

(** The block of [on_message] under [if resources and 'total_value' in
    resources]; [total_value] is [None] when that test fails. *)
Definition record_bank_data (bank_records : list BankRecord) (timestamp : Z)
    (requested_by : string) (total_value : option Q) : list BankRecord :=
  match total_value with
  | Some v =>
      if negb (is_duplicate_entry bank_records timestamp v) then
        bank_records
        ++ [{| br_timestamp := timestamp;
               br_requested_by := requested_by;
               br_total_value := Some v |}]
      else bank_records
  | None => bank_records
  end.

(** The message that [remove_outliers] sends. *)
Inductive OutlierMessage :=
  | outliers_removed (removed_count : Z)
  | no_outlier_found.

(** The test of the list comprehension of [remove_outliers]. *)
Definition keeps (record : BankRecord) : bool :=
  match br_total_value record with
  | Some v => Qle_bool 500000000 v
  | None => false
  end.

(** The records that [remove_outliers] saves, and its message. *)
Definition remove_outliers (bank_records : list BankRecord)
  : list BankRecord * OutlierMessage :=
  let original_count := Z.of_nat (length bank_records) in
  let kept := List.filter keeps bank_records in
  let removed_count := (original_count - Z.of_nat (length kept))%Z in
  (kept,
   if (0 <? removed_count)%Z then outliers_removed removed_count
   else no_outlier_found).

(** ** The statistics of [show_bank_stats]

    The block under [# Extract total values for stats calculation], on the
    records that the command has filtered by date and sorted by timestamp
    (the list is not empty there). *)

(** [max(l)]; [None] stands for the [ValueError] of an empty list. *)
Definition py_max_list (l : list Q) : option Q :=
  match l with
  | [] => None
  | x :: l' => Some (foldl (fun m y => if Qlt_bool m y then y else m) x l')
  end.

Record BankStats := {
  earliest_value : Q;
  latest_value : Q;
  min_value : Q;
  max_value : Q;
  avg_value : Q;
  growth : Q;
  growth_percent : Q;
  days_elapsed : Z;
  daily_growth : Q;
  daily_growth_percent : Q
}.

(** What the command sends: the message of the [except] clause, the
    message for fewer than two data points, or the statistics. *)
Inductive StatsReply :=
  | stats_error
  | too_few_points (n : nat)
  | statistics (s : BankStats).

(** [[record["resources"]["total_value"] for record in filtered_records]];
    [None] is the [KeyError] of a record without the key. *)
Definition total_values_of (filtered_records : list BankRecord)
  : option (list Q) :=
  mapM br_total_value filtered_records.

Definition bank_statistics (filtered_records : list BankRecord) : StatsReply :=
  match total_values_of filtered_records with
  | None => stats_error
  | Some total_values =>
      match total_values, last total_values,
            py_min_list total_values, py_max_list total_values,
            filtered_records, last filtered_records with
      | earliest_value :: _ :: _, Some latest_value,
        Some min_value, Some max_value,
        first_record :: _, Some last_record =>
          let avg_value :=
            foldl Qplus 0 total_values
            / inject_Z (Z.of_nat (length total_values)) in
          let growth := latest_value - earliest_value in
          let growth_percent :=
            if negb (Qeq_bool earliest_value 0)
            then (growth / earliest_value) * 100 else 0 in
          let days_elapsed :=
            Z.max ((br_timestamp last_record - br_timestamp first_record)
                   / 86400) 1 in
          let daily_growth := growth / inject_Z days_elapsed in
          let daily_growth_percent :=
            if negb (Qeq_bool earliest_value 0)
            then (daily_growth / earliest_value) * 100 else 0 in
          statistics
            {| earliest_value := earliest_value;
               latest_value := latest_value;
               min_value := min_value;
               max_value := max_value;
               avg_value := avg_value;
               growth := growth;
               growth_percent := growth_percent;
               days_elapsed := days_elapsed;
               daily_growth := daily_growth;
               daily_growth_percent := daily_growth_percent |}
      | _, _, _, _, _, _ => too_few_points (length filtered_records)
      end
  end.

(** ** [process_alliance_tax_data]

    A tax record is read through what the function reads of it: whether
    [record.get("tax_id")] is truthy, the day that
    [datetime.fromisoformat(...).strftime("%Y-%m-%d")] gives for its date
    ([None] when the key is absent or the date does not parse, the
    [KeyError] and [ValueError] that the loop catches), and its amounts
    ([None] for an absent key or a null). *)

Record TaxRecord := {
  tax_id : bool;
  tax_day : option string;
  tax_amount : stock_key -> option Q
}.

(** One value of [daily_records]. *)
Record DayData := {
  day_date : string;
  day_amounts : Stock;
  day_count : Z;
  day_total_value : Q
}.

(** The list of resources of the inner loop. *)
Definition tax_keys : list stock_key :=
  [money; stocked coal; stocked oil; stocked uranium; stocked iron;
   stocked bauxite; stocked lead; stocked gasoline; stocked munitions;
   stocked steel; stocked aluminum; stocked food].

Definition day_init (date_str : string) : DayData :=
  {| day_date := date_str; day_amounts := fun _ => 0;
     day_count := 0; day_total_value := 0 |}.

(** [count += 1] and the loop
    [if resource in record and record[resource]: ... += record[resource]]. *)
Definition add_tax (day_data : DayData) (record : TaxRecord) : DayData :=
  {| day_date := day_date day_data;
     day_amounts :=
       foldl (fun amounts resource =>
                match tax_amount record resource with
                | Some v =>
                    if Qeq_bool v 0 then amounts
                    else fun k => if decide (k = resource)
                                  then amounts k + v else amounts k
                | None => amounts
                end)
             (day_amounts day_data) tax_keys;
     day_count := (day_count day_data + 1)%Z;
     day_total_value := day_total_value day_data |}.

(** One iteration of [for record in tax_records]. *)
Definition tax_step (daily_records : gmap string DayData) (record : TaxRecord)
  : gmap string DayData :=
  if negb (tax_id record) then daily_records
  else
    match tax_day record with
    | None => daily_records
    | Some date_str =>
        let day_data := default (day_init date_str) (daily_records !! date_str) in
        <[date_str := add_tax day_data record]> daily_records
    end.

(** The loop over [day_data.items()] that prices a day. *)
Definition day_value (market_prices : gmap string Q) (day_data : DayData) : Q :=
  foldl (fun total_value k =>
           match k with
           | money => total_value
           | stocked r =>
               if Qlt_bool 0 (day_amounts day_data k)
               then total_value
                    + day_amounts day_data k
                      * dict_get market_prices (resource_key r) 0
               else total_value
           end)
        (day_amounts day_data money) tax_keys.

Definition set_total_value (market_prices : gmap string Q) (day_data : DayData)
  : DayData :=
  {| day_date := day_date day_data;
     day_amounts := day_amounts day_data;
     day_count := day_count day_data;
     day_total_value := day_value market_prices day_data |}.

(** [sorted(daily_records.items())]: the items in the order of their
    dates. *)
Fixpoint insert_day (x : string * DayData) (l : list (string * DayData))
  : list (string * DayData) :=
  match l with
  | [] => [x]
  | y :: l' =>
      if String.leb x.1 y.1 then x :: l else y :: insert_day x l'
  end.

Definition sorted_items (daily_records : gmap string DayData)
  : list (string * DayData) :=
  foldr insert_day [] (map_to_list daily_records).

(** The entry of an alliance in the tax history file. *)
Record AllianceTaxes := {
  taxes_name : string;
  taxes_daily_records : gmap string DayData
}.

(** What the function returns and the history that it leaves on file;
    [tax_data] is what [fetch_alliance_tax_records] returned. *)
Definition process_alliance_tax_data (tax_history : gmap Z AllianceTaxes)
    (market_prices : gmap string Q) (alliance_id : Z)
    (alliance_name : string) (tax_records : list TaxRecord)
  : (string * list DayData) * gmap Z AllianceTaxes :=
  match tax_records with
  | [] => ((alliance_name, []), tax_history)
  | _ =>
      let daily_records := foldl tax_step ∅ tax_records in
      let daily_records := set_total_value market_prices <$> daily_records in
      let entry :=
        default {| taxes_name := alliance_name; taxes_daily_records := ∅ |}
                (tax_history !! alliance_id) in
      let entry :=
        {| taxes_name := taxes_name entry;
           taxes_daily_records :=
             daily_records ∪ taxes_daily_records entry |} in
      ((alliance_name, (sorted_items daily_records).*2),
       <[alliance_id := entry]> tax_history)
  end.

(** * The formulas of the specification *)

(** The formula of the food step as the specification words it. *)
Module FoodSpec.

Definition southern (continent : string) : bool :=
  bool_decide (continent ∈ ["sa"; "as"; "af"]).

Definition antarctic (continent : string) : bool :=
  bool_decide (continent = "an").

Definition rate (irrigation : bool) (continent : string) (land : Q) : Q :=
  let r := if irrigation then land / 400 else land / 500 in
  if antarctic continent then r / 2 else r.

(** The season of a month in the Northern hemisphere. *)
Inductive season := winter | summer | between.

Definition northern_season (month : Z) : season :=
  if bool_decide (month ∈ [12; 1; 2]%Z) then winter
  else if bool_decide (month ∈ [6; 7; 8]%Z) then summer
  else between.

Definition seasonal (continent : string) (month : Z) : Q :=
  if antarctic continent then 1
  else
    match northern_season month with
    | between => 1
    | winter => if southern continent then 1.2 else 0.8
    | summer => if southern continent then 0.8 else 1.2
    end.

Definition penalty (continent_radiation global_radiation : Q)
    (shelter : bool) : Q :=
  - ((continent_radiation + global_radiation) / 1000)
  * (if shelter then 0.85 else 1).


End FoodSpec.

(** The curve of diminishing returns of the specification. *)
Definition curve (count : Z) : Q :=
  inject_Z count * (1 + 0.5 * (inject_Z count - 1) / 4).

(** The fuel formulas as the specification writes them, with the ceiling of
    the quotient. *)
Module FuelSpec.

Definition uranium_used (infra : Q) (nuclear_plants : Z) : Q :=
  inject_Z (Z.min (Qceiling (infra / 1000)) (nuclear_plants * 2)) * 2.4.

Definition coal_used (infra : Q) (coal_plants : Z) : Q :=
  inject_Z (Z.min (Qceiling (infra / 100)) (coal_plants * 5)) * 1.2.

Definition oil_used (infra : Q) (oil_plants : Z) : Q :=
  inject_Z (Z.min (Qceiling (infra / 100)) (oil_plants * 5)) * 1.2.

End FuelSpec.

(** The sum of a list of amounts. *)
Definition Qsum (l : list Q) : Q := foldr Qplus 0 l.

Definition Zsum (l : list Z) : Z := foldr Z.add 0%Z l.

(** The eight entries of [alliance_income]. *)
Definition income_fields : list (Report.income_t -> Q) :=
  [Report.gross_income; Report.color_bonus; Report.gross_total;
   Report.military_upkeep; Report.improvement_upkeep; Report.gross_upkeep;
   Report.net_income; Report.monetary_net_income].

(** The ways the price request fails once the cache is of no use: no API
    key, an exception, a status other than 200, a payload without trade
    prices, or a cache file that cannot be written. *)
Definition market_fetch_fails (m : Market) : Prop :=
  cached_prices m = None
  /\ (api_key_set m = false
      \/ tradeprices m = raises
      \/ (exists r, tradeprices m = answers r
                    /\ (status r <> 200%Z \/ data r = None))
      \/ cache_writable m = false).

(** The ways the colour request fails. *)
Definition color_fetch_fails (c : Response (list (string * Q))) : Prop :=
  status c <> 200%Z \/ data c = None.

(** * Readings of the model *)

(** [income] when the military block is done, before the domestic policy. *)
Definition income_before_policy (math_log : Z -> Q) (nation : Nation)
    (game_info : GameInfo) (today : Z) : Income.t :=
  snd (military nation (city_loop math_log nation game_info today)).

(** [income["military_upkeep"]] after the military block, before the
    domestic policy. *)
Definition upkeep_after_military (n : Nation) : Q :=
  Income.military_upkeep (snd (military n (production_init, Income.init))).

(** The same nation with other war counts. *)
Definition set_wars (n : Nation) (offensive defensive : Z) : Nation :=
  {| nation_name := nation_name n; flag := flag n;
     alliance_id := alliance_id n; num_cities := num_cities n;
     color := color n; continent := continent n;
     domestic_policy := domestic_policy n;
     soldiers := soldiers n; tanks := tanks n; aircraft := aircraft n;
     ships := ships n; spies := spies n; missiles := missiles n;
     nukes := nukes n;
     offensive_wars_count := offensive; defensive_wars_count := defensive;
     bauxite_works := bauxite_works n;
     emergency_gasoline_reserve := emergency_gasoline_reserve n;
     iron_works := iron_works n;
     uranium_enrichment_program := uranium_enrichment_program n;
     specialized_police_training_program :=
       specialized_police_training_program n;
     international_trade_center := international_trade_center n;
     telecommunications_satellite := telecommunications_satellite n;
     clinical_research_center := clinical_research_center n;
     green_technologies := green_technologies n;
     arms_stockpile := arms_stockpile n;
     government_support_agency := government_support_agency n;
     mass_irrigation := mass_irrigation n;
     fallout_shelter := fallout_shelter n;
     bureau_of_domestic_affairs := bureau_of_domestic_affairs n;
     recycling_initiative := recycling_initiative n;
     cities := cities n |}.

(** The same world with another answer of the market, or of the colour
    request. *)
Definition set_market (w : World) (m : Market) : World :=
  {| today := today w;
     nations_response := nations_response w;
     game_info_response := game_info_response w;
     colors_response := colors_response w;
     alliance_color_response := alliance_color_response w;
     alliances_response := alliances_response w;
     market := m;
     raising := raising w |}.

Definition set_colors_response (w : World)
    (c : Response (list (string * Q))) : World :=
  {| today := today w;
     nations_response := nations_response w;
     game_info_response := game_info_response w;
     colors_response := c;
     alliance_color_response := alliance_color_response w;
     alliances_response := alliances_response w;
     market := market w;
     raising := raising w |}.

(** How a call for a nation ends. *)
Inductive Ending :=
  | ends_raising
  | ends_in_error
  | ends_in_report.

Definition ending (o : Outcome) : Ending :=
  match o with
  | raised => ends_raising
  | returns (error _) => ends_in_error
  | returns (result _) => ends_in_report
  end.

(** The report of a member whose call returned one. *)
Definition succeeded (call_nation : Z -> Outcome) (nation : Member)
  : option Report.t :=
  match call_nation (id nation) with
  | returns (result r) => Some r
  | _ => None
  end.

(** The reports of the members that were processed, in member order. *)
Definition successes (call_nation : Z -> Outcome) (members : list Member)
  : list Report.t :=
  omap (succeeded call_nation) members.

(** Whether the call for a member raised or returned an error. *)
Definition failed_member (call_nation : Z -> Outcome) (nation : Member) : bool :=
  match succeeded call_nation nation with
  | Some _ => false
  | None => true
  end.

(** The same nation with other cities. *)
Definition set_cities (n : Nation) (cs : list City) : Nation :=
  {| nation_name := nation_name n; flag := flag n;
     alliance_id := alliance_id n; num_cities := num_cities n;
     color := color n; continent := continent n;
     domestic_policy := domestic_policy n;
     soldiers := soldiers n; tanks := tanks n; aircraft := aircraft n;
     ships := ships n; spies := spies n; missiles := missiles n;
     nukes := nukes n;
     offensive_wars_count := offensive_wars_count n;
     defensive_wars_count := defensive_wars_count n;
     bauxite_works := bauxite_works n;
     emergency_gasoline_reserve := emergency_gasoline_reserve n;
     iron_works := iron_works n;
     uranium_enrichment_program := uranium_enrichment_program n;
     specialized_police_training_program :=
       specialized_police_training_program n;
     international_trade_center := international_trade_center n;
     telecommunications_satellite := telecommunications_satellite n;
     clinical_research_center := clinical_research_center n;
     green_technologies := green_technologies n;
     arms_stockpile := arms_stockpile n;
     government_support_agency := government_support_agency n;
     mass_irrigation := mass_irrigation n;
     fallout_shelter := fallout_shelter n;
     bureau_of_domestic_affairs := bureau_of_domestic_affairs n;
     recycling_initiative := recycling_initiative n;
     cities := cs |}.

(** The improvement counts of a city, in the order of the nation query. *)
Definition improvement_counts (c : City) : list Z :=
  [oil_refinery c; steel_mill c; aluminum_refinery c; munitions_factory c;
   uranium_mine c; oil_well c; iron_mine c; coal_mine c; bauxite_mine c;
   lead_mine c; farm c;
   subway c; stadium c; shopping_mall c; bank c; supermarket c;
   police_station c; hospital c; recycling_center c;
   nuclear_power c; coal_power c; oil_power c; wind_power c].

(** What one city alone does to a resource. *)
Definition city_delta (math_log : Z -> Q) (nation : Nation)
    (game_info : GameInfo) (today : Z) (city : City) (r : resource) : Q :=
  city_production math_log nation game_info today city production_init r.


(** The entry of [member_results] for a processed member. *)
Definition member_summary (nation_id : Z) (r : Report.t) : MemberResult :=
  {| mr_id := nation_id;
     mr_name := Report.nation_name r;
     mr_cities := Report.num_cities r;
     mr_net_income := Report.net_income (Report.income r);
     mr_total_income := Report.monetary_net_income (Report.income r) |}.

(** The entries of the processed members, in member order. *)
Definition summaries (call_nation : Z -> Outcome) (members : list Member)
  : list MemberResult :=
  omap (fun nation =>
          member_summary (id nation) <$> succeeded call_nation nation)
       members.

(** Largest total income first. *)
Definition richer_first (x y : MemberResult) : Prop :=
  mr_total_income y <= mr_total_income x.



(** Whether an entry of [member_results] has the sort key [v]. *)
Definition same_total (v : Q) (x : MemberResult) : bool :=
  Qeq_bool (mr_total_income x) v.

(** The alliance report of a world, as [calculate_alliance_revenue] builds
    it once the alliance and the game information are fetched. *)
Definition alliance_report (math_log : Z -> Q) (w : World)
    (alliance_data : AllianceData) : Alliance.t :=
  finish (member_loop (calculate_nation_revenue math_log w) alliance_data).

(** The last pair of a list of colours that has the colour [c]. *)
Definition last_bonus (colors : list (string * Q)) (c : string) : option Q :=
  snd <$> last (filter (fun e => e.1 = c) colors).

(** The price of the source's [DEFAULT_PRICES] for a resource. *)
Definition default_price (r : resource) : Q :=
  dict_get DEFAULT_PRICES (resource_key r) 0.

(** A per-member call that differs from [call_nation] at one nation. *)
Definition call_except (call_nation : Z -> Outcome) (nation_id : Z)
    (o : Outcome) : Z -> Outcome :=
  fun n => if bool_decide (n = nation_id) then o else call_nation n.

(** The clock of the limiter never goes back: each reading is at least the
    one before, starting from [last]. *)
Fixpoint clock_monotone (last : Q) (calls : list Limiter.Call) : Prop :=
  match calls with
  | [] => True
  | c :: calls' =>
      last <= Limiter.current_time c
      /\ Limiter.current_time c <= Limiter.sent_time c
      /\ clock_monotone (Limiter.sent_time c) calls'
  end.

(** [asyncio.sleep] lasts at least as long as asked: whenever a call
    sleeps, its second reading of the clock is that much later. *)
Fixpoint sleeps_honoured (l : Limiter.t) (calls : list Limiter.Call) : Prop :=
  match calls with
  | [] => True
  | c :: calls' =>
      (forall w,
          Limiter.wait l (Limiter.current_time c) = Limiter.sleep w ->
          Limiter.current_time c + w <= Limiter.sent_time c)
      /\ (forall l',
            Limiter.record l (Limiter.current_time c) (Limiter.sent_time c)
            = Some l' ->
            sleeps_honoured l' calls')
  end.

(** The times at which the requests of a run were sent. *)
Definition sent_times (calls : list Limiter.Call) : list Q :=
  map Limiter.sent_time calls.

(** What a run keeps true of a limiter: the requests sent so far ([hist])
    and the recorded ones agree on every window that ends at [last] or
    later, and the window that ends at [last] holds at most
    [requests_per_minute] of them. *)
Definition limiter_invariant (l : Limiter.t) (hist : list Q) (last : Q) : Prop :=
  (forall T, last <= T ->
             Limiter.recent T hist = Limiter.recent T (Limiter.request_times l))
  /\ (Z.of_nat (length (Limiter.recent last (Limiter.request_times l)))
      <= Limiter.requests_per_minute l)%Z.

(** The dicts of the members whose resources were fetched, in member
    order. *)
Definition fetched_resources
    (resources_response : Z -> Response (gmap string (option Q)))
    (alliance_data : AllianceData) : list (stock_key -> option Q) :=
  omap (fun nation => fetch_nation_resources (resources_response (id nation)))
       (member_nations alliance_data).

(** An amount of a fetched dict, 0 for a null. *)
Definition amount_of (resources_data : stock_key -> option Q) : Stock :=
  fun k => default 0 (resources_data k).

(** A dict without nulls. *)
Definition all_numbers (resources_data : stock_key -> option Q) : Prop :=
  forall k, is_Some (resources_data k).

(** Two records that [is_duplicate_entry] takes for the same one. *)
Definition duplicates (x y : BankRecord) : Prop :=
  (Z.abs (br_timestamp x - br_timestamp y) < 300)%Z
  /\ exists v w, br_total_value x = Some v /\ br_total_value y = Some w
                 /\ v == w.

(** No two records of the history are duplicates. *)
Definition duplicate_free (bank_records : list BankRecord) : Prop :=
  ForallOrdPairs (fun x y => ~ duplicates x y) bank_records.

(** One [$get_bank] that TARS answered: when, for whom, and the total
    value read from the answer. *)
Record BankReading := {
  reading_time : Z;
  reading_for : string;
  reading_total_value : option Q
}.

(** The history after a sequence of readings. *)
Definition record_readings (bank_records : list BankRecord)
    (readings : list BankReading) : list BankRecord :=
  foldl (fun history r =>
           record_bank_data history (reading_time r) (reading_for r)
             (reading_total_value r))
        bank_records readings.

(** A record within five minutes of [timestamp] with the value
    [total_value]. *)
Definition close_record (timestamp : Z) (total_value : Q) (record : BankRecord)
  : Prop :=
  (Z.abs (br_timestamp record - timestamp) < 300)%Z
  /\ exists v, br_total_value record = Some v /\ v == total_value.

(** The tax records of a day: those with a tax id whose date is that
    day. *)
Definition taxed (date_str : string) (tax_records : list TaxRecord)
  : list TaxRecord :=
  List.filter (fun r => tax_id r && bool_decide (tax_day r = Some date_str))
              tax_records.

(** An amount of a tax record, 0 when the record has none. *)
Definition taxed_amount (k : stock_key) (record : TaxRecord) : Q :=
  default 0 (tax_amount record k).

(** What the loop over the tax records keeps true of [daily_records]. *)
Definition daily_invariant (tax_records : list TaxRecord)
    (daily_records : gmap string DayData) : Prop :=
  forall date_str,
    match daily_records !! date_str with
    | None => taxed date_str tax_records = []
    | Some day_data =>
        day_date day_data = date_str
        /\ taxed date_str tax_records <> []
        /\ day_count day_data
           = Z.of_nat (length (taxed date_str tax_records))
        /\ forall k,
             day_amounts day_data k
             == Qsum (map (taxed_amount k) (taxed date_str tax_records))
    end.

(** The order of the returned days. *)
Definition dates_ascending (x y : DayData) : Prop :=
  String.leb (day_date x) (day_date y) = true.

(** What a resource of a day adds to the total value of the day. *)
Definition priced_amount (market_prices : gmap string Q) (day_data : DayData)
    (r : resource) : Q :=
  if Qlt_bool 0 (day_amounts day_data (stocked r))
  then day_amounts day_data (stocked r) * price market_prices r
  else 0.

(** The order of the sorted items: by key. *)
Definition keys_ascending (x y : string * DayData) : Prop :=
  String.leb x.1 y.1 = true.

(** The resources that a day prices, in the order of the dict. *)
Definition priced_resources : list resource :=
  [coal; oil; uranium; iron; bauxite; lead; gasoline; munitions; steel;
   aluminum; food].

(** * Example inputs *)

(** A nation and a city of the worked scenario: one city with 10 farms on
    2000 land, no project, North America, no radiation. *)
Definition scenario_city : City :=
  {| date := 0; infrastructure := 1000; land := 2000;
     oil_refinery := 0; steel_mill := 0; aluminum_refinery := 0;
     munitions_factory := 0;
     uranium_mine := 0; oil_well := 0; iron_mine := 0; coal_mine := 0;
     bauxite_mine := 0; lead_mine := 0; farm := 10;
     subway := 0; stadium := 0; shopping_mall := 0; bank := 0;
     supermarket := 0; police_station := 0; hospital := 0;
     recycling_center := 0;
     nuclear_power := 0; coal_power := 0; oil_power := 0; wind_power := 0 |}.

Definition scenario_nation : Nation :=
  {| nation_name := "Scenario"; flag := ""; alliance_id := "";
     num_cities := 1; color := "green"; continent := "na";
     domestic_policy := "MANIFEST_DESTINY";
     soldiers := 0; tanks := 0; aircraft := 0; ships := 0; spies := 0;
     missiles := 0; nukes := 0;
     offensive_wars_count := 0; defensive_wars_count := 0;
     bauxite_works := false; emergency_gasoline_reserve := false;
     iron_works := false; uranium_enrichment_program := false;
     specialized_police_training_program := false;
     international_trade_center := false;
     telecommunications_satellite := false;
     clinical_research_center := false; green_technologies := false;
     arms_stockpile := false; government_support_agency := false;
     mass_irrigation := false; fallout_shelter := false;
     bureau_of_domestic_affairs := false; recycling_initiative := false;
     cities := [scenario_city] |}.

Definition no_radiation : Radiation :=
  {| global := 0; north_america := 0; south_america := 0; europe := 0;
     africa := 0; asia := 0; australia := 0; antarctica := 0 |}.

Definition january : GameInfo :=
  {| game_date_month := 1; radiation := no_radiation |}.

(** A city whose only improvement is one munitions factory, in a nation
    whose only project is the arms stockpile. *)
Definition munitions_city : City :=
  {| date := 0; infrastructure := 1000; land := 2000;
     oil_refinery := 0; steel_mill := 0; aluminum_refinery := 0;
     munitions_factory := 1;
     uranium_mine := 0; oil_well := 0; iron_mine := 0; coal_mine := 0;
     bauxite_mine := 0; lead_mine := 0; farm := 0;
     subway := 0; stadium := 0; shopping_mall := 0; bank := 0;
     supermarket := 0; police_station := 0; hospital := 0;
     recycling_center := 0;
     nuclear_power := 0; coal_power := 0; oil_power := 0; wind_power := 0 |}.

Definition arms_nation : Nation :=
  {| nation_name := "Arms"; flag := ""; alliance_id := "";
     num_cities := 1; color := "green"; continent := "na";
     domestic_policy := "MANIFEST_DESTINY";
     soldiers := 0; tanks := 0; aircraft := 0; ships := 0; spies := 0;
     missiles := 0; nukes := 0;
     offensive_wars_count := 0; defensive_wars_count := 0;
     bauxite_works := false; emergency_gasoline_reserve := false;
     iron_works := false; uranium_enrichment_program := false;
     specialized_police_training_program := false;
     international_trade_center := false;
     telecommunications_satellite := false;
     clinical_research_center := false; green_technologies := false;
     arms_stockpile := true; government_support_agency := false;
     mass_irrigation := false; fallout_shelter := false;
     bureau_of_domestic_affairs := false; recycling_initiative := false;
     cities := [munitions_city] |}.

(** A city with infrastructure 1000.5, one nuclear plant and three plants of
    each other fuel. *)
Definition fractional_city : City :=
  {| date := 0; infrastructure := 1000.5; land := 2000;
     oil_refinery := 0; steel_mill := 0; aluminum_refinery := 0;
     munitions_factory := 0;
     uranium_mine := 0; oil_well := 0; iron_mine := 0; coal_mine := 0;
     bauxite_mine := 0; lead_mine := 0; farm := 0;
     subway := 0; stadium := 0; shopping_mall := 0; bank := 0;
     supermarket := 0; police_station := 0; hospital := 0;
     recycling_center := 0;
     nuclear_power := 1; coal_power := 3; oil_power := 3; wind_power := 0 |}.

(** A city of infrastructure 3000 on 300 land, founded today, without any
    improvement: 1000 people per unit of land. *)
Definition crowded_city : City :=
  {| date := 0; infrastructure := 3000; land := 300;
     oil_refinery := 0; steel_mill := 0; aluminum_refinery := 0;
     munitions_factory := 0;
     uranium_mine := 0; oil_well := 0; iron_mine := 0; coal_mine := 0;
     bauxite_mine := 0; lead_mine := 0; farm := 0;
     subway := 0; stadium := 0; shopping_mall := 0; bank := 0;
     supermarket := 0; police_station := 0; hospital := 0;
     recycling_center := 0;
     nuclear_power := 0; coal_power := 0; oil_power := 0; wind_power := 0 |}.

(** A stand-in for [math.log] that computes: the integer binary logarithm.
    It is 0 at 1 and non-negative everywhere. *)
Definition log2_floor (n : Z) : Q := inject_Z (Z.log2 n).

(** A nation whose only units are spies. *)
Definition spy_nation : Nation :=
  {| nation_name := "Spies"; flag := ""; alliance_id := "";
     num_cities := 0; color := "green"; continent := "na";
     domestic_policy := "MANIFEST_DESTINY";
     soldiers := 0; tanks := 0; aircraft := 0; ships := 0; spies := 1;
     missiles := 0; nukes := 0;
     offensive_wars_count := 0; defensive_wars_count := 0;
     bauxite_works := false; emergency_gasoline_reserve := false;
     iron_works := false; uranium_enrichment_program := false;
     specialized_police_training_program := false;
     international_trade_center := false;
     telecommunications_satellite := false;
     clinical_research_center := false; green_technologies := false;
     arms_stockpile := false; government_support_agency := false;
     mass_irrigation := false; fallout_shelter := false;
     bureau_of_domestic_affairs := false; recycling_initiative := false;
     cities := [] |}.

(** A nation with ten soldiers. *)
Definition soldier_nation : Nation :=
  {| nation_name := "Soldiers"; flag := ""; alliance_id := "";
     num_cities := 0; color := "green"; continent := "na";
     domestic_policy := "MANIFEST_DESTINY";
     soldiers := 10; tanks := 0; aircraft := 0; ships := 0; spies := 2;
     missiles := 0; nukes := 0;
     offensive_wars_count := 0; defensive_wars_count := 0;
     bauxite_works := false; emergency_gasoline_reserve := false;
     iron_works := false; uranium_enrichment_program := false;
     specialized_police_training_program := false;
     international_trade_center := false;
     telecommunications_satellite := false;
     clinical_research_center := false; green_technologies := false;
     arms_stockpile := false; government_support_agency := false;
     mass_irrigation := false; fallout_shelter := false;
     bureau_of_domestic_affairs := false; recycling_initiative := false;
     cities := [] |}.

(** A nation with the OPEN_MARKETS policy and both policy projects, green
    like its alliance, with the city of the food scenario. *)
Definition open_markets_nation : Nation :=
  {| nation_name := "Open"; flag := ""; alliance_id := "7";
     num_cities := 1; color := "green"; continent := "na";
     domestic_policy := "OPEN_MARKETS";
     soldiers := 0; tanks := 0; aircraft := 0; ships := 0; spies := 0;
     missiles := 0; nukes := 0;
     offensive_wars_count := 0; defensive_wars_count := 0;
     bauxite_works := false; emergency_gasoline_reserve := false;
     iron_works := false; uranium_enrichment_program := false;
     specialized_police_training_program := false;
     international_trade_center := false;
     telecommunications_satellite := false;
     clinical_research_center := false; green_technologies := false;
     arms_stockpile := false; government_support_agency := true;
     mass_irrigation := false; fallout_shelter := false;
     bureau_of_domestic_affairs := true; recycling_initiative := false;
     cities := [scenario_city] |}.

Definition green_3 : gmap string Q := {[ "green" := 3 ]}.

(** A world in which nation 1 is the open-markets nation, the game
    information arrives, the colour request answers 500, and the price
    request raises with no cache on disk; no unguarded await raises. *)
Definition degraded_world : World :=
  {| today := 400;
     nations_response := fun nation_id =>
       if bool_decide (nation_id = 1%Z)
       then {| status := 200; data := Some open_markets_nation |}
       else {| status := 200; data := None |};
     game_info_response := {| status := 200; data := Some january |};
     colors_response := {| status := 500; data := None |};
     alliance_color_response := fun _ =>
       {| status := 200; data := Some "green" |};
     alliances_response := fun _ => {| status := 404; data := None |};
     market := {| cache_file := cache_absent; time_now := 0;
                  api_key_set := true; tradeprices := raises;
                  cache_writable := true |};
     raising := fun _ _ => false |}.

(** The same world when the colour request of the calculation for nation 1
    raises. *)
Definition offline_colors_world : World :=
  {| today := today degraded_world;
     nations_response := nations_response degraded_world;
     game_info_response := game_info_response degraded_world;
     colors_response := colors_response degraded_world;
     alliance_color_response := alliance_color_response degraded_world;
     alliances_response := alliances_response degraded_world;
     market := market degraded_world;
     raising := fun nation_id u =>
       bool_decide (nation_id = 1%Z)
       && match u with color_fetch => true | _ => false end |}.

(** An alliance of the open-markets nation (1), a member that the API does
    not find (2) and an applicant (3). *)
Definition bank_alliance : AllianceData :=
  {| name := Some "Bank";
     nations := [ {| id := 1; alliance_position := "MEMBER" |};
                  {| id := 2; alliance_position := "LEADER" |};
                  {| id := 3; alliance_position := "APPLICANT" |} ] |}.

Definition alliance_world : World :=
  {| today := today degraded_world;
     nations_response := nations_response degraded_world;
     game_info_response := game_info_response degraded_world;
     colors_response := colors_response degraded_world;
     alliance_color_response := alliance_color_response degraded_world;
     alliances_response := fun _ =>
       {| status := 200; data := Some bank_alliance |};
     market := market degraded_world;
     raising := raising degraded_world |}.

(** A game in February with a radiation of 600 on every continent and 600
    around the globe. *)
Definition nuclear_winter : GameInfo :=
  {| game_date_month := 2;
     radiation := {| global := 600; north_america := 600;
                     south_america := 600; europe := 600; africa := 600;
                     asia := 600; australia := 600; antarctica := 600 |} |}.

(** The scenario nation with a second city. *)
Definition two_city_nation : Nation :=
  set_cities scenario_nation [scenario_city; munitions_city].

(** Three calls on a limiter of two requests per minute: at 0 s and at 1 s,
    and one that arrives at 2 s and is sent at 61 s. *)
Definition three_calls : list Limiter.Call :=
  [ {| Limiter.current_time := 0; Limiter.sent_time := 0 |};
    {| Limiter.current_time := 1; Limiter.sent_time := 1 |};
    {| Limiter.current_time := 2; Limiter.sent_time := 61 |} ].

(** A limiter of two requests per minute that let two requests through, at
    0 s and at 1 s. *)
Definition busy_limiter : Limiter.t :=
  {| Limiter.requests_per_minute := 2; Limiter.request_times := [0; 1] |}.

(** The resources of the members of the bank alliance: nation 1 holds
    1000 of money and 20 food, nation 2 is not found, and the applicant 3
    hides its money. *)
Definition bank_resources (nation_id : Z) : Response (gmap string (option Q)) :=
  if bool_decide (nation_id = 1%Z) then
    {| status := 200;
       data := Some {[ "money" := Some 1000; "food" := Some 20 ]} |}
  else if bool_decide (nation_id = 3%Z) then
    {| status := 200; data := Some {[ "money" := None ]} |}
  else {| status := 404; data := None |}.

(** The same, with a second member whose steel is null. *)
Definition hidden_resources (nation_id : Z) : Response (gmap string (option Q)) :=
  if bool_decide (nation_id = 2%Z) then
    {| status := 200; data := Some {[ "steel" := None ]} |}
  else bank_resources nation_id.

(** A bank worth 600 million read at second 0, the same value read again
    100 s later, and a bank worth 100 million read after an hour. *)
Definition bank_readings : list BankReading :=
  [ {| reading_time := 0; reading_for := "a";
       reading_total_value := Some 600000000 |};
    {| reading_time := 100; reading_for := "b";
       reading_total_value := Some 600000000 |};
    {| reading_time := 3600; reading_for := "a";
       reading_total_value := Some 100000000 |} ].

(** Three bank records over three days, worth 600, 500 and 900 million. *)
Definition three_records : list BankRecord :=
  [ {| br_timestamp := 0; br_requested_by := "a";
       br_total_value := Some 600000000 |};
    {| br_timestamp := 100000; br_requested_by := "b";
       br_total_value := Some 500000000 |};
    {| br_timestamp := 260000; br_requested_by := "a";
       br_total_value := Some 900000000 |} ].

(** Two taxes of 100 and 50 money on one day (the second with a negative
    amount of coal), a record without tax id on that day, and a tax of 7
    food the day before. *)
Definition tax_batch : list TaxRecord :=
  [ {| tax_id := true; tax_day := Some "2024-05-02";
       tax_amount := fun k => match k with money => Some 100 | _ => None end |};
    {| tax_id := true; tax_day := Some "2024-05-02";
       tax_amount := fun k => match k with
                              | money => Some 50
                              | stocked coal => Some (-3)
                              | _ => None
                              end |};
    {| tax_id := false; tax_day := Some "2024-05-02";
       tax_amount := fun k => match k with money => Some 999 | _ => None end |};
    {| tax_id := true; tax_day := Some "2024-05-01";
       tax_amount := fun k => match k with
                              | stocked food => Some 7
                              | _ => None
                              end |} ].

(** * Properties *)

(** ** Python numerics *)

Lemma py_max_spec (a b : Q) :
  (a < b /\ py_max a b = b) \/ (b <= a /\ py_max a b = a).
Proof.
  unfold py_max.
  destruct (a ?= b) eqn:E.
  - right. split; [apply Qeq_alt in E; rewrite E; apply Qle_refl | reflexivity].
  - left. split; [apply Qlt_alt, E | reflexivity].
  - right. split; [apply Qlt_le_weak, Qgt_alt, E | reflexivity].
Qed.

Lemma py_max_Qmax (a b : Q) : py_max a b == Qmax a b.
Proof.
  destruct (py_max_spec a b) as [[H ->] | [H ->]].
  - symmetry. apply Q.max_r. lra.
  - symmetry. apply Q.max_l. exact H.
Qed.

Lemma py_max_nonneg (a : Q) : 0 <= py_max a 0.
Proof. destruct (py_max_spec a 0) as [[H ->] | [H ->]]; lra. Qed.

(** Turns [inject_Z] of a closed integer expression into a fraction, so that
    [field] and [lra] see a constant. *)
Ltac inject_consts :=
  repeat match goal with
  | |- context [inject_Z ?z] =>
      let v := eval vm_compute in z in
      lazymatch v with
      | Z0 => idtac
      | Zpos _ => idtac
      | Zneg _ => idtac
      end;
      progress change (inject_Z z) with (v # 1)
  end.

(** [lra] over [Q] does not divide: a division by a constant becomes a
    multiplication by a constant fraction. *)
Ltac inv_consts :=
  unfold Qdiv in *;
  repeat match goal with
  | |- context [Qinv (Qmake ?n ?d)] =>
      let v := eval vm_compute in (Qinv (Qmake n d)) in
      change (Qinv (Qmake n d)) with v
  | H : context [Qinv (Qmake ?n ?d)] |- _ =>
      let v := eval vm_compute in (Qinv (Qmake n d)) in
      change (Qinv (Qmake n d)) with v in H
  end.

Ltac qlra := inv_consts; lra.

Lemma inject_Z_sub (x y : Z) : inject_Z (x - y) = inject_Z x - inject_Z y.
Proof. unfold Z.sub. rewrite inject_Z_plus, inject_Z_opp. reflexivity. Qed.


(** [round] does not see how a fraction is written. *)
Lemma py_round_comp (x y : Q) : x == y -> py_round x = py_round y.
Proof.
  intros H. unfold py_round.
  rewrite (Qfloor_comp _ _ H).
  assert (E : (x - inject_Z (Qfloor y) ?= 1 # 2)
              = (y - inject_Z (Qfloor y) ?= 1 # 2)).
  { apply Qcompare_comp; [rewrite H |]; reflexivity. }
  rewrite E. reflexivity.
Qed.

(** ** Updates of [production] *)

Lemma padd_same (p : Production) r x : padd p r x r = p r + x.
Proof. unfold padd. rewrite decide_True by reflexivity. reflexivity. Qed.

Lemma padd_other (p : Production) r r' x : r <> r' -> padd p r x r' = p r'.
Proof. intros H. unfold padd. rewrite decide_False by exact H. reflexivity. Qed.

Lemma psub_same (p : Production) r x : psub p r x r = p r - x.
Proof. unfold psub. rewrite decide_True by reflexivity. reflexivity. Qed.

Lemma psub_other (p : Production) r r' x : r <> r' -> psub p r x r' = p r'.
Proof. intros H. unfold psub. rewrite decide_False by exact H. reflexivity. Qed.

(** Reads one resource through the chain of updates of the loop body. *)
Ltac read_production :=
  unfold city_production; cbv zeta;
  repeat first
    [ rewrite padd_same | rewrite psub_same
    | rewrite padd_other by discriminate
    | rewrite psub_other by discriminate ].

(** ** Food production *)


Lemma seasonal_modifier_spec nation game_info :
  seasonal_modifier nation game_info
  = FoodSpec.seasonal (continent nation) (game_date_month game_info).
Proof.
  unfold seasonal_modifier, hemisphere, FoodSpec.seasonal, FoodSpec.antarctic,
    FoodSpec.northern_season, FoodSpec.southern.
  repeat case_bool_decide; try reflexivity; try congruence; try discriminate.
Qed.

Lemma radiation_penalty_spec nation game_info :
  radiation_penalty nation game_info
  == FoodSpec.penalty (continent_radiation nation game_info)
       (global (radiation game_info)) (fallout_shelter nation).
Proof.
  unfold radiation_penalty, radiation_index, fallout_shelter_multiplier,
    FoodSpec.penalty.
  destruct (fallout_shelter nation); field.
Qed.

(** What the loop body does to [production["food"]]: the demand of the
    population goes out, twelve times the production of the city comes in;
    no later line of the body touches food. *)
Lemma city_production_food math_log nation game_info today city (p : Production) :
  city_production math_log nation game_info today city p food
  == p food - population_formula math_log today city
     + food_production nation game_info city * 12.
Proof. read_production. ring. Qed.


Lemma food_production_spec nation game_info city :
  food_production nation game_info city
  == Qmax (base_food_production nation city
           * FoodSpec.seasonal (continent nation) (game_date_month game_info)
           * (1 + FoodSpec.penalty (continent_radiation nation game_info)
                    (global (radiation game_info)) (fallout_shelter nation)))
          0.
Proof.
  unfold food_production.
  rewrite py_max_Qmax, seasonal_modifier_spec, radiation_penalty_spec.
  reflexivity.
Qed.




(** ** Factories *)

Lemma specialization_curve (k count : Z) :
  inject_Z (k * count) * specialization count == inject_Z k * curve count.
Proof.
  unfold specialization, curve.
  rewrite inject_Z_mult, inject_Z_sub. inject_consts. field.
Qed.

Lemma specialization_curve_r (k count : Z) :
  inject_Z (count * k) * specialization count == inject_Z k * curve count.
Proof. rewrite Z.mul_comm. apply specialization_curve. Qed.

(** The factory lines that do what the specification says: consumption and
    production scaled by the multiplier of the product.  Mines add to the
    same resources. *)
Lemma factories_with_multiplier math_log nation game_info today city
    (p : Production) :
  let p' := city_production math_log nation game_info today city p in
  p' gasoline == p gasoline + 6 * curve (oil_refinery city) * multipliers nation oil
  /\ p' steel == p steel + 9 * curve (steel_mill city) * multipliers nation steel
  /\ p' aluminum
     == p aluminum + 9 * curve (aluminum_refinery city) * multipliers nation aluminum
  /\ p' munitions
     == p munitions + 18 * curve (munitions_factory city) * multipliers nation munitions
  /\ p' iron
     == p iron - 3 * curve (steel_mill city) * multipliers nation steel
        + 3 * curve (iron_mine city)
  /\ p' bauxite
     == p bauxite - 3 * curve (aluminum_refinery city) * multipliers nation aluminum
        + 3 * curve (bauxite_mine city).
Proof.
  cbv zeta. repeat split; read_production;
    rewrite ?specialization_curve, ?specialization_curve_r; ring.
Qed.

(** The lead line of the munitions factory has no multiplier. *)
Lemma factories_lead math_log nation game_info today city (p : Production) :
  city_production math_log nation game_info today city p lead
  == p lead - 6 * curve (munitions_factory city) + 3 * curve (lead_mine city).
Proof.
  read_production.
  rewrite ?specialization_curve, ?specialization_curve_r. ring.
Qed.

(** C2, at one munitions factory with the arms stockpile: the multiplier of
    munitions is 1.20 and scales the 18 munitions produced, but the lead
    consumed is 6, less than the 6 * 1.20 of the claim. *)
Theorem C2_lead_consumption_not_multiplied math_log game_info today :
  let p := city_production math_log arms_nation game_info today
             munitions_city production_init in
  multipliers arms_nation munitions == 1.20
  /\ p munitions == 18 * 1.20
  /\ p lead == - 6
  /\ - (6 * 1.20) < p lead.
Proof.
  cbv zeta.
  rewrite factories_lead.
  destruct (factories_with_multiplier math_log arms_nation game_info today
              munitions_city production_init) as (_ & _ & _ & Hm & _).
  rewrite Hm.
  repeat split; vm_compute; reflexivity.
Qed.

(** ** Power plants *)

(** What the loop body does to uranium: the plants burn, the mines dig. *)
Lemma city_production_uranium math_log nation game_info today city
    (p : Production) :
  city_production math_log nation game_info today city p uranium
  == p uranium - inject_Z (smallest_two_nuclear city) * 2.4
     + 3 * curve (uranium_mine city) * multipliers nation uranium.
Proof.
  read_production.
  rewrite ?specialization_curve, ?specialization_curve_r. ring.
Qed.

Lemma city_production_coal math_log nation game_info today city
    (p : Production) :
  city_production math_log nation game_info today city p coal
  == p coal - inject_Z (smallest_two_coal city) * 1.2
     - 3 * curve (steel_mill city) * multipliers nation steel
     + 3 * curve (coal_mine city).
Proof.
  read_production.
  rewrite ?specialization_curve, ?specialization_curve_r. ring.
Qed.

Lemma city_production_oil math_log nation game_info today city
    (p : Production) :
  city_production math_log nation game_info today city p oil
  == p oil - inject_Z (smallest_two_oil city) * 1.2
     - 3 * curve (oil_refinery city) * multipliers nation oil
     + 3 * curve (oil_well city).
Proof.
  read_production.
  rewrite ?specialization_curve, ?specialization_curve_r. ring.
Qed.

Lemma infrastructure_can_power_spec city :
  infrastructure_can_power_nuclear city = (nuclear_power city * 2)%Z
  /\ infrastructure_can_power_coal city = (coal_power city * 5)%Z
  /\ infrastructure_can_power_oil city = (oil_power city * 5)%Z.
Proof.
  unfold infrastructure_can_power_nuclear, infrastructure_can_power_coal,
    infrastructure_can_power_oil.
  repeat split; Z.div_mod_to_equations; lia.
Qed.

(** [(n + d - 1) // d] is the ceiling of [n / d] when [n] is an integer. *)
Lemma floordiv_ceiling (n : Z) (d : positive) (x : Q) :
  x == inject_Z n ->
  float_floordiv (x + inject_Z (Z.pos d - 1)) (inject_Z (Z.pos d))
  = Qceiling (x / inject_Z (Z.pos d)).
Proof.
  intros Hx. unfold float_floordiv, Qceiling.
  rewrite (Qfloor_comp _ (inject_Z (n + (Z.pos d - 1)) / inject_Z (Z.pos d)))
    by (rewrite Hx, inject_Z_plus; reflexivity).
  rewrite (Qfloor_comp (- (x / inject_Z (Z.pos d)))
             (inject_Z (- n) / inject_Z (Z.pos d)))
    by (rewrite Hx, inject_Z_opp; unfold Qdiv; ring).
  rewrite <- !Zdiv_Qdiv.
  Z.div_mod_to_equations. nia.
Qed.

(** On an integer infrastructure the code computes the fuel of the
    specification. *)
Lemma fuel_integer_infrastructure (n : Z) city :
  infrastructure city == inject_Z n ->
  inject_Z (smallest_two_nuclear city) * 2.4
  = FuelSpec.uranium_used (infrastructure city) (nuclear_power city)
  /\ inject_Z (smallest_two_coal city) * 1.2
     = FuelSpec.coal_used (infrastructure city) (coal_power city)
  /\ inject_Z (smallest_two_oil city) * 1.2
     = FuelSpec.oil_used (infrastructure city) (oil_power city).
Proof.
  intros Hn.
  destruct (infrastructure_can_power_spec city) as (Hu & Hc & Ho).
  unfold smallest_two_nuclear, smallest_two_coal, smallest_two_oil,
    FuelSpec.uranium_used, FuelSpec.coal_used, FuelSpec.oil_used.
  rewrite Hu, Hc, Ho.
  assert (H1000 : current_infrastructure_nuclear city
                  = Qceiling (infrastructure city / 1000))
    by exact (floordiv_ceiling n 1000 _ Hn).
  assert (H100 : current_infrastructure_coal city
                 = Qceiling (infrastructure city / 100))
    by exact (floordiv_ceiling n 100 _ Hn).
  rewrite H1000, H100.
  repeat split.
Qed.

(** C4, at infrastructure 1000.5: [(1000.5 + 999) // 1000] is 1 where the
    ceiling of 1.0005 is 2, and [(1000.5 + 99) // 100] is 10 where the
    ceiling of 10.005 is 11.  The city burns 2.4 uranium, 12 coal and 12 oil;
    the formulas of the specification give 4.8, 13.2 and 13.2. *)
Theorem C4_fractional_infrastructure math_log nation game_info today :
  let p := city_production math_log nation game_info today
             fractional_city production_init in
  (p uranium == - 2.4
   /\ FuelSpec.uranium_used (infrastructure fractional_city)
        (nuclear_power fractional_city) == 4.8)
  /\ (p coal == - 12
      /\ FuelSpec.coal_used (infrastructure fractional_city)
           (coal_power fractional_city) == 13.2)
  /\ (p oil == - 12
      /\ FuelSpec.oil_used (infrastructure fractional_city)
           (oil_power fractional_city) == 13.2).
Proof.
  cbv zeta.
  rewrite city_production_uranium, city_production_coal, city_production_oil.
  assert (H0 : curve 0 == 0) by reflexivity.
  change (uranium_mine fractional_city) with 0%Z.
  change (steel_mill fractional_city) with 0%Z.
  change (coal_mine fractional_city) with 0%Z.
  change (oil_refinery fractional_city) with 0%Z.
  change (oil_well fractional_city) with 0%Z.
  rewrite !H0.
  change (smallest_two_nuclear fractional_city) with 1%Z.
  change (smallest_two_coal fractional_city) with 10%Z.
  change (smallest_two_oil fractional_city) with 10%Z.
  unfold production_init. inject_consts.
  split; [split; [ring | vm_compute; reflexivity] |].
  split; (split; [ring | vm_compute; reflexivity]).
Qed.

(** ** Population *)

Lemma age_days_positive today city : (1 <= age_days today city)%Z.
Proof. unfold age_days. lia. Qed.

(** In the crowded city the disease rate is 102.75 and disease alone takes
    308250 of the 300000 inhabitants; crime takes more.  The population is
    negative for every [math_log] that is 0 at 1, the age in days of a city
    founded today. *)
Lemma C3_population_negative :
  (0 <= infrastructure crowded_city
   /\ 0 < land crowded_city
   /\ (0 <= commerce scenario_nation crowded_city)%Z)
  /\ base_population crowded_city == 300000
  /\ disease_loss scenario_nation crowded_city == 308250
  /\ 0 < crime_loss scenario_nation crowded_city
  /\ age_days 0 crowded_city = 1%Z
  /\ forall math_log : Z -> Q,
       math_log 1%Z == 0 ->
       population math_log scenario_nation 0 crowded_city < 0.
Proof.
  split; [repeat split; vm_compute; congruence |].
  split; [vm_compute; reflexivity |].
  split; [vm_compute; reflexivity |].
  split; [vm_compute; reflexivity |].
  split; [reflexivity |].
  intros math_log H1.
  unfold population, ln_age.
  change (age_days 0 crowded_city) with 1%Z. rewrite H1.
  assert (Hu : population_unscaled scenario_nation crowded_city < 0)
    by (vm_compute; reflexivity).
  revert Hu. generalize (population_unscaled scenario_nation crowded_city).
  intros q Hq. qlra.
Qed.

(** C3, amended.  For every [math_log] that is non-negative from 1 on, the
    two losses are non-negative, the population is at most the base
    population scaled by the age factor, and it is non-negative exactly when
    the two losses together do not exceed the base population. *)
Theorem C3_population_bounds math_log nation today city :
  (forall n : Z, (1 <= n)%Z -> 0 <= math_log n) ->
  0 <= disease_loss nation city
  /\ 0 <= crime_loss nation city
  /\ population math_log nation today city
     <= base_population city * (1 + ln_age math_log today city / 15)
  /\ (0 <= population math_log nation today city
      <-> disease_loss nation city + crime_loss nation city
          <= base_population city).
Proof.
  intros Hlog.
  assert (HL : 0 <= ln_age math_log today city)
    by (apply Hlog, age_days_positive).
  assert (Hd : 0 <= disease_loss nation city) by apply py_max_nonneg.
  assert (Hc : 0 <= crime_loss nation city) by apply py_max_nonneg.
  unfold population, population_unscaled.
  revert HL Hd Hc.
  generalize (ln_age math_log today city) (disease_loss nation city)
    (crime_loss nation city) (base_population city).
  intros L d c b HL Hd Hc.
  assert (Hf : 1 <= 1 + L / 15) by qlra.
  split; [exact Hd |]. split; [exact Hc |].
  revert Hf. generalize (1 + L / 15). intros f Hf.
  split; [nra |].
  split; intros H; nra.
Qed.

Lemma C3_population_bounds_witness :
  0 <= disease_loss scenario_nation scenario_city
  /\ 0 <= crime_loss scenario_nation scenario_city
  /\ population log2_floor scenario_nation 400 scenario_city
     <= base_population scenario_city
        * (1 + ln_age log2_floor 400 scenario_city / 15)
  /\ (0 <= population log2_floor scenario_nation 400 scenario_city
      <-> disease_loss scenario_nation scenario_city
          + crime_loss scenario_nation scenario_city
          <= base_population scenario_city).
Proof.
  apply (C3_population_bounds log2_floor scenario_nation 400 scenario_city).
  intros n _. unfold log2_floor.
  change 0 with (inject_Z 0). rewrite <- Zle_Qle. apply Z.log2_nonneg.
Defined.

(** ** Military upkeep *)

Lemma upkeep_after_military_eq n :
  upkeep_after_military n == unit_upkeep n + inject_Z (spies n) * 2400.
Proof.
  unfold upkeep_after_military, military. simpl.
  rewrite inject_Z_mult. inject_consts. ring.
Qed.

(** With one spy and no other unit the upkeep is 2400 at war and at
    peace. *)
Lemma C9_spies_only_equal :
  (0 < spies spy_nation)%Z
  /\ peacetime (set_wars spy_nation 0 0) = true
  /\ peacetime (set_wars spy_nation 1 0) = false
  /\ upkeep_after_military (set_wars spy_nation 1 0) == 2400
  /\ upkeep_after_military (set_wars spy_nation 0 0) == 2400.
Proof. repeat split. Qed.

(** C9, amended.  For non-negative unit counts with at least one soldier,
    tank, aircraft, ship, missile or nuke, the upkeep of a nation at war
    (spies included) is strictly above its upkeep at peace. *)
Theorem C9_war_upkeep_above_peace (n : Nation) (offensive defensive : Z) :
  (0 <= soldiers n)%Z -> (0 <= tanks n)%Z -> (0 <= aircraft n)%Z ->
  (0 <= ships n)%Z -> (0 <= missiles n)%Z -> (0 <= nukes n)%Z ->
  (0 < soldiers n \/ 0 < tanks n \/ 0 < aircraft n
   \/ 0 < ships n \/ 0 < missiles n \/ 0 < nukes n)%Z ->
  (0 < offensive + defensive)%Z ->
  upkeep_after_military (set_wars n 0 0)
  < upkeep_after_military (set_wars n offensive defensive).
Proof.
  intros Hs Ht Ha Hsh Hm Hn Hsome Hwar.
  rewrite !upkeep_after_military_eq.
  unfold unit_upkeep, peacetime. cbn [set_wars soldiers tanks aircraft ships
    spies missiles nukes offensive_wars_count defensive_wars_count].
  rewrite bool_decide_eq_true_2 by reflexivity.
  rewrite bool_decide_eq_false_2 by lia.
  rewrite Zle_Qle in Hs, Ht, Ha, Hsh, Hm, Hn.
  rewrite !Zlt_Qlt in Hsome.
  change (inject_Z 0) with 0 in *.
  destruct Hsome as [H | [H | [H | [H | [H | H]]]]]; lra.
Qed.

Lemma C9_war_upkeep_above_peace_witness :
  upkeep_after_military (set_wars soldier_nation 0 0)
  < upkeep_after_military (set_wars soldier_nation 0 1).
Proof.
  apply (C9_war_upkeep_above_peace soldier_nation 0 1);
    cbn [soldier_nation soldiers tanks aircraft ships missiles nukes]; lia.
Defined.

(** ** Domestic policy, colour bonus, gross total *)

(** The income part of the report, read off [nation_report]. *)
Lemma report_income math_log nation game_info today color_bonuses
    market_prices alliance_color :
  let r := Report.income
             (nation_report math_log nation game_info today color_bonuses
                market_prices alliance_color) in
  let i := apply_domestic_policy nation
             (income_before_policy math_log nation game_info today) in
  Report.gross_income r = Income.gross_income i
  /\ Report.military_upkeep r = Income.military_upkeep i
  /\ Report.improvement_upkeep r = Income.improvement_upkeep i
  /\ Report.color_bonus r = color_bonus nation color_bonuses alliance_color
  /\ Report.gross_total r
     = color_bonus nation color_bonuses alliance_color + Income.gross_income i.
Proof.
  unfold nation_report, income_before_policy.
  destruct (military nation (city_loop math_log nation game_info today))
    as [p i].
  repeat split.
Qed.

Lemma domestic_policy_increase_spec nation :
  domestic_policy_increase nation
  == 1 + (if government_support_agency nation
          then 0.5 + (if bureau_of_domestic_affairs nation then 0.25 else 0)
          else 0).
Proof.
  unfold domestic_policy_increase.
  destruct (government_support_agency nation),
    (bureau_of_domestic_affairs nation); reflexivity.
Qed.

(** C7.  The increase is 1, plus 0.5 with the government support agency,
    plus 0.25 more only when the bureau of domestic affairs is active too.
    OPEN_MARKETS multiplies the gross income by 1 + 0.01 * increase (1.0175
    with both projects), IMPERIALISM multiplies the military upkeep by
    1 - 0.05 * increase, and any other policy changes neither. *)
Theorem C7_domestic_policy math_log nation game_info today color_bonuses
    market_prices alliance_color :
  let before := income_before_policy math_log nation game_info today in
  let r := Report.income
             (nation_report math_log nation game_info today color_bonuses
                market_prices alliance_color) in
  let increase := domestic_policy_increase nation in
  increase
  == 1 + (if government_support_agency nation
          then 0.5 + (if bureau_of_domestic_affairs nation then 0.25 else 0)
          else 0)
  /\ (domestic_policy nation = "OPEN_MARKETS" ->
      Report.gross_income r
      == Income.gross_income before * (1 + 0.01 * increase)
      /\ Report.military_upkeep r = Income.military_upkeep before)
  /\ (domestic_policy nation = "IMPERIALISM" ->
      Report.military_upkeep r
      == Income.military_upkeep before * (1 - 0.05 * increase)
      /\ Report.gross_income r = Income.gross_income before)
  /\ (domestic_policy nation <> "OPEN_MARKETS" ->
      domestic_policy nation <> "IMPERIALISM" ->
      Report.gross_income r = Income.gross_income before
      /\ Report.military_upkeep r = Income.military_upkeep before)
  /\ (domestic_policy nation = "OPEN_MARKETS" ->
      government_support_agency nation = true ->
      bureau_of_domestic_affairs nation = true ->
      increase == 1.75
      /\ Report.gross_income r == Income.gross_income before * 1.0175).
Proof.
  cbv zeta.
  destruct (report_income math_log nation game_info today color_bonuses
              market_prices alliance_color) as (Hg & Hm & _).
  rewrite Hg, Hm. clear Hg Hm.
  set (before := income_before_policy math_log nation game_info today).
  split; [apply domestic_policy_increase_spec |].
  unfold apply_domestic_policy.
  repeat split.
  - rewrite bool_decide_eq_true_2 by assumption. reflexivity.
  - rewrite bool_decide_eq_true_2 by assumption. reflexivity.
  - rewrite bool_decide_eq_false_2 by congruence.
    rewrite bool_decide_eq_true_2 by assumption. reflexivity.
  - rewrite bool_decide_eq_false_2 by congruence.
    rewrite bool_decide_eq_true_2 by assumption. reflexivity.
  - rewrite !bool_decide_eq_false_2 by assumption. reflexivity.
  - rewrite !bool_decide_eq_false_2 by assumption. reflexivity.
  - unfold domestic_policy_increase.
    match goal with H : government_support_agency _ = true,
                    H' : bureau_of_domestic_affairs _ = true |- _ =>
      rewrite H, H' end.
    reflexivity.
  - rewrite bool_decide_eq_true_2 by assumption.
    unfold domestic_policy_increase.
    match goal with H : government_support_agency _ = true,
                    H' : bureau_of_domestic_affairs _ = true |- _ =>
      rewrite H, H' end.
    cbn [Income.gross_income]. ring.
Qed.

(** A colour that the table lacks earns nothing. *)
Lemma color_bonus_absent nation (color_bonuses : gmap string Q) alliance_color :
  color_bonuses !! color nation = None ->
  color_bonus nation color_bonuses alliance_color == 0.
Proof.
  intros Hnone. unfold color_bonus, dict_get.
  destruct alliance_color as [ac |];
    repeat case_bool_decide; subst;
    try match goal with H : color _ = _ |- _ => rewrite <- ?H end;
    rewrite ?Hnone; reflexivity.
Qed.

(** C8.  The bonus is twelve times the table's entry for the colour of the
    nation when the alliance has that colour, twelve times the entry for
    beige when the nation is beige, and zero otherwise; an entry that the
    table lacks counts as zero. *)
Theorem C8_color_bonus math_log nation game_info today color_bonuses
    market_prices alliance_color :
  let bonus := color_bonus nation color_bonuses alliance_color in
  Report.color_bonus
    (Report.income
       (nation_report math_log nation game_info today color_bonuses
          market_prices alliance_color)) = bonus
  /\ (alliance_color = Some (color nation) ->
      bonus == 12 * dict_get color_bonuses (color nation) 0)
  /\ (color nation = "beige" ->
      bonus == 12 * dict_get color_bonuses "beige" 0)
  /\ (alliance_color <> Some (color nation) -> color nation <> "beige" ->
      bonus == 0)
  /\ (color_bonuses !! color nation = None -> bonus == 0)
  /\ (color_bonuses = ∅ -> bonus == 0).
Proof.
  cbv zeta.
  split; [apply report_income |].
  unfold color_bonus. repeat split.
  - intros ->. rewrite bool_decide_eq_true_2 by reflexivity. ring.
  - intros Hb. destruct alliance_color as [ac |].
    + case_bool_decide as Hac.
      * rewrite <- Hac, Hb. ring.
      * rewrite bool_decide_eq_true_2 by exact Hb. ring.
    + rewrite bool_decide_eq_true_2 by exact Hb. ring.
  - intros Hne Hb. rewrite (bool_decide_eq_false_2 _ Hb).
    destruct alliance_color as [ac |]; [| reflexivity].
    rewrite bool_decide_eq_false_2 by congruence. reflexivity.
  - apply color_bonus_absent.
  - intros ->. apply color_bonus_absent, lookup_empty.
Qed.

Lemma C7_domestic_policy_witness :
  domestic_policy_increase open_markets_nation == 1.75
  /\ Report.gross_income
       (Report.income
          (nation_report log2_floor open_markets_nation january 400 green_3
             DEFAULT_PRICES (Some "green")))
     == Income.gross_income
          (income_before_policy log2_floor open_markets_nation january 400)
        * 1.0175.
Proof.
  apply (C7_domestic_policy log2_floor open_markets_nation january 400
           green_3 DEFAULT_PRICES (Some "green")); reflexivity.
Defined.

Lemma C8_color_bonus_witness :
  color_bonus open_markets_nation green_3 (Some "green") == 3 * 12.
Proof.
  refine (Qeq_trans _ _ _
            (proj1 (proj2 (C8_color_bonus log2_floor open_markets_nation
                             january 400 green_3 DEFAULT_PRICES
                             (Some "green"))) eq_refl) _).
  vm_compute. reflexivity.
Defined.

(** The loop adds up the gross income of the cities. *)
Lemma city_loop_gross_income math_log nation game_info today :
  Income.gross_income (snd (city_loop math_log nation game_info today))
  == Qsum (map (city_gross_income math_log nation today) (cities nation)).
Proof.
  unfold city_loop.
  assert (H : forall l st,
             Income.gross_income
               (snd (foldl (fun st city =>
                              city_step math_log nation game_info today city st)
                           st l))
             == Income.gross_income (snd st)
                + Qsum (map (city_gross_income math_log nation today) l)).
  { induction l as [| c l IH]; intros st; simpl.
    - ring.
    - rewrite IH. simpl. ring. }
  rewrite H. simpl. ring.
Qed.

Lemma military_gross_income nation st :
  Income.gross_income (snd (military nation st))
  = Income.gross_income (snd st).
Proof. destruct st as [p i]. reflexivity. Qed.

(** C10.  Under OPEN_MARKETS the multiplier scales the sum of the gross
    income of the cities and nothing else: the gross total is the colour
    bonus plus the scaled sum. *)
Theorem C10_color_bonus_not_scaled math_log nation game_info today
    color_bonuses market_prices alliance_color :
  domestic_policy nation = "OPEN_MARKETS" ->
  Report.gross_total
    (Report.income
       (nation_report math_log nation game_info today color_bonuses
          market_prices alliance_color))
  == color_bonus nation color_bonuses alliance_color
     + (1 + 0.01 * domestic_policy_increase nation)
       * Qsum (map (city_gross_income math_log nation today) (cities nation)).
Proof.
  intros Hpolicy.
  destruct (report_income math_log nation game_info today color_bonuses
              market_prices alliance_color) as (_ & _ & _ & _ & Ht).
  rewrite Ht. clear Ht.
  unfold apply_domestic_policy.
  rewrite bool_decide_eq_true_2 by exact Hpolicy.
  cbn [Income.gross_income].
  unfold income_before_policy.
  rewrite military_gross_income, city_loop_gross_income. ring.
Qed.

Lemma C10_color_bonus_not_scaled_witness :
  Report.gross_total
    (Report.income
       (nation_report log2_floor open_markets_nation january 400 green_3
          DEFAULT_PRICES (Some "green")))
  == color_bonus open_markets_nation green_3 (Some "green")
     + (1 + 0.01 * domestic_policy_increase open_markets_nation)
       * Qsum (map (city_gross_income log2_floor open_markets_nation 400)
                 (cities open_markets_nation)).
Proof.
  apply (C10_color_bonus_not_scaled log2_floor open_markets_nation january
           400 green_3 DEFAULT_PRICES (Some "green")).
  reflexivity.
Defined.

(** ** Failures of [calculate_nation_revenue] *)

Lemma market_degrades_to_default (m : Market) :
  market_fetch_fails m -> get_pnw_market_prices m = DEFAULT_PRICES.
Proof.
  intros [Hcache Hfail]. unfold get_pnw_market_prices. rewrite Hcache.
  destruct (api_key_set m); [| reflexivity]. simpl.
  destruct Hfail as [Hk | [Hr | [(r & Hr & Hbad) | Hw]]].
  - discriminate.
  - rewrite Hr. reflexivity.
  - rewrite Hr. case_bool_decide; [reflexivity |].
    destruct Hbad as [Hs | Hd]; [contradiction | rewrite Hd; reflexivity].
  - destruct (tradeprices m) as [| r]; [reflexivity |].
    case_bool_decide; [reflexivity |].
    destruct (data r); [rewrite Hw |]; reflexivity.
Qed.

Lemma color_fetch_failure_empty (c : Response (list (string * Q))) :
  color_fetch_fails c -> fetch_color_data (answers c) = gives ∅.
Proof.
  intros [Hs | Hd]; unfold fetch_color_data; f_equal.
  - rewrite bool_decide_eq_false_2 by exact Hs. reflexivity.
  - rewrite Hd. case_bool_decide; reflexivity.
Qed.

(** C6.  The call returns an error exactly when the nation request is
    answered without a nation, or the nation is found and the request for
    the game information is answered without it, with the message of the
    first that fails.  It raises exactly when one of its unguarded awaits
    raises: the nation request, then the request for the game information,
    then the colour request, the reading of the price cache or the request
    for the alliance colour.  What the market and the colour request answer
    never changes how the call ends; a failed price request leaves the
    default prices, and a colour request answered without colours leaves an
    empty table and a colour bonus of zero. *)
Theorem C6_failure_iff math_log w nation_id :
  let r := calculate_nation_revenue math_log w nation_id in
  let nation :=
    fetch_nation_data
      (sent w nation_id nation_fetch (nations_response w nation_id)) in
  let game_info :=
    await fetch_game_info
      (sent w nation_id game_info_fetch (game_info_response w)) in
  let colors :=
    fetch_color_data (sent w nation_id color_fetch (colors_response w)) in
  let prices := fetch_market_prices w nation_id in
  (r = returns (error "Nation non trouvée") <-> nation = gives None)
  /\ (r = returns (error "Impossible de récupérer les informations du jeu")
      <-> (exists n, nation = gives (Some n)) /\ game_info = gives None)
  /\ (ending r = ends_in_error
      <-> nation = gives None
          \/ ((exists n, nation = gives (Some n)) /\ game_info = gives None))
  /\ (r = raised
      <-> nation = throws
          \/ exists n,
               nation = gives (Some n)
               /\ (game_info = throws
                   \/ ((exists g, game_info = gives (Some g))
                       /\ (colors = throws
                           \/ prices = throws
                           \/ fetch_alliance_color w nation_id n = throws))))
  /\ (forall m,
        ending (calculate_nation_revenue math_log (set_market w m) nation_id)
        = ending r)
  /\ (forall c,
        ending (calculate_nation_revenue math_log (set_colors_response w c)
                  nation_id)
        = ending r)
  /\ (forall n g table alliance_color,
        nation = gives (Some n) -> game_info = gives (Some g) ->
        colors = gives table -> prices <> throws ->
        fetch_alliance_color w nation_id n = gives alliance_color ->
        (market_fetch_fails (market w) ->
         r = returns (result (nation_report math_log n g (today w) table
                                DEFAULT_PRICES alliance_color)))
        /\ (color_fetch_fails (colors_response w) ->
            exists report,
              r = returns (result report)
              /\ Report.color_bonus (Report.income report) == 0)).
Proof.
  cbv zeta. unfold calculate_nation_revenue, fetch_market_prices,
    fetch_alliance_color, sent.
  cbn [set_market set_colors_response nations_response game_info_response
         colors_response alliance_color_response market raising].
  destruct (raising w nation_id nation_fetch); cbn [fetch_nation_data].
  { split; [split; discriminate |].
    split; [split; [discriminate | intros [[? [=]] _]] |].
    split; [split; [discriminate | intros [[=] | [[? [=]] _]]] |].
    split; [split; [left |]; reflexivity |].
    split; [reflexivity |]. split; [reflexivity |].
    intros n g table alliance_color [=]. }
  destruct (if bool_decide (status (nations_response w nation_id) = 200%Z)
            then data (nations_response w nation_id) else None) as [n |].
  2: { split; [split; reflexivity |].
       split; [split; [discriminate | intros [[? [=]] _]] |].
       split; [split; [left |]; reflexivity |].
       split; [split; [discriminate | intros [[=] | (? & [=] & _)]] |].
       split; [reflexivity |]. split; [reflexivity |].
       intros n g table alliance_color [=]. }
  destruct (raising w nation_id game_info_fetch); cbn [await].
  { split; [split; discriminate |].
    split; [split; [discriminate | intros [_ [=]]] |].
    split; [split; [discriminate | intros [[=] | [_ [=]]]] |].
    split; [split; [intros _; right; exists n; split; [| left]; reflexivity
                   | reflexivity] |].
    split; [reflexivity |]. split; [reflexivity |].
    intros n' g table alliance_color _ [=]. }
  destruct (fetch_game_info (game_info_response w)) as [g |].
  2: { split; [split; discriminate |].
       split; [split; [intros _; split; [exists n |]; reflexivity
                      | reflexivity] |].
       split; [split; [intros _; right; split; [exists n |]; reflexivity
                      | reflexivity] |].
       split; [split; [discriminate
                      | intros [[=] | (? & _ & [[=] | [[? [=]] _]])]] |].
       split; [reflexivity |]. split; [reflexivity |].
       intros n' g table alliance_color _ [=]. }
  assert (Hraise : forall (P : Nation -> Prop),
             P n ->
             (raised = raised
              <-> gives (Some n) = @throws (option Nation)
                  \/ exists n0,
                       gives (Some n) = gives (Some n0)
                       /\ (gives (Some g) = @throws (option GameInfo)
                           \/ ((exists g0, gives (Some g) = gives (Some g0))
                               /\ P n0)))).
  { intros P HP. split; [intros _ | reflexivity].
    right. exists n. split; [reflexivity |]. right.
    split; [exists g; reflexivity | exact HP]. }
  assert (Hreturn : forall (P : Nation -> Prop) o,
             ~ P n ->
             (returns o = raised
              <-> gives (Some n) = @throws (option Nation)
                  \/ exists n0,
                       gives (Some n) = gives (Some n0)
                       /\ (gives (Some g) = @throws (option GameInfo)
                           \/ ((exists g0, gives (Some g) = gives (Some g0))
                               /\ P n0)))).
  { intros P o HP. split; [discriminate |].
    intros [[=] | (n0 & [= <-] & [[=] | [_ H]])]. contradiction. }
  destruct (raising w nation_id color_fetch); cbn [fetch_color_data].
  { split; [split; discriminate |].
    split; [split; [discriminate | intros [_ [=]]] |].
    split; [split; [discriminate | intros [[=] | [_ [=]]]] |].
    split; [apply (Hraise (fun n0 => _ \/ _ \/ _)); left; reflexivity |].
    split; [reflexivity |]. split; [reflexivity |].
    intros n' g' table alliance_color _ _ [=]. }
  destruct (raising w nation_id price_cache_read).
  { split; [split; discriminate |].
    split; [split; [discriminate | intros [_ [=]]] |].
    split; [split; [discriminate | intros [[=] | [_ [=]]]] |].
    split; [apply (Hraise (fun n0 => _ \/ _ \/ _)); right; left; reflexivity |].
    split; [reflexivity |]. split; [reflexivity |].
    intros n' g' table alliance_color _ _ _ Hp. contradiction. }
  destruct (bool_decide (alliance_id n ≠ "")) eqn:Ea;
    [destruct (raising w nation_id alliance_color_fetch) |].
  - split; [split; discriminate |].
    split; [split; [discriminate | intros [_ [=]]] |].
    split; [split; [discriminate | intros [[=] | [_ [=]]]] |].
    split; [apply (Hraise (fun n0 => _ \/ _ \/ _)); right; right;
            rewrite Ea; reflexivity |].
    split; [reflexivity |]. split; [reflexivity |].
    intros n' g' table alliance_color [= <-] _ _ _ H.
    rewrite Ea in H. discriminate.
  - split; [split; discriminate |].
    split; [split; [discriminate | intros [_ [=]]] |].
    split; [split; [discriminate | intros [[=] | [_ [=]]]] |].
    split; [apply (Hreturn (fun n0 => _ \/ _ \/ _));
            intros [[=] | [[=] | H]]; rewrite Ea in H; discriminate |].
    split; [reflexivity |]. split; [reflexivity |].
    intros n' g' table alliance_color [= <-] [= <-] [= <-] _ H.
    rewrite Ea in H. injection H as <-. split.
    + intros Hm. rewrite (market_degrades_to_default _ Hm). reflexivity.
    + intros Hc. eexists. split; [reflexivity |].
      pose proof (color_fetch_failure_empty _ Hc) as He.
      cbn [fetch_color_data] in He. injection He as ->.
      match goal with
      | |- Report.color_bonus
             (Report.income (nation_report _ _ _ _ _ ?p ?a)) == 0 =>
          destruct (report_income math_log n g (today w) ∅ p a)
            as (_ & _ & _ & Hcb & _)
      end.
      rewrite Hcb. apply color_bonus_absent, lookup_empty.
  - split; [split; discriminate |].
    split; [split; [discriminate | intros [_ [=]]] |].
    split; [split; [discriminate | intros [[=] | [_ [=]]]] |].
    split; [apply (Hreturn (fun n0 => _ \/ _ \/ _));
            intros [[=] | [[=] | H]]; rewrite Ea in H; discriminate |].
    split; [reflexivity |]. split; [reflexivity |].
    intros n' g' table alliance_color [= <-] [= <-] [= <-] _ H.
    rewrite Ea in H. injection H as <-. split.
    + intros Hm. rewrite (market_degrades_to_default _ Hm). reflexivity.
    + intros Hc. eexists. split; [reflexivity |].
      pose proof (color_fetch_failure_empty _ Hc) as He.
      cbn [fetch_color_data] in He. injection He as ->.
      match goal with
      | |- Report.color_bonus
             (Report.income (nation_report _ _ _ _ _ ?p ?a)) == 0 =>
          destruct (report_income math_log n g (today w) ∅ p a)
            as (_ & _ & _ & Hcb & _)
      end.
      rewrite Hcb. apply color_bonus_absent, lookup_empty.
Qed.

Lemma C6_failure_iff_witness :
  calculate_nation_revenue log2_floor degraded_world 1
  = returns (result (nation_report log2_floor open_markets_nation january 400
                       ∅ DEFAULT_PRICES (Some "green")))
  /\ exists report,
       calculate_nation_revenue log2_floor degraded_world 1
       = returns (result report)
       /\ Report.color_bonus (Report.income report) == 0.
Proof.
  destruct (proj2 (proj2 (proj2 (proj2 (proj2 (proj2
              (C6_failure_iff log2_floor degraded_world 1))))))
              open_markets_nation january ∅ (Some "green")
              eq_refl eq_refl eq_refl ltac:(discriminate) eq_refl)
    as [Hm Hc].
  split.
  - apply Hm. split; [reflexivity |]. right. left. reflexivity.
  - apply Hc. left. discriminate.
Defined.

(** The claim as the specification words it fails where the colour request
    raises: the nation resolves, the game information arrives, the fetch of
    the colour table fails, and the call fails. *)
Lemma C6_color_request_raises :
  fetch_nation_data
    (sent offline_colors_world 1 nation_fetch
       (nations_response offline_colors_world 1))
  = gives (Some open_markets_nation)
  /\ await fetch_game_info
       (sent offline_colors_world 1 game_info_fetch
          (game_info_response offline_colors_world))
     = gives (Some january)
  /\ fetch_color_data
       (sent offline_colors_world 1 color_fetch
          (colors_response offline_colors_world))
     = throws
  /\ calculate_nation_revenue log2_floor offline_colors_world 1 = raised.
Proof. repeat split. Qed.

(** ** Alliance aggregation *)

Section AllianceProperties.

Variable call_nation : Z -> Outcome.

Lemma member_step_cases acc nation :
  (succeeded call_nation nation = None
   /\ member_step call_nation acc nation = count_failure acc)
  \/ (exists r, succeeded call_nation nation = Some r
                /\ member_step call_nation acc nation
                   = add_member acc (id nation) r).
Proof.
  unfold succeeded, member_step.
  destruct (call_nation (id nation)) as [| [msg | r]]; eauto.
Qed.

Lemma successes_cons nation members :
  successes call_nation (nation :: members)
  = match succeeded call_nation nation with
    | Some r => r :: successes call_nation members
    | None => successes call_nation members
    end.
Proof. reflexivity. Qed.

(** A field that a failure leaves alone and a success increases by [g] of
    the member's report ends as the sum of [g] over the successes. *)
Lemma member_loop_sum (f : Alliance.t -> Q) (g : Report.t -> Q) :
  (forall acc, f (count_failure acc) = f acc) ->
  (forall acc nation_id r, f (add_member acc nation_id r) = f acc + g r) ->
  forall members acc,
    f (foldl (member_step call_nation) acc members)
    == f acc + Qsum (map g (successes call_nation members)).
Proof.
  intros Hfail Hadd.
  induction members as [| nation members IH]; intros acc.
  - simpl. ring.
  - cbn [foldl]. rewrite IH, successes_cons.
    destruct (member_step_cases acc nation) as [[-> ->] | (r & -> & ->)].
    + rewrite Hfail. reflexivity.
    + rewrite Hadd. simpl. ring.
Qed.

(** The counters: successes, failures, cities. *)
Lemma member_loop_counts members :
  forall acc,
    let a := foldl (member_step call_nation) acc members in
    Alliance.processed_nations a
    = (Alliance.processed_nations acc
       + Z.of_nat (length (successes call_nation members)))%Z
    /\ Alliance.failed_nations a
       = (Alliance.failed_nations acc
          + (Z.of_nat (length members)
             - Z.of_nat (length (successes call_nation members))))%Z
    /\ Alliance.total_cities a
       = (Alliance.total_cities acc
          + Zsum (map Report.num_cities (successes call_nation members)))%Z
    /\ Alliance.member_count a = Alliance.member_count acc.
Proof.
  induction members as [| nation members IH]; intros acc; cbn zeta.
  - simpl. repeat split; lia.
  - cbn [foldl]. specialize (IH (member_step call_nation acc nation)).
    cbn zeta in IH. destruct IH as (Hp & Hf & Hc & Hm).
    rewrite Hp, Hf, Hc, Hm, successes_cons.
    destruct (member_step_cases acc nation) as [[-> ->] | (r & -> & ->)];
      simpl; repeat split; lia.
Qed.

End AllianceProperties.

Lemma successes_and_failures call_nation members :
  length members
  = (length (successes call_nation members)
     + length (List.filter (failed_member call_nation) members))%nat.
Proof.
  induction members as [| nation members IH]; [reflexivity |].
  rewrite successes_cons. cbn [List.filter]. unfold failed_member at 1.
  destruct (succeeded call_nation nation); simpl; lia.
Qed.

(** C5.  When the alliance and the game information are fetched the run
    returns a report; in it the processed and the failed members add up to
    the member count, the failed ones are those whose call raised or
    returned an error, each of them only increments the failure count, and
    every aggregated amount is the sum over the reports of the processed
    members.  When every member is processed no failure is counted. *)
Theorem C5_alliance_aggregation call_nation w alliance_id alliance_data
    game_info :
  fetch_alliance_data (alliances_response w alliance_id) = Some alliance_data ->
  fetch_game_info (game_info_response w) = Some game_info ->
  let members := member_nations alliance_data in
  let ok := successes call_nation members in
  exists a,
    calculate_alliance_revenue_with call_nation w alliance_id = result a
    /\ (Alliance.member_count a = Z.of_nat (length members)
        /\ (Alliance.processed_nations a + Alliance.failed_nations a)%Z
           = Alliance.member_count a
        /\ Alliance.processed_nations a = Z.of_nat (length ok)
        /\ Alliance.failed_nations a
           = Z.of_nat (length (List.filter (failed_member call_nation) members)))
    /\ (forall acc nation,
          failed_member call_nation nation = true ->
          member_step call_nation acc nation = count_failure acc)
    /\ (Alliance.total_cities a = Zsum (map Report.num_cities ok)
        /\ Alliance.total_monetary_value a
           == Qsum (map Report.total_monetary_value ok)
        /\ (forall res,
              Alliance.production a res
              == Qsum (map (fun r => Report.production r res) ok))
        /\ (forall res,
              Report.amount (Alliance.monetary_resources a res)
              == Qsum (map (fun r => Report.amount
                                       (Report.monetary_resources r res)) ok)
              /\ Report.value (Alliance.monetary_resources a res)
                 == Qsum (map (fun r => Report.value
                                          (Report.monetary_resources r res)) ok))
        /\ Forall (fun field =>
                     field (Alliance.income a)
                     == Qsum (map (fun r => field (Report.income r)) ok))
                  income_fields)
    /\ (length ok = length members ->
        Alliance.failed_nations a = 0%Z
        /\ Report.net_income (Alliance.income a)
           == Qsum (map (fun r => Report.net_income (Report.income r)) ok)).
Proof.
  intros Halliance Hgame members ok.
  unfold calculate_alliance_revenue_with. rewrite Halliance, Hgame.
  eexists. split; [reflexivity |].
  unfold member_loop. fold members.
  set (init := alliance_init alliance_data).
  cbn [finish Alliance.member_count Alliance.processed_nations
         Alliance.failed_nations Alliance.total_cities Alliance.production
         Alliance.monetary_resources Alliance.total_monetary_value
         Alliance.income].
  destruct (member_loop_counts call_nation members init)
    as (Hp & Hf & Hc & Hm).
  fold ok in Hp, Hf, Hc.
  pose proof (successes_and_failures call_nation members) as Hlen.
  fold ok in Hlen.
  assert (Hsum : forall (f : Alliance.t -> Q) (g : Report.t -> Q),
             (forall acc, f (count_failure acc) = f acc) ->
             (forall acc nation_id r,
                 f (add_member acc nation_id r) = f acc + g r) ->
             f init = 0 ->
             f (foldl (member_step call_nation) init members)
             == Qsum (map g ok)).
  { intros f g H1 H2 H0.
    rewrite (member_loop_sum call_nation f g H1 H2 members init), H0.
    apply Qplus_0_l. }
  split; [| split; [| split]].
  - rewrite Hp, Hf, Hm. subst init. cbn [alliance_init
      Alliance.member_count Alliance.processed_nations Alliance.failed_nations].
    fold members. repeat split; lia.
  - intros acc nation Hfailed. unfold failed_member in Hfailed.
    destruct (member_step_cases call_nation acc nation)
      as [[_ ->] | (r & Hr & _)]; [reflexivity |].
    rewrite Hr in Hfailed. discriminate.
  - split; [rewrite Hc; subst init; cbn; lia |].
    split; [apply (Hsum Alliance.total_monetary_value
                     Report.total_monetary_value); reflexivity |].
    split; [intros res;
            apply (Hsum (fun a => Alliance.production a res)
                     (fun r => Report.production r res)); reflexivity |].
    split.
    + intros res. split.
      * apply (Hsum (fun a => Report.amount (Alliance.monetary_resources a res))
                 (fun r => Report.amount (Report.monetary_resources r res)));
          reflexivity.
      * apply (Hsum (fun a => Report.value (Alliance.monetary_resources a res))
                 (fun r => Report.value (Report.monetary_resources r res)));
          reflexivity.
    + unfold income_fields.
      repeat (apply Forall_cons; split;
              [ match goal with |- ?field _ == _ =>
                  apply (Hsum (fun a => field (Alliance.income a))
                           (fun r => field (Report.income r))); reflexivity
                end |]).
      apply Forall_nil_2.
  - intros Hall. split.
    + rewrite Hf. subst init. cbn [alliance_init Alliance.failed_nations]. lia.
    + apply (Hsum (fun a => Report.net_income (Alliance.income a))
               (fun r => Report.net_income (Report.income r))); reflexivity.
Qed.

Lemma C5_alliance_aggregation_witness :
  exists a,
    calculate_alliance_revenue log2_floor alliance_world 7 = result a
    /\ Alliance.member_count a = 2%Z
    /\ Alliance.processed_nations a = 1%Z
    /\ Alliance.failed_nations a = 1%Z
    /\ Alliance.total_cities a = 1%Z.
Proof.
  destruct (C5_alliance_aggregation
              (calculate_nation_revenue log2_floor alliance_world)
              alliance_world 7 bank_alliance january eq_refl eq_refl)
    as (a & Ha & (Hm & _ & Hp & Hf) & _ & (Hc & _) & _).
  exists a. split; [exact Ha |].
  rewrite Hm, Hp, Hf, Hc.
  repeat split; vm_compute; reflexivity.
Defined.

(** * Further properties *)

(** ** Commerce *)

(** X1.  With non-negative commerce improvements the commerce of a city
    lies between 0 and the cap of the nation, and the cap is 100, 115 or
    125. *)
Theorem commerce_within_cap nation city :
  (0 <= supermarket city)%Z -> (0 <= bank city)%Z ->
  (0 <= shopping_mall city)%Z -> (0 <= stadium city)%Z ->
  (0 <= subway city)%Z ->
  (0 <= commerce nation city <= commerce_cap nation)%Z
  /\ commerce_cap nation ∈ [100%Z; 115%Z; 125%Z]
  /\ (international_trade_center nation = false ->
      (commerce nation city <= 100)%Z).
Proof.
  intros Hs Hb Hm Hst Hsu.
  unfold commerce, commerce_cap, commerce_addition.
  destruct (international_trade_center nation),
    (telecommunications_satellite nation),
    (specialized_police_training_program nation);
    (split; [lia |]); (split; [set_solver | intros; lia]).
Qed.

Lemma commerce_within_cap_witness :
  (0 <= commerce open_markets_nation scenario_city
   <= commerce_cap open_markets_nation)%Z
  /\ commerce_cap open_markets_nation ∈ [100%Z; 115%Z; 125%Z]
  /\ (international_trade_center open_markets_nation = false ->
      (commerce open_markets_nation scenario_city <= 100)%Z).
Proof.
  apply (commerce_within_cap open_markets_nation scenario_city);
    cbn [scenario_city supermarket bank shopping_mall stadium subway]; lia.
Defined.

(** ** A city without improvements *)

Lemma current_infrastructure_nonneg city :
  0 <= infrastructure city ->
  (0 <= current_infrastructure_nuclear city)%Z
  /\ (0 <= current_infrastructure_coal city)%Z.
Proof.
  intros Hi.
  unfold current_infrastructure_nuclear, current_infrastructure_coal,
    float_floordiv.
  split.
  - change 0%Z with (Qfloor 0). apply Qfloor_resp_le. qlra.
  - change 0%Z with (Qfloor 0). apply Qfloor_resp_le. qlra.
Qed.

Lemma farmless_base_food nation city :
  farm city = 0%Z -> base_food_production nation city == 0.
Proof.
  intros Hf. unfold base_food_production.
  rewrite (py_round_comp _ 0); [reflexivity |].
  rewrite Hf. change (inject_Z 0) with 0. ring.
Qed.

(** X2.  A city in which every improvement count is 0 costs no upkeep,
    pollutes nothing, produces no food and leaves every resource but food
    as it was; food goes down by what the population eats. *)
Theorem city_without_improvements math_log nation game_info today city
    (p : Production) :
  Forall (fun count => count = 0%Z) (improvement_counts city) ->
  0 <= infrastructure city ->
  city_improvement_upkeep nation city == 0
  /\ pollution_index nation city == 0
  /\ food_production nation game_info city == 0
  /\ (forall r, r <> food ->
        city_production math_log nation game_info today city p r == p r)
  /\ city_production math_log nation game_info today city p food
     == p food - population_formula math_log today city.
Proof.
  intros Hzero Hinfra.
  unfold improvement_counts in Hzero.
  repeat (apply Forall_cons in Hzero; destruct Hzero as [? Hzero]).
  destruct (current_infrastructure_nonneg city Hinfra) as [Hn Hc].
  assert (Hfood : food_production nation game_info city == 0).
  { rewrite food_production_spec, farmless_base_food by assumption.
    rewrite !Qmult_0_l. reflexivity. }
  assert (Hspec0 : forall k, inject_Z (k * 0) * specialization 0 == 0)
    by (intros k; rewrite Z.mul_0_r; change (inject_Z 0) with 0; ring).
  assert (Hspec0' : forall k, inject_Z (0 * k) * specialization 0 == 0)
    by (intros k; change (inject_Z (0 * k)) with 0; ring).
  split; [| split; [| split; [exact Hfood | split]]].
  - unfold city_improvement_upkeep.
    repeat match goal with H : _ city = 0%Z |- _ => rewrite H; clear H end.
    change (inject_Z 0) with 0. ring.
  - unfold pollution_index.
    repeat match goal with H : _ city = 0%Z |- _ => rewrite H; clear H end.
    change (inject_Z 0) with 0. ring.
  - intros r Hr.
    destruct r; try congruence; read_production;
      unfold smallest_two_nuclear, smallest_two_coal, smallest_two_oil,
        infrastructure_can_power_nuclear, infrastructure_can_power_coal,
        infrastructure_can_power_oil;
      repeat match goal with H : _ city = 0%Z |- _ => rewrite H; clear H end;
      rewrite ?Hspec0, ?Hspec0';
      change (0 * 2000 / 1000)%Z with 0%Z;
      change (0 * 500 / 100)%Z with 0%Z;
      rewrite ?Z.min_r by assumption;
      change (inject_Z 0) with 0; ring.
  - rewrite city_production_food, Hfood. ring.
Qed.

Lemma city_without_improvements_witness :
  city_improvement_upkeep scenario_nation crowded_city == 0
  /\ pollution_index scenario_nation crowded_city == 0
  /\ food_production scenario_nation january crowded_city == 0
  /\ (forall r, r <> food ->
        city_production log2_floor scenario_nation january 400 crowded_city
          production_init r == production_init r)
  /\ city_production log2_floor scenario_nation january 400 crowded_city
       production_init food
     == production_init food - population_formula log2_floor 400 crowded_city.
Proof.
  apply (city_without_improvements log2_floor scenario_nation january 400
           crowded_city production_init).
  - repeat constructor.
  - discriminate.
Defined.

(** ** Radiation *)

Lemma py_round_nonneg (x : Q) : 0 <= x -> (0 <= py_round x)%Z.
Proof.
  intros Hx. unfold py_round.
  assert (Hf : (0 <= Qfloor x)%Z)
    by (change 0%Z with (Qfloor 0); apply Qfloor_resp_le, Hx).
  destruct (x - inject_Z (Qfloor x) ?= 1 # 2); [destruct (Z.even _) | |]; lia.
Qed.

Lemma base_food_production_nonneg nation city :
  (0 <= farm city)%Z -> 0 <= land city ->
  0 <= base_food_production nation city.
Proof.
  intros Hf Hl. unfold base_food_production.
  assert (Hr : (0 <= py_round (farm city
                                * improvement_specialization_bonus city
                                * food_production_rate nation city * 100))%Z).
  { apply py_round_nonneg.
    rewrite Zle_Qle in Hf. change (inject_Z 0) with 0 in Hf.
    assert (Hb : 0 <= improvement_specialization_bonus city).
    { unfold improvement_specialization_bonus.
      rewrite inject_Z_sub. inject_consts. qlra. }
    assert (Hrate : 0 <= food_production_rate nation city).
    { unfold food_production_rate.
      destruct (mass_irrigation nation), (bool_decide _); qlra. }
    repeat apply Qmult_le_0_compat; try assumption. discriminate. }
  rewrite Zle_Qle in Hr. change (inject_Z 0) with 0 in Hr.
  revert Hr. generalize (inject_Z (py_round (farm city
    * improvement_specialization_bonus city
    * food_production_rate nation city * 100))).
  intros q Hq. qlra.
Qed.

Lemma seasonal_modifier_positive nation game_info :
  0 < seasonal_modifier nation game_info.
Proof.
  unfold seasonal_modifier. repeat case_bool_decide; reflexivity.
Qed.

(** X3.  Food production is never negative, and once the radiation of the
    continent and of the globe, scaled by the fallout shelter, reaches 1000
    a city with any number of farms on any land produces no food. *)
Theorem radiation_wipes_out_food nation game_info city :
  (0 <= farm city)%Z -> 0 <= land city ->
  0 <= food_production nation game_info city
  /\ (1000 <= radiation_index nation game_info
              * fallout_shelter_multiplier nation ->
      food_production nation game_info city == 0).
Proof.
  intros Hf Hl. split; [apply py_max_nonneg |].
  intros Hrad.
  pose proof (base_food_production_nonneg nation city Hf Hl) as Hb.
  pose proof (seasonal_modifier_positive nation game_info) as Hs.
  unfold food_production.
  assert (Hp : 1 + radiation_penalty nation game_info <= 0).
  { unfold radiation_penalty. revert Hrad.
    generalize (radiation_index nation game_info)
      (fallout_shelter_multiplier nation).
    intros ri m Hrad.
    assert (E : ri / -1000 * m == - (ri * m) * (1 # 1000)) by field.
    rewrite E. lra. }
  revert Hb Hs Hp.
  generalize (base_food_production nation city)
    (seasonal_modifier nation game_info)
    (1 + radiation_penalty nation game_info).
  intros b s t Hb Hs Hp.
  assert (Hbs : 0 <= b * s) by (apply Qmult_le_0_compat; lra).
  assert (Hbst : 0 <= (b * s) * - t) by (apply Qmult_le_0_compat; lra).
  assert (Hneg : b * s * t <= 0) by lra.
  destruct (py_max_spec (b * s * t) 0) as [[_ ->] | [H0 ->]];
    [reflexivity | lra].
Qed.

Lemma radiation_wipes_out_food_witness :
  0 <= food_production scenario_nation nuclear_winter scenario_city
  /\ (1000 <= radiation_index scenario_nation nuclear_winter
              * fallout_shelter_multiplier scenario_nation ->
      food_production scenario_nation nuclear_winter scenario_city == 0).
Proof.
  apply (radiation_wipes_out_food scenario_nation nuclear_winter
           scenario_city); discriminate.
Defined.

(** ** The report as sums over the cities *)

Lemma Qsum_cons (x : Q) (l : list Q) : Qsum (x :: l) = x + Qsum l.
Proof. reflexivity. Qed.

Lemma Qsum_app (l l' : list Q) : Qsum (l ++ l') == Qsum l + Qsum l'.
Proof. induction l as [| x l IH]; simpl; [| rewrite IH]; ring. Qed.

Lemma Qsum_Permutation (l l' : list Q) : l ≡ₚ l' -> Qsum l == Qsum l'.
Proof.
  induction 1 as [| x l l' _ IH | x y l | l l' l'' _ IH1 _ IH2]; simpl.
  - reflexivity.
  - rewrite IH. reflexivity.
  - ring.
  - rewrite IH1. exact IH2.
Qed.

(** Every update of the loop body adds to what is there. *)
Lemma city_production_additive math_log nation game_info today city
    (p : Production) r :
  city_production math_log nation game_info today city p r
  == p r + city_delta math_log nation game_info today city r.
Proof.
  unfold city_delta. destruct r; read_production; unfold production_init; ring.
Qed.

Lemma city_loop_sums math_log nation game_info today :
  let st := city_loop math_log nation game_info today in
  (forall r,
      fst st r
      == Qsum (map (fun city =>
                      city_delta math_log nation game_info today city r)
                 (cities nation)))
  /\ Income.improvement_upkeep (snd st)
     == Qsum (map (city_improvement_upkeep nation) (cities nation))
  /\ Income.military_upkeep (snd st) = 0.
Proof.
  cbv zeta. unfold city_loop.
  assert (H : forall l st,
             let st' := foldl (fun st city =>
                                 city_step math_log nation game_info today
                                   city st) st l in
             (forall r,
                 fst st' r
                 == fst st r
                    + Qsum (map (fun city =>
                                   city_delta math_log nation game_info today
                                     city r) l))
             /\ Income.improvement_upkeep (snd st')
                == Income.improvement_upkeep (snd st)
                   + Qsum (map (city_improvement_upkeep nation) l)
             /\ Income.military_upkeep (snd st')
                = Income.military_upkeep (snd st)).
  { induction l as [| c l IH]; intros st; cbn zeta.
    - simpl. split; [intros r; ring | split; [ring | reflexivity]].
    - cbn [foldl map]. rewrite Qsum_cons.
      destruct (IH (city_step math_log nation game_info today c st))
        as (Hp & Hu & Hm).
      split; [| split].
      + intros r. rewrite Qsum_cons, Hp. unfold city_step at 1. cbn [fst].
        rewrite city_production_additive. ring.
      + rewrite Hu. unfold city_step at 1.
        cbn [snd city_income Income.improvement_upkeep]. ring.
      + rewrite Hm. reflexivity. }
  destruct (H (cities nation) (production_init, Income.init))
    as (Hp & Hu & Hm).
  split; [| split].
  - intros r. rewrite Hp. cbn [fst]. unfold production_init. ring.
  - rewrite Hu. cbn [snd Income.init Income.improvement_upkeep]. ring.
  - rewrite Hm. reflexivity.
Qed.

(** The production of the report: the sum over the cities, less the food
    of the soldiers. *)
Lemma report_production math_log nation game_info today color_bonuses
    market_prices alliance_color r :
  Report.production
    (nation_report math_log nation game_info today color_bonuses
       market_prices alliance_color) r
  == Qsum (map (fun city => city_delta math_log nation game_info today city r)
             (cities nation))
     - (if decide (food = r) then soldier_formula nation else 0).
Proof.
  destruct (city_loop_sums math_log nation game_info today) as (Hp & _).
  unfold nation_report, military.
  destruct (city_loop math_log nation game_info today) as [p i].
  cbn [Report.production fst] in *.
  unfold psub. rewrite <- Hp. destruct (decide (food = r)); ring.
Qed.

Lemma total_value_ext market_prices (p p' : Production) :
  (forall r, p r == p' r) ->
  total_value market_prices p == total_value market_prices p'.
Proof.
  intros H. unfold total_value, resources. cbn [foldl].
  rewrite !H. reflexivity.
Qed.

Lemma report_total_monetary_value math_log nation game_info today
    color_bonuses market_prices alliance_color :
  let r := nation_report math_log nation game_info today color_bonuses
             market_prices alliance_color in
  Report.total_monetary_value r
  = total_value market_prices (Report.production r)
  /\ Report.monetary_net_income (Report.income r)
     = Report.net_income (Report.income r) + Report.total_monetary_value r
  /\ Report.net_income (Report.income r)
     = Report.gross_total (Report.income r)
       - Report.gross_upkeep (Report.income r)
  /\ Report.gross_upkeep (Report.income r)
     = Report.improvement_upkeep (Report.income r)
       + Report.military_upkeep (Report.income r).
Proof.
  cbv zeta. unfold nation_report.
  destruct (military nation (city_loop math_log nation game_info today))
    as [p i].
  repeat split.
Qed.

Lemma income_before_policy_eq math_log nation game_info today :
  let i := income_before_policy math_log nation game_info today in
  Income.gross_income i
  == Qsum (map (city_gross_income math_log nation today) (cities nation))
  /\ Income.improvement_upkeep i
     == Qsum (map (city_improvement_upkeep nation) (cities nation))
  /\ Income.military_upkeep i
     == unit_upkeep nation + inject_Z (spies nation * 2400).
Proof.
  cbv zeta. unfold income_before_policy.
  pose proof (city_loop_gross_income math_log nation game_info today) as Hg.
  destruct (city_loop_sums math_log nation game_info today) as (_ & Hu & Hm).
  unfold military.
  destruct (city_loop math_log nation game_info today) as [p i].
  cbn [snd Income.gross_income Income.improvement_upkeep
         Income.military_upkeep] in *.
  rewrite Hm. repeat split; [exact Hg | exact Hu | ring].
Qed.

(** The factors of the domestic policy on gross income and on military
    upkeep. *)
Lemma apply_domestic_policy_fields nation (i : Income.t) :
  let open := bool_decide (domestic_policy nation = "OPEN_MARKETS") in
  let imperial := bool_decide (domestic_policy nation = "IMPERIALISM") in
  Income.gross_income (apply_domestic_policy nation i)
  == (if open then 1 + 0.01 * domestic_policy_increase nation else 1)
     * Income.gross_income i
  /\ Income.military_upkeep (apply_domestic_policy nation i)
     == (if open then 1
         else if imperial then 1 - 0.05 * domestic_policy_increase nation
              else 1)
        * Income.military_upkeep i
  /\ Income.improvement_upkeep (apply_domestic_policy nation i)
     = Income.improvement_upkeep i.
Proof.
  cbv zeta. unfold apply_domestic_policy.
  destruct (bool_decide (domestic_policy nation = "OPEN_MARKETS"));
    [| destruct (bool_decide (domestic_policy nation = "IMPERIALISM"))];
    cbn [Income.gross_income Income.military_upkeep Income.improvement_upkeep];
    (split; [ring | split; [ring | reflexivity]]).
Qed.

(** The income of the report from the sums over the cities and the values
    of the nation. *)
Lemma report_income_closed math_log nation game_info today color_bonuses
    market_prices alliance_color :
  let r := Report.income
             (nation_report math_log nation game_info today color_bonuses
                market_prices alliance_color) in
  let G := Qsum (map (city_gross_income math_log nation today)
                   (cities nation)) in
  let U := Qsum (map (city_improvement_upkeep nation) (cities nation)) in
  let M := unit_upkeep nation + inject_Z (spies nation * 2400) in
  let open := bool_decide (domestic_policy nation = "OPEN_MARKETS") in
  let imperial := bool_decide (domestic_policy nation = "IMPERIALISM") in
  let fg := if open then 1 + 0.01 * domestic_policy_increase nation else 1 in
  let fm := if open then 1
            else if imperial then 1 - 0.05 * domestic_policy_increase nation
                 else 1 in
  let bonus := color_bonus nation color_bonuses alliance_color in
  Report.gross_income r == fg * G
  /\ Report.color_bonus r == bonus
  /\ Report.gross_total r == bonus + fg * G
  /\ Report.military_upkeep r == fm * M
  /\ Report.improvement_upkeep r == U
  /\ Report.gross_upkeep r == U + fm * M
  /\ Report.net_income r == bonus + fg * G - (U + fm * M).
Proof.
  cbv zeta.
  destruct (report_income math_log nation game_info today color_bonuses
              market_prices alliance_color) as (Hg & Hm & Hu & Hc & Ht).
  destruct (report_total_monetary_value math_log nation game_info today
              color_bonuses market_prices alliance_color)
    as (_ & _ & Hn & Hgu).
  destruct (income_before_policy_eq math_log nation game_info today)
    as (Eg & Eu & Em).
  destruct (apply_domestic_policy_fields nation
              (income_before_policy math_log nation game_info today))
    as (Pg & Pm & Pu).
  rewrite Hn, Hgu, Ht, Hg, Hm, Hu, Hc, Pg, Pm, Pu, Eg, Eu, Em.
  repeat split; ring.
Qed.

(** ** The cities field is read by the loop only *)

Section SameNation.

Variables (math_log : Z -> Q) (n : Nation) (cs : list City) (game_info : GameInfo) (today : Z).

Lemma set_cities_commerce c : commerce (set_cities n cs) c = commerce n c.
Proof. reflexivity. Qed.
Lemma set_cities_pollution_index c :
  pollution_index (set_cities n cs) c = pollution_index n c.
Proof. reflexivity. Qed.
Lemma set_cities_crime_rate c : crime_rate (set_cities n cs) c = crime_rate n c.
Proof. unfold crime_rate. rewrite set_cities_commerce. reflexivity. Qed.
Lemma set_cities_disease_rate c :
  disease_rate (set_cities n cs) c = disease_rate n c.
Proof.
  unfold disease_rate, pollution_modifier.
  rewrite set_cities_pollution_index. reflexivity.
Qed.
Lemma set_cities_population c :
  population math_log (set_cities n cs) today c = population math_log n today c.
Proof.
  unfold population, population_unscaled, disease_loss, crime_loss.
  rewrite set_cities_disease_rate, set_cities_crime_rate. reflexivity.
Qed.
Lemma set_cities_city_gross_income c :
  city_gross_income math_log (set_cities n cs) today c
  = city_gross_income math_log n today c.
Proof.
  unfold city_gross_income.
  rewrite set_cities_population, set_cities_commerce. reflexivity.
Qed.
Lemma set_cities_base_food_production c :
  base_food_production (set_cities n cs) c = base_food_production n c.
Proof. reflexivity. Qed.
Lemma set_cities_seasonal_modifier :
  seasonal_modifier (set_cities n cs) game_info = seasonal_modifier n game_info.
Proof. reflexivity. Qed.
Lemma set_cities_radiation_penalty :
  radiation_penalty (set_cities n cs) game_info = radiation_penalty n game_info.
Proof. reflexivity. Qed.
Lemma set_cities_food_production c :
  food_production (set_cities n cs) game_info c = food_production n game_info c.
Proof.
  unfold food_production.
  rewrite set_cities_base_food_production, set_cities_seasonal_modifier,
    set_cities_radiation_penalty. reflexivity.
Qed.
Lemma set_cities_multipliers r :
  multipliers (set_cities n cs) r = multipliers n r.
Proof. destruct r; reflexivity. Qed.
Lemma set_cities_city_delta c r :
  city_delta math_log (set_cities n cs) game_info today c r
  = city_delta math_log n game_info today c r.
Proof.
  unfold city_delta, city_production.
  rewrite set_cities_food_production, !set_cities_multipliers. reflexivity.
Qed.
Lemma set_cities_city_improvement_upkeep c :
  city_improvement_upkeep (set_cities n cs) c = city_improvement_upkeep n c.
Proof. reflexivity. Qed.
Lemma set_cities_unit_upkeep : unit_upkeep (set_cities n cs) = unit_upkeep n.
Proof. reflexivity. Qed.
Lemma set_cities_soldier_formula :
  soldier_formula (set_cities n cs) = soldier_formula n.
Proof. reflexivity. Qed.
Lemma set_cities_domestic_policy_increase :
  domestic_policy_increase (set_cities n cs) = domestic_policy_increase n.
Proof. reflexivity. Qed.
Lemma set_cities_color_bonus color_bonuses alliance_color :
  color_bonus (set_cities n cs) color_bonuses alliance_color
  = color_bonus n color_bonuses alliance_color.
Proof. reflexivity. Qed.
End SameNation.


(** X4.  The order of the cities does not matter: a nation whose cities are
    listed in another order gets the same production, the same money value
    and the same income entries. *)
Theorem city_order_irrelevant math_log nation game_info today color_bonuses
    market_prices alliance_color (cs : list City) :
  cs ≡ₚ cities nation ->
  let r1 := nation_report math_log (set_cities nation cs) game_info today
              color_bonuses market_prices alliance_color in
  let r2 := nation_report math_log nation game_info today color_bonuses
              market_prices alliance_color in
  (forall res, Report.production r1 res == Report.production r2 res)
  /\ Report.total_monetary_value r1 == Report.total_monetary_value r2
  /\ Forall (fun field => field (Report.income r1) == field (Report.income r2))
       income_fields.
Proof.
  intros Hperm. cbv zeta.
  assert (Hprod : forall res,
             Report.production
               (nation_report math_log (set_cities nation cs) game_info today
                  color_bonuses market_prices alliance_color) res
             == Report.production
                  (nation_report math_log nation game_info today color_bonuses
                     market_prices alliance_color) res).
  { intros res. rewrite !report_production.
    change (cities (set_cities nation cs)) with cs.
    rewrite set_cities_soldier_formula.
    rewrite (List.map_ext _ _
               (fun c => set_cities_city_delta math_log nation cs game_info
                           today c res)).
    rewrite (Qsum_Permutation _ _
               (Permutation_map
                  (fun city =>
                     city_delta math_log nation game_info today city res)
                  Hperm)).
    reflexivity. }
  assert (Htotal :
            Report.total_monetary_value
              (nation_report math_log (set_cities nation cs) game_info today
                 color_bonuses market_prices alliance_color)
            == Report.total_monetary_value
                 (nation_report math_log nation game_info today color_bonuses
                    market_prices alliance_color)).
  { rewrite !(proj1 (report_total_monetary_value _ _ _ _ _ _ _)).
    apply total_value_ext, Hprod. }
  split; [exact Hprod |]. split; [exact Htotal |].
  destruct (report_income_closed math_log (set_cities nation cs) game_info
              today color_bonuses market_prices alliance_color)
    as (A1 & A2 & A3 & A4 & A5 & A6 & A7).
  destruct (report_income_closed math_log nation game_info today
              color_bonuses market_prices alliance_color)
    as (B1 & B2 & B3 & B4 & B5 & B6 & B7).
  change (cities (set_cities nation cs)) with cs in *.
  change (domestic_policy (set_cities nation cs))
    with (domestic_policy nation) in *.
  change (spies (set_cities nation cs)) with (spies nation) in *.
  rewrite set_cities_unit_upkeep, set_cities_domestic_policy_increase,
    ?set_cities_color_bonus in *.
  rewrite (List.map_ext _ _
             (set_cities_city_gross_income math_log nation cs today)),
    (Qsum_Permutation _ _
       (Permutation_map (city_gross_income math_log nation today) Hperm))
    in A1, A3, A7.
  rewrite (List.map_ext _ _ (set_cities_city_improvement_upkeep nation cs)),
    (Qsum_Permutation _ _
       (Permutation_map (city_improvement_upkeep nation) Hperm))
    in A5, A6, A7.
  unfold income_fields.
  repeat (apply Forall_cons; split); try apply Forall_nil_2.
  - rewrite A1, B1. reflexivity.
  - rewrite A2, B2. reflexivity.
  - rewrite A3, B3. reflexivity.
  - rewrite A4, B4. reflexivity.
  - rewrite A5, B5. reflexivity.
  - rewrite A6, B6. reflexivity.
  - rewrite A7, B7. reflexivity.
  - destruct (report_total_monetary_value math_log (set_cities nation cs)
                game_info today color_bonuses market_prices alliance_color)
      as (_ & -> & _).
    destruct (report_total_monetary_value math_log nation game_info today
                color_bonuses market_prices alliance_color) as (_ & -> & _).
    rewrite A7, B7, Htotal. reflexivity.
Qed.

Lemma city_order_irrelevant_witness :
  let r1 := nation_report log2_floor
              (set_cities two_city_nation [munitions_city; scenario_city])
              january 400 green_3 DEFAULT_PRICES (Some "green") in
  let r2 := nation_report log2_floor two_city_nation january 400 green_3
              DEFAULT_PRICES (Some "green") in
  (forall res, Report.production r1 res == Report.production r2 res)
  /\ Report.total_monetary_value r1 == Report.total_monetary_value r2
  /\ Forall (fun field => field (Report.income r1) == field (Report.income r2))
       income_fields.
Proof.
  apply (city_order_irrelevant log2_floor two_city_nation january 400 green_3
           DEFAULT_PRICES (Some "green") [munitions_city; scenario_city]).
  apply perm_swap.
Defined.

(** ** What the reports derive from their own entries *)









(** ** The order of [member_results] *)

Lemma insert_result_perm x l : insert_result x l ≡ₚ x :: l.
Proof.
  induction l as [| y l IH]; cbn [insert_result]; [reflexivity |].
  destruct (mr_total_income y ?= mr_total_income x); try reflexivity;
    rewrite IH; apply perm_swap.
Qed.

Lemma sort_results_snoc l x :
  sort_results (l ++ [x]) = insert_result x (sort_results l).
Proof. unfold sort_results. rewrite foldl_app. reflexivity. Qed.

Lemma sort_results_perm l : sort_results l ≡ₚ l.
Proof.
  induction l as [| x l IH] using rev_ind; [reflexivity |].
  rewrite sort_results_snoc, insert_result_perm, IH.
  rewrite Permutation_app_comm. reflexivity.
Qed.

Lemma insert_result_sorted x l :
  StronglySorted richer_first l ->
  StronglySorted richer_first (insert_result x l).
Proof.
  induction 1 as [| y l Hl IH Hy]; cbn [insert_result].
  - repeat constructor.
  - destruct (mr_total_income y ?= mr_total_income x) eqn:E.
    + constructor; [exact IH |].
      rewrite insert_result_perm. constructor; [| exact Hy].
      unfold richer_first. apply Qeq_alt in E. rewrite E. apply Qle_refl.
    + constructor; [constructor; assumption |].
      apply Qlt_alt in E. constructor.
      * unfold richer_first. apply Qlt_le_weak, E.
      * eapply Forall_impl; [exact Hy |].
        unfold richer_first. intros z Hz. cbn beta in Hz. lra.
    + constructor; [exact IH |].
      rewrite insert_result_perm. constructor; [| exact Hy].
      unfold richer_first. apply Qgt_alt in E. apply Qlt_le_weak, E.
Qed.

Lemma sort_results_sorted l : StronglySorted richer_first (sort_results l).
Proof.
  induction l as [| x l IH] using rev_ind; [constructor |].
  rewrite sort_results_snoc. apply insert_result_sorted, IH.
Qed.

Lemma filter_none_below v x l :
  Forall (richer_first x) l -> mr_total_income x < v ->
  List.filter (same_total v) l = [].
Proof.
  intros Hl Hx. induction Hl as [| z l Hz _ IH]; [reflexivity |].
  cbn [List.filter]. rewrite IH.
  unfold same_total. destruct (Qeq_bool (mr_total_income z) v) eqn:E;
    [| reflexivity].
  apply Qeq_bool_iff in E. unfold richer_first in Hz. lra.
Qed.

(** Inserting an entry puts it behind the entries with the same key. *)
Lemma insert_result_stable v x l :
  StronglySorted richer_first l ->
  List.filter (same_total v) (insert_result x l)
  = List.filter (same_total v) l ++ (if same_total v x then [x] else []).
Proof.
  induction 1 as [| y l Hl IH Hy]; cbn [insert_result].
  - cbn [List.filter]. destruct (same_total v x); reflexivity.
  - destruct (mr_total_income y ?= mr_total_income x) eqn:E;
      try (cbn [List.filter]; rewrite IH;
           destruct (same_total v y); reflexivity).
    apply Qlt_alt in E.
    change (List.filter (same_total v) (x :: y :: l))
      with (if same_total v x
            then x :: List.filter (same_total v) (y :: l)
            else List.filter (same_total v) (y :: l)).
    destruct (same_total v x) eqn:Ex; [| rewrite app_nil_r; reflexivity].
    unfold same_total in Ex. apply Qeq_bool_iff in Ex.
    rewrite (filter_none_below v y (y :: l)); [reflexivity | | lra].
    constructor; [apply Qle_refl | exact Hy].
Qed.

Lemma sort_results_stable v l :
  List.filter (same_total v) (sort_results l) = List.filter (same_total v) l.
Proof.
  induction l as [| x l IH] using rev_ind; [reflexivity |].
  rewrite sort_results_snoc, insert_result_stable by apply sort_results_sorted.
  rewrite IH, List.filter_app. reflexivity.
Qed.

Lemma summaries_cons call_nation nation members :
  summaries call_nation (nation :: members)
  = match succeeded call_nation nation with
    | Some r => member_summary (id nation) r :: summaries call_nation members
    | None => summaries call_nation members
    end.
Proof.
  unfold summaries. cbn [omap list_omap].
  destruct (succeeded call_nation nation); reflexivity.
Qed.

Lemma member_loop_results call_nation members :
  forall acc,
    Alliance.member_results (foldl (member_step call_nation) acc members)
    = Alliance.member_results acc ++ summaries call_nation members.
Proof.
  induction members as [| nation members IH]; intros acc.
  - cbn. rewrite app_nil_r. reflexivity.
  - cbn [foldl]. rewrite IH, summaries_cons.
    unfold member_step, succeeded.
    destruct (call_nation (id nation)) as [| [msg | r]];
      [reflexivity | reflexivity |].
    cbn [add_member Alliance.member_results].
    rewrite <- app_assoc. reflexivity.
Qed.

(** X6.  [member_results] holds one entry per processed member, the largest
    total income first, and members with the same total income stay in the
    order of the member list. *)
Theorem member_results_sorted call_nation w alliance_id a :
  calculate_alliance_revenue_with call_nation w alliance_id = result a ->
  exists alliance_data,
    fetch_alliance_data (alliances_response w alliance_id) = Some alliance_data
    /\ Alliance.member_results a
       ≡ₚ summaries call_nation (member_nations alliance_data)
    /\ StronglySorted richer_first (Alliance.member_results a)
    /\ forall v,
         List.filter (same_total v) (Alliance.member_results a)
         = List.filter (same_total v)
             (summaries call_nation (member_nations alliance_data)).
Proof.
  unfold calculate_alliance_revenue_with.
  destruct (fetch_alliance_data _) as [alliance_data |]; [| discriminate].
  destruct (fetch_game_info _) as [game_info |]; [| discriminate].
  intros [= <-]. exists alliance_data. split; [reflexivity |].
  unfold member_loop. cbn [finish Alliance.member_results].
  rewrite member_loop_results. cbn [alliance_init Alliance.member_results app].
  split; [apply sort_results_perm |].
  split; [apply sort_results_sorted | intros v; apply sort_results_stable].
Qed.

Lemma member_results_sorted_witness :
  exists alliance_data,
    fetch_alliance_data (alliances_response alliance_world 7)
    = Some alliance_data
    /\ Alliance.member_results
         (alliance_report log2_floor alliance_world bank_alliance)
       ≡ₚ summaries
            (calculate_nation_revenue log2_floor alliance_world)
            (member_nations alliance_data)
    /\ StronglySorted richer_first
         (Alliance.member_results
            (alliance_report log2_floor alliance_world bank_alliance))
    /\ forall v,
         List.filter (same_total v)
           (Alliance.member_results
              (alliance_report log2_floor alliance_world bank_alliance))
         = List.filter (same_total v)
             (summaries
                (calculate_nation_revenue log2_floor alliance_world)
                (member_nations alliance_data)).
Proof.
  apply (member_results_sorted
           (calculate_nation_revenue log2_floor alliance_world)
           alliance_world 7
           (alliance_report log2_floor alliance_world bank_alliance)).
  reflexivity.
Defined.

(** ** Market prices *)

Lemma merge_prices_fold (trade_data : gmap string (option Q)) keys :
  forall (prices : gmap string Q) k,
    foldl (fun prices resource =>
             match trade_data !! resource with
             | Some (Some v) => <[resource := v]> prices
             | _ => prices
             end) prices keys !! k
    = match trade_data !! k with
      | Some (Some v) => if decide (k ∈ keys) then Some v else prices !! k
      | _ => prices !! k
      end.
Proof.
  induction keys as [| key keys IH]; intros prices k.
  - cbn [foldl]. destruct (trade_data !! k) as [[v |] |]; [| reflexivity..].
    rewrite decide_False by apply not_elem_of_nil. reflexivity.
  - cbn [foldl]. rewrite IH.
    destruct (trade_data !! k) as [[v |] |] eqn:Ek.
    + destruct (decide (k ∈ keys)) as [Hin | Hnin].
      * rewrite decide_True by (apply elem_of_cons; auto). reflexivity.
      * destruct (decide (k = key)) as [-> | Hne].
        -- rewrite Ek, lookup_insert_eq, decide_True by apply list_elem_of_here.
           reflexivity.
        -- rewrite decide_False
             by (intros [? | ?]%elem_of_cons; contradiction).
           destruct (trade_data !! key) as [[v' |] |];
             rewrite ?lookup_insert_ne by congruence; reflexivity.
    + destruct (decide (k = key)) as [-> | Hne].
      * rewrite Ek. reflexivity.
      * destruct (trade_data !! key) as [[v' |] |];
          rewrite ?lookup_insert_ne by congruence; reflexivity.
    + destruct (decide (k = key)) as [-> | Hne].
      * rewrite Ek. reflexivity.
      * destruct (trade_data !! key) as [[v' |] |];
          rewrite ?lookup_insert_ne by congruence; reflexivity.
Qed.

Lemma default_prices_keys k :
  k ∈ DEFAULT_PRICES_items.*1 <-> is_Some (DEFAULT_PRICES !! k).
Proof.
  unfold DEFAULT_PRICES. split.
  - intros Hin.
    destruct (list_to_map DEFAULT_PRICES_items !! k) eqn:E; [eauto |].
    apply not_elem_of_list_to_map in E. contradiction.
  - intros [v Hv]. apply elem_of_list_to_map_2 in Hv.
    apply list_elem_of_fmap. exists (k, v). split; [reflexivity | exact Hv].
Qed.

(** X7.  The prices built from an answer of the market have exactly the
    keys of [DEFAULT_PRICES]: a key of the answer that is no default is
    dropped, and a resource that the answer lacks or gives as null keeps its
    default price. *)
Theorem merge_prices_lookup (trade_data : gmap string (option Q)) k :
  merge_prices trade_data !! k
  = match DEFAULT_PRICES !! k with
    | Some d => Some (match trade_data !! k with
                      | Some (Some v) => v
                      | _ => d
                      end)
    | None => None
    end.
Proof.
  unfold merge_prices. rewrite merge_prices_fold.
  destruct (DEFAULT_PRICES !! k) as [d |] eqn:Ed.
  - destruct (trade_data !! k) as [[v |] |]; try reflexivity.
    rewrite decide_True; [reflexivity |].
    apply default_prices_keys. rewrite Ed. eauto.
  - destruct (trade_data !! k) as [[v |] |]; try reflexivity.
    rewrite decide_False; [reflexivity |].
    intros Hin%default_prices_keys. rewrite Ed in Hin.
    destruct Hin as [? ?]. discriminate.
Qed.

Lemma default_prices_resource r :
  DEFAULT_PRICES !! resource_key r = Some (default_price r).
Proof. destruct r; reflexivity. Qed.

(** X8.  When the cache is not used every resource has a price: the
    default one, or the number the market answered for it. *)
Theorem fetched_prices_cover_resources (m : Market) (r : resource) :
  cached_prices m = None ->
  get_pnw_market_prices m !! resource_key r = Some (default_price r)
  \/ exists answer trade_data v,
       tradeprices m = answers answer
       /\ data answer = Some trade_data
       /\ trade_data !! resource_key r = Some (Some v)
       /\ get_pnw_market_prices m !! resource_key r = Some v.
Proof.
  intros Hcache. unfold get_pnw_market_prices. rewrite Hcache.
  pose proof (default_prices_resource r) as Hd.
  destruct (api_key_set m); cbn [negb]; [| left; exact Hd].
  destruct (tradeprices m) as [| answer] eqn:Ht; [left; exact Hd |].
  case_bool_decide; [left; exact Hd |].
  destruct (data answer) as [trade_data |] eqn:Hdata; [| left; exact Hd].
  cbv zeta. destruct (cache_writable m); [| left; exact Hd].
  rewrite merge_prices_lookup, Hd.
  destruct (trade_data !! resource_key r) as [[v |] |] eqn:Hv;
    [| left; reflexivity..].
  right. exists answer, trade_data, v. repeat split; assumption.
Qed.

Lemma fetched_prices_cover_resources_witness :
  get_pnw_market_prices (market degraded_world) !! resource_key steel
  = Some (default_price steel)
  \/ exists answer trade_data v,
       tradeprices (market degraded_world) = answers answer
       /\ data answer = Some trade_data
       /\ trade_data !! resource_key steel = Some (Some v)
       /\ get_pnw_market_prices (market degraded_world) !! resource_key steel
          = Some v.
Proof.
  apply (fetched_prices_cover_resources (market degraded_world) steel).
  reflexivity.
Defined.

(** ** Colours *)

Lemma color_dict_snoc colors c b :
  color_dict (colors ++ [(c, b)]) = <[c := b]> (color_dict colors).
Proof. unfold color_dict. rewrite foldl_app. reflexivity. Qed.

(** X9.  When the list of colours names a colour more than once the table
    keeps the bonus of the last entry, and a colour that the list does not
    name has no entry. *)
Theorem color_dict_last_wins (colors : list (string * Q)) (c : string) :
  color_dict colors !! c = last_bonus colors c.
Proof.
  unfold last_bonus.
  induction colors as [| [c' b] colors IH] using rev_ind; [reflexivity |].
  rewrite color_dict_snoc, filter_app.
  destruct (decide (c' = c)) as [-> | Hne].
  - rewrite lookup_insert_eq.
    rewrite (filter_cons_True _ (c, b)) by reflexivity.
    rewrite filter_nil, last_snoc. reflexivity.
  - rewrite lookup_insert_ne by exact Hne.
    rewrite (filter_cons_False _ (c', b)) by exact Hne.
    rewrite filter_nil, app_nil_r. exact IH.
Qed.

(** ** Applicants and failing members *)

Lemma member_loop_ext call call' members :
  Forall (fun nation => call (id nation) = call' (id nation)) members ->
  forall acc,
    foldl (member_step call) acc members
    = foldl (member_step call') acc members.
Proof.
  induction 1 as [| nation members Hn _ IH]; intros acc; [reflexivity |].
  cbn [foldl]. rewrite IH. unfold member_step. rewrite Hn. reflexivity.
Qed.

(** X10.  The calculation of a nation that is an applicant, or no nation of
    the alliance at all, has no part in the alliance report: whatever the
    call for such a nation would do, the report is the same. *)
Theorem applicants_not_called call_nation w alliance_id nation_id o :
  (forall alliance_data,
      fetch_alliance_data (alliances_response w alliance_id)
      = Some alliance_data ->
      Forall (fun nation =>
                id nation = nation_id ->
                alliance_position nation = "APPLICANT")
        (nations alliance_data)) ->
  calculate_alliance_revenue_with (call_except call_nation nation_id o)
    w alliance_id
  = calculate_alliance_revenue_with call_nation w alliance_id.
Proof.
  intros Happ. unfold calculate_alliance_revenue_with.
  destruct (fetch_alliance_data _) as [alliance_data |]; [| reflexivity].
  destruct (fetch_game_info _) as [game_info |]; [| reflexivity].
  unfold member_loop. rewrite (member_loop_ext _ call_nation); [reflexivity |].
  specialize (Happ alliance_data eq_refl).
  unfold member_nations. apply Forall_forall. intros nation Hin.
  apply list_elem_of_filter in Hin as [Hpos Hin].
  rewrite Forall_forall in Happ. specialize (Happ nation Hin).
  unfold call_except. case_bool_decide as Hid; [| reflexivity].
  contradiction (Hpos (Happ Hid)).
Qed.

Lemma applicants_not_called_witness :
  calculate_alliance_revenue_with
    (call_except
       (calculate_nation_revenue log2_floor alliance_world)
       3 raised)
    alliance_world 7
  = calculate_alliance_revenue log2_floor alliance_world 7.
Proof.
  apply (applicants_not_called
           (calculate_nation_revenue log2_floor alliance_world)
           alliance_world 7 3 raised).
  intros alliance_data [= <-].
  repeat constructor; cbn; intros; (reflexivity || discriminate).
Defined.

(** ** The rate limiter *)

Lemma Qlt_bool_iff (x y : Q) : Qlt_bool x y = true <-> x < y.
Proof.
  unfold Qlt_bool. rewrite Qlt_alt.
  destruct (x ?= y); split; congruence.
Qed.

Lemma Qlt_bool_false (x y : Q) : Qlt_bool x y = false <-> y <= x.
Proof.
  rewrite <- not_true_iff_false, Qlt_bool_iff. split.
  - apply Qnot_lt_le.
  - intros H H'. apply (Qlt_not_le _ _ H'), H.
Qed.

Lemma py_min_fold (l : list Q) :
  forall x,
    let m := foldl (fun m y => if Qlt_bool y m then y else m) x l in
    (m = x \/ In m l) /\ m <= x /\ Forall (fun t => m <= t) l.
Proof.
  induction l as [| y l IH]; intros x; cbn zeta.
  - cbn [foldl]. split; [left; reflexivity |].
    split; [apply Qle_refl | constructor].
  - cbn [foldl].
    destruct (IH (if Qlt_bool y x then y else x)) as (Hin & Hle & Hall).
    cbn zeta in Hin, Hle, Hall.
    destruct (Qlt_bool y x) eqn:E.
    + apply Qlt_bool_iff in E.
      split; [right; destruct Hin as [-> | Hin]; [left | right]; auto |].
      split; [lra |]. constructor; assumption.
    + apply Qlt_bool_false in E.
      split; [destruct Hin as [-> | Hin]; [left | right; right]; auto |].
      split; [assumption |]. constructor; [lra | assumption].
Qed.

Lemma py_min_list_spec (l : list Q) :
  match py_min_list l with
  | Some m => In m l /\ Forall (fun t => m <= t) l
  | None => l = []
  end.
Proof.
  destruct l as [| x l]; [reflexivity |]. cbn [py_min_list].
  destruct (py_min_fold l x) as (Hin & Hle & Hall). cbn zeta in *.
  split; [destruct Hin as [-> | Hin]; [left | right]; auto |].
  constructor; assumption.
Qed.

Lemma recent_In now t l :
  In t (Limiter.recent now l) <-> In t l /\ now - t < 60.
Proof. unfold Limiter.recent. rewrite filter_In, Qlt_bool_iff. reflexivity. Qed.

Lemma recent_recent now T l :
  now <= T -> Limiter.recent T (Limiter.recent now l) = Limiter.recent T l.
Proof.
  intros Hle. induction l as [| t l IH]; [reflexivity |].
  unfold Limiter.recent in *. cbn [List.filter].
  destruct (Qlt_bool (now - t) 60) eqn:E.
  - cbn [List.filter]. rewrite IH. reflexivity.
  - rewrite IH. apply Qlt_bool_false in E.
    destruct (Qlt_bool (T - t) 60) eqn:E'; [| reflexivity].
    apply Qlt_bool_iff in E'. lra.
Qed.

Lemma recent_length_mono now T l :
  now <= T ->
  (length (Limiter.recent T l) <= length (Limiter.recent now l))%nat.
Proof.
  intros Hle. rewrite <- (recent_recent now T l Hle).
  apply filter_length_le.
Qed.

Lemma filter_length_drop {A} (f : A -> bool) x l :
  In x l -> f x = false -> (length (List.filter f l) < length l)%nat.
Proof.
  intros Hin Hf. induction l as [| y l IH]; [destruct Hin |].
  cbn [List.filter length].
  destruct Hin as [-> | Hin].
  - rewrite Hf. pose proof (filter_length_le f l). lia.
  - specialize (IH Hin). destruct (f y); cbn [length]; lia.
Qed.

(** When the limit is reached with a limit of at least one the call
    sleeps, for the time the oldest recent request needs to get 60.1 s
    old. *)
Lemma wait_at_limit l now :
  (1 <= Limiter.requests_per_minute l)%Z ->
  (Limiter.requests_per_minute l
   <= Z.of_nat (length (Limiter.recent now (Limiter.request_times l))))%Z ->
  exists oldest,
    In oldest (Limiter.recent now (Limiter.request_times l))
    /\ Forall (fun t => oldest <= t)
         (Limiter.recent now (Limiter.request_times l))
    /\ Limiter.wait l now = Limiter.sleep (60 - (now - oldest) + 0.1).
Proof.
  intros Hrpm Hlen. unfold Limiter.wait. cbv zeta.
  rewrite (proj2 (Z.leb_le _ _) Hlen).
  pose proof (py_min_list_spec
                (Limiter.recent now (Limiter.request_times l))) as Hmin.
  destruct (py_min_list _) as [oldest |].
  - destruct Hmin as [Hin Hall]. exists oldest.
    split; [exact Hin |]. split; [exact Hall |].
    apply recent_In in Hin as [_ Hrecent].
    assert (H : Qlt_bool 0 (60 - (now - oldest) + 0.1) = true)
      by (apply Qlt_bool_iff; lra).
    rewrite H. reflexivity.
  - rewrite Hmin in Hlen. cbn in Hlen. lia.
Qed.

Lemma wait_below_limit l now :
  (Z.of_nat (length (Limiter.recent now (Limiter.request_times l)))
   < Limiter.requests_per_minute l)%Z ->
  Limiter.wait l now = Limiter.no_wait.
Proof.
  intros Hlen. unfold Limiter.wait. cbv zeta.
  rewrite (proj2 (Z.leb_gt _ _) Hlen). reflexivity.
Qed.

(** X11.  With a limit of at least one request and recorded times that are
    not in the future, a call that finds the limit reached sleeps: the
    [ValueError] of [min] and the branch that skips the sleep are never
    taken.  The sleep lasts more than 0.1 s and at most 60.1 s, and ends
    when the oldest recent request is 60.1 s old.  A call below the limit
    does not sleep. *)
Theorem limiter_wait_time l now :
  (1 <= Limiter.requests_per_minute l)%Z ->
  Forall (fun t => t <= now) (Limiter.request_times l) ->
  let times := Limiter.recent now (Limiter.request_times l) in
  if (Limiter.requests_per_minute l <=? Z.of_nat (length times))%Z then
    exists oldest w,
      Limiter.wait l now = Limiter.sleep w
      /\ In oldest times /\ Forall (fun t => oldest <= t) times
      /\ now + w == oldest + 60.1
      /\ 0.1 < w <= 60.1
  else Limiter.wait l now = Limiter.no_wait.
Proof.
  intros Hrpm Hpast. cbv zeta.
  destruct (Z.leb_spec (Limiter.requests_per_minute l)
              (Z.of_nat (length (Limiter.recent now
                                   (Limiter.request_times l)))))
    as [Hlen | Hlen].
  - destruct (wait_at_limit l now Hrpm Hlen) as (oldest & Hin & Hall & Hw).
    exists oldest, (60 - (now - oldest) + 0.1).
    split; [exact Hw |]. split; [exact Hin |]. split; [exact Hall |].
    apply recent_In in Hin as [Hin Hrecent].
    rewrite List.Forall_forall in Hpast.
    assert (Hold : oldest <= now) by apply (Hpast oldest Hin).
    split; [ring | lra].
  - apply wait_below_limit, Hlen.
Qed.

Lemma limiter_wait_time_witness :
  let times := Limiter.recent 2 (Limiter.request_times busy_limiter) in
  if (Limiter.requests_per_minute busy_limiter <=? Z.of_nat (length times))%Z
  then
    exists oldest w,
      Limiter.wait busy_limiter 2 = Limiter.sleep w
      /\ In oldest times /\ Forall (fun t => oldest <= t) times
      /\ 2 + w == oldest + 60.1
      /\ 0.1 < w <= 60.1
  else Limiter.wait busy_limiter 2 = Limiter.no_wait.
Proof.
  apply (limiter_wait_time busy_limiter 2).
  - vm_compute. discriminate.
  - repeat constructor; discriminate.
Defined.

Lemma recent_snoc T l t :
  t <= T -> Limiter.recent T (l ++ [t]) = Limiter.recent T l ++ [t]
            \/ Limiter.recent T (l ++ [t]) = Limiter.recent T l.
Proof.
  intros _. unfold Limiter.recent. rewrite List.filter_app. cbn [List.filter].
  destruct (Qlt_bool (T - t) 60); [left | right; rewrite app_nil_r];
    reflexivity.
Qed.

Lemma recent_snoc_now l t :
  Limiter.recent t (l ++ [t]) = Limiter.recent t l ++ [t].
Proof.
  unfold Limiter.recent. rewrite List.filter_app. cbn [List.filter].
  assert (H : Qlt_bool (t - t) 60 = true) by (apply Qlt_bool_iff; lra).
  rewrite H. reflexivity.
Qed.

(** One call keeps the invariant, and the window that ends when its
    request is sent holds at most [requests_per_minute] requests. *)
Lemma record_invariant l hist last now sent :
  (1 <= Limiter.requests_per_minute l)%Z ->
  limiter_invariant l hist last ->
  last <= now -> now <= sent ->
  (forall w, Limiter.wait l now = Limiter.sleep w -> now + w <= sent) ->
  exists l',
    Limiter.record l now sent = Some l'
    /\ Limiter.requests_per_minute l' = Limiter.requests_per_minute l
    /\ limiter_invariant l' (hist ++ [sent]) sent
    /\ (Z.of_nat (length (Limiter.recent sent (hist ++ [sent])))
        <= Limiter.requests_per_minute l)%Z.
Proof.
  intros Hrpm [Hhist Hbound] Hlast Hnow Hsleep.
  set (A := Limiter.recent now (Limiter.request_times l)).
  assert (HA : (Z.of_nat (length A) <= Limiter.requests_per_minute l)%Z).
  { pose proof (recent_length_mono last now (Limiter.request_times l) Hlast).
    subst A. lia. }
  assert (Hrecord :
            Limiter.record l now sent
            = Some {| Limiter.requests_per_minute :=
                        Limiter.requests_per_minute l;
                      Limiter.request_times := A ++ [sent] |}
            /\ (Z.of_nat (length (Limiter.recent sent A)) + 1
                <= Limiter.requests_per_minute l)%Z).
  { unfold Limiter.record.
    destruct (Z.le_gt_cases (Limiter.requests_per_minute l)
                (Z.of_nat (length A))) as [Hfull | Hfree].
    - destruct (wait_at_limit l now Hrpm Hfull) as (oldest & Hin & _ & Hw).
      rewrite Hw. split; [reflexivity |].
      specialize (Hsleep _ Hw).
      assert (Hout : Qlt_bool (sent - oldest) 60 = false)
        by (apply Qlt_bool_false; lra).
      pose proof (filter_length_drop
                    (fun t => Qlt_bool (sent - t) 60) oldest A Hin Hout) as Hd.
      unfold Limiter.recent at 1. lia.
    - rewrite (wait_below_limit l now Hfree). split; [reflexivity |].
      pose proof (filter_length_le (fun t => Qlt_bool (sent - t) 60) A).
      unfold Limiter.recent at 1. lia. }
  destruct Hrecord as [Hrecord Hcount].
  eexists. split; [exact Hrecord |]. split; [reflexivity |].
  assert (Hwin : forall T, sent <= T ->
                   Limiter.recent T (hist ++ [sent])
                   = Limiter.recent T (A ++ [sent])).
  { intros T HT. unfold Limiter.recent at 1 2. rewrite !List.filter_app.
    fold (Limiter.recent T hist). fold (Limiter.recent T A).
    subst A. rewrite recent_recent by lra. rewrite Hhist by lra.
    reflexivity. }
  assert (Hsent : (Z.of_nat (length (Limiter.recent sent (A ++ [sent])))
                   <= Limiter.requests_per_minute l)%Z).
  { rewrite recent_snoc_now, length_app. cbn [length]. lia. }
  split; [split |].
  - exact Hwin.
  - exact Hsent.
  - rewrite Hwin by apply Qle_refl. exact Hsent.
Qed.

Lemma run_invariant calls :
  forall l hist last,
    (1 <= Limiter.requests_per_minute l)%Z ->
    limiter_invariant l hist last ->
    clock_monotone last calls ->
    sleeps_honoured l calls ->
    (exists l', Limiter.run l calls = Some l')
    /\ forall p c rest,
         calls = p ++ c :: rest ->
         (Z.of_nat (length (Limiter.recent (Limiter.sent_time c)
                              (hist ++ sent_times (p ++ [c]))))
          <= Limiter.requests_per_minute l)%Z.
Proof.
  induction calls as [| c0 calls IH]; intros l hist last Hrpm Hinv Hclock Hsl.
  - split; [exists l; reflexivity |].
    intros [| c1 p] c rest Heq; discriminate.
  - destruct Hclock as (Hlast & Hnow & Hclock).
    destruct Hsl as (Hsleep & Hsl).
    destruct (record_invariant l hist last _ _ Hrpm Hinv Hlast Hnow Hsleep)
      as (l1 & Hrec & Hsame & Hinv1 & Hbound).
    rewrite <- Hsame in Hrpm.
    destruct (IH l1 (hist ++ [Limiter.sent_time c0]) (Limiter.sent_time c0)
                Hrpm Hinv1 Hclock (Hsl l1 Hrec)) as [Hrun Hwin].
    split; [cbn [Limiter.run]; rewrite Hrec; exact Hrun |].
    intros [| c1 p] c rest Heq.
    + injection Heq as <- _. exact Hbound.
    + injection Heq as <- Heq. rewrite <- Hsame.
      specialize (Hwin p c rest Heq).
      rewrite <- app_assoc in Hwin. exact Hwin.
Qed.

(** X12.  A limiter that starts empty with a limit of at least one request
    never raises, and keeps the rate: for every request of a run, the 60
    seconds that end when it is sent hold at most [requests_per_minute]
    requests, itself included.  The clock is assumed not to go back and
    the sleep to last at least as long as asked. *)
Theorem limiter_rate_limit requests_per_minute start calls :
  (1 <= requests_per_minute)%Z ->
  clock_monotone start calls ->
  sleeps_honoured (Limiter.init requests_per_minute) calls ->
  (exists l, Limiter.run (Limiter.init requests_per_minute) calls = Some l)
  /\ forall p c rest,
       calls = p ++ c :: rest ->
       (Z.of_nat (length (Limiter.recent (Limiter.sent_time c)
                            (sent_times (p ++ [c]))))
        <= requests_per_minute)%Z.
Proof.
  intros Hrpm Hclock Hsl.
  apply (run_invariant calls (Limiter.init requests_per_minute) [] start);
    try assumption.
  split; [reflexivity | cbn; lia].
Qed.

Lemma limiter_rate_limit_witness :
  (exists l, Limiter.run (Limiter.init 2) three_calls = Some l)
  /\ forall p c rest,
       three_calls = p ++ c :: rest ->
       (Z.of_nat (length (Limiter.recent (Limiter.sent_time c)
                            (sent_times (p ++ [c]))))
        <= 2)%Z.
Proof.
  apply (limiter_rate_limit 2 0 three_calls).
  - lia.
  - cbn. repeat split; discriminate.
  - cbn [sleeps_honoured three_calls].
    split; [intros w H; vm_compute in H; discriminate |].
    intros l1 H1; vm_compute in H1; injection H1 as <-.
    split; [intros w H; vm_compute in H; discriminate |].
    intros l2 H2; vm_compute in H2; injection H2 as <-.
    split; [intros w H; vm_compute in H; injection H as <-; discriminate |].
    intros l3 _. exact I.
Defined.

(** ** The resources of the members *)

Lemma stock_keys_all k : k ∈ stock_keys.
Proof.
  unfold stock_keys. destruct k as [| []];
    repeat (first [apply list_elem_of_here | apply list_elem_of_further]).
Qed.

Lemma stock_keys_NoDup : NoDup stock_keys.
Proof. apply (bool_decide_unpack _). vm_compute. exact I. Qed.

Lemma add_fold_None (resources_data : stock_key -> option Q) keys :
  foldl (fun acc resource =>
           match acc, resources_data resource with
           | Some total, Some v =>
               Some (fun k => if decide (k = resource)
                              then total k + v else total k)
           | _, _ => None
           end) None keys = None.
Proof. induction keys as [| k keys IH]; [reflexivity | exact IH]. Qed.

Lemma add_fold (resources_data : stock_key -> option Q) keys :
  NoDup keys ->
  forall total : Stock,
    match foldl (fun acc resource =>
                   match acc, resources_data resource with
                   | Some total, Some v =>
                       Some (fun k => if decide (k = resource)
                                      then total k + v else total k)
                   | _, _ => None
                   end) (Some total) keys with
    | Some total' =>
        (forall k, k ∈ keys ->
                   exists v, resources_data k = Some v
                             /\ total' k = total k + v)
        /\ (forall k, k ∉ keys -> total' k = total k)
    | None => exists k, k ∈ keys /\ resources_data k = None
    end.
Proof.
  induction 1 as [| key keys Hkey Hkeys IH]; intros total.
  - cbn [foldl]. split; [intros k Hk; inversion Hk | reflexivity].
  - cbn [foldl]. destruct (resources_data key) as [v |] eqn:Ev.
    + specialize (IH (fun k => if decide (k = key)
                               then total k + v else total k)).
      destruct (foldl _ _ keys) as [total' |].
      * destruct IH as [Hin Hout]. split.
        -- intros k [-> | Hk]%elem_of_cons.
           ++ exists v. split; [exact Ev |].
              rewrite (Hout key Hkey), decide_True by reflexivity.
              reflexivity.
           ++ destruct (Hin k Hk) as (v' & Hv' & ->). exists v'.
              split; [exact Hv' |].
              rewrite decide_False by (intros ->; contradiction).
              reflexivity.
        -- intros k [Hne Hk]%not_elem_of_cons.
           rewrite (Hout k Hk), decide_False by exact Hne. reflexivity.
      * destruct IH as (k & Hk & Hnone). exists k.
        split; [apply list_elem_of_further, Hk | exact Hnone].
    + rewrite add_fold_None. exists key.
      split; [apply list_elem_of_here | exact Ev].
Qed.

(** Adding the dict of a member adds each of its amounts; a null in it
    makes the addition raise. *)
Lemma add_stock_spec total resources_data :
  match add_stock total resources_data with
  | Some total' =>
      all_numbers resources_data
      /\ forall k, total' k = total k + amount_of resources_data k
  | None => exists k, resources_data k = None
  end.
Proof.
  unfold add_stock.
  pose proof (add_fold resources_data stock_keys stock_keys_NoDup total) as H.
  destruct (foldl _ _ stock_keys) as [total' |].
  - destruct H as [Hin _]. split.
    + intros k. destruct (Hin k (stock_keys_all k)) as (v & -> & _). eauto.
    + intros k. destruct (Hin k (stock_keys_all k)) as (v & Hv & ->).
      unfold amount_of. rewrite Hv. reflexivity.
  - destruct H as (k & _ & Hk). exists k. exact Hk.
Qed.

Lemma aggregate_fold_None resources_response ids :
  foldl (aggregate_step resources_response) None ids = None.
Proof. induction ids as [| i ids IH]; [reflexivity | exact IH]. Qed.

Lemma aggregate_loop resources_response (members : list Member) :
  forall total : Stock,
    let fetched :=
      omap (fun nation =>
              fetch_nation_resources (resources_response (id nation)))
           members in
    match foldl (aggregate_step resources_response) (Some total)
            (map id members) with
    | Some total' =>
        Forall all_numbers fetched
        /\ forall k,
             total' k
             == total k + Qsum (map (fun rd => amount_of rd k) fetched)
    | None => Exists (fun rd => exists k, rd k = None) fetched
    end.
Proof.
  induction members as [| nation members IH]; intros total; cbn zeta.
  - cbn. split; [constructor | intros k; ring].
  - cbn [map foldl aggregate_step omap list_omap].
    destruct (fetch_nation_resources (resources_response (id nation)))
      as [rd |].
    + pose proof (add_stock_spec total rd) as Hadd.
      destruct (add_stock total rd) as [total1 |].
      * destruct Hadd as [Hnum Hsum]. specialize (IH total1). cbn zeta in IH.
        destruct (foldl _ _ (map id members)) as [total' |].
        -- destruct IH as [Hall Hk]. split; [constructor; assumption |].
           intros k. rewrite Hk, Hsum. cbn [map]. rewrite Qsum_cons. ring.
        -- apply Exists_cons_tl, IH.
      * rewrite aggregate_fold_None. apply Exists_cons_hd, Hadd.
    + apply IH.
Qed.

Lemma stock_value_ext prices (s s' : Stock) :
  (forall k, s k == s' k) -> stock_value prices s == stock_value prices s'.
Proof.
  intros H. unfold stock_value, stock_keys. cbn [foldl].
  rewrite !H. reflexivity.
Qed.

Lemma stock_value_plus prices (s s' : Stock) :
  stock_value prices (fun k => s k + s' k)
  == stock_value prices s + stock_value prices s'.
Proof. unfold stock_value, stock_keys. cbn [foldl]. ring. Qed.

Lemma stock_value_sum prices (l : list Stock) :
  stock_value prices (fun k => Qsum (map (fun s => s k) l))
  == Qsum (map (stock_value prices) l).
Proof.
  induction l as [| s l IH].
  - unfold stock_value, stock_keys. cbn [foldl map Qsum foldr]. ring.
  - cbn [map]. rewrite Qsum_cons, <- IH, <- stock_value_plus.
    apply stock_value_ext. intros k. rewrite Qsum_cons. reflexivity.
Qed.

(** X13.  When the alliance is found and no fetched member has a null
    amount, the aggregation returns; each amount is the sum over the
    members whose resources were fetched (applicants are left out, members
    whose request fails are skipped), and the total value is the money plus
    the other resources at the prices of the market, which is the sum of
    the values of the members' own stocks. *)
Theorem member_resources_aggregate resources_response w alliance_id
    alliance_data :
  fetch_alliance_data (alliances_response w alliance_id) = Some alliance_data ->
  Forall all_numbers (fetched_resources resources_response alliance_data) ->
  let fetched := fetched_resources resources_response alliance_data in
  let prices := get_pnw_market_prices (market w) in
  exists resources total_value,
    fetch_and_aggregate_member_resources resources_response w alliance_id
    = aggregated resources total_value
    /\ (forall k,
          resources k == Qsum (map (fun rd => amount_of rd k) fetched))
    /\ total_value
       == resources money
          + Qsum (map (fun r => resources (stocked r) * price prices r)
                    [food; steel; aluminum; gasoline; munitions; uranium;
                     coal; oil; iron; lead; bauxite])
    /\ total_value
       == Qsum (map (fun rd => stock_value prices (amount_of rd)) fetched).
Proof.
  intros Halliance Hnum. cbv zeta.
  unfold fetch_and_aggregate_member_resources. rewrite Halliance. cbv zeta.
  pose proof (aggregate_loop resources_response (member_nations alliance_data)
                stock_init) as Hloop.
  cbv zeta in Hloop. fold (fetched_resources resources_response alliance_data)
    in Hloop.
  destruct (foldl _ _ (map id (member_nations alliance_data)))
    as [total |].
  - destruct Hloop as [_ Hsum].
    assert (Hk : forall k,
               total k
               == Qsum (map (fun rd => amount_of rd k)
                          (fetched_resources resources_response
                             alliance_data)))
      by (intros k; rewrite Hsum; unfold stock_init; ring).
    exists total, (stock_value (get_pnw_market_prices (market w)) total).
    split; [reflexivity |]. split; [exact Hk |]. split.
    + unfold stock_value, stock_keys, price. cbn [foldl map].
      rewrite !Qsum_cons. change (Qsum []) with 0. ring.
    + rewrite (stock_value_ext _ total
                 (fun k => Qsum (map (fun s : Stock => s k)
                                   (map amount_of
                                      (fetched_resources resources_response
                                         alliance_data))))).
      * rewrite stock_value_sum, map_map. reflexivity.
      * intros k. rewrite Hk, map_map. reflexivity.
  - exfalso. apply Exists_exists in Hloop as (rd & Hin & k & Hk).
    rewrite Forall_forall in Hnum. destruct (Hnum rd Hin k) as [v Hv].
    congruence.
Qed.

Lemma member_resources_aggregate_witness :
  let fetched := fetched_resources bank_resources bank_alliance in
  let prices := get_pnw_market_prices (market alliance_world) in
  exists resources total_value,
    fetch_and_aggregate_member_resources bank_resources alliance_world 7
    = aggregated resources total_value
    /\ (forall k,
          resources k == Qsum (map (fun rd => amount_of rd k) fetched))
    /\ total_value
       == resources money
          + Qsum (map (fun r => resources (stocked r) * price prices r)
                    [food; steel; aluminum; gasoline; munitions; uranium;
                     coal; oil; iron; lead; bauxite])
    /\ total_value
       == Qsum (map (fun rd => stock_value prices (amount_of rd)) fetched).
Proof.
  apply (member_resources_aggregate bank_resources alliance_world 7
           bank_alliance).
  - reflexivity.
  - repeat constructor. intros k. destruct k as [| []]; vm_compute; eauto.
Defined.

(** X14.  The aggregation returns [None] exactly when the alliance is not
    found, and raises exactly when some member that is no applicant
    answers with a null amount. *)
Theorem member_resources_failures resources_response w alliance_id :
  (fetch_and_aggregate_member_resources resources_response w alliance_id
   = no_aggregate
   <-> fetch_alliance_data (alliances_response w alliance_id) = None)
  /\ (fetch_and_aggregate_member_resources resources_response w alliance_id
      = type_error
      <-> exists alliance_data nation resources_data k,
            fetch_alliance_data (alliances_response w alliance_id)
            = Some alliance_data
            /\ nation ∈ nations alliance_data
            /\ alliance_position nation <> "APPLICANT"
            /\ fetch_nation_resources (resources_response (id nation))
               = Some resources_data
            /\ resources_data k = None).
Proof.
  unfold fetch_and_aggregate_member_resources.
  destruct (fetch_alliance_data (alliances_response w alliance_id))
    as [alliance_data |].
  - cbv zeta.
    pose proof (aggregate_loop resources_response
                  (member_nations alliance_data) stock_init) as Hloop.
    cbv zeta in Hloop.
    destruct (foldl _ _ (map id (member_nations alliance_data)))
      as [total |].
    + split; [split; discriminate |]. split; [discriminate |].
      intros (alliance_data' & nation & rd & k & [= <-] & Hin & Hpos & Hrd & Hk).
      destruct Hloop as [Hnum _]. rewrite Forall_forall in Hnum.
      assert (Hin' : rd ∈ omap (fun nation =>
                                   fetch_nation_resources
                                     (resources_response (id nation)))
                             (member_nations alliance_data)).
      { apply list_elem_of_omap. exists nation. split; [| exact Hrd].
        unfold member_nations. apply list_elem_of_filter. split; assumption. }
      destruct (Hnum rd Hin' k) as [v Hv]. congruence.
    + split; [split; discriminate |]. split; [| reflexivity]. intros _.
      apply Exists_exists in Hloop as (rd & Hin & k & Hk).
      apply list_elem_of_omap in Hin as (nation & Hin & Hrd).
      unfold member_nations in Hin.
      apply list_elem_of_filter in Hin as [Hpos Hin].
      exists alliance_data, nation, rd, k. repeat split; assumption.
  - split; [split; reflexivity |]. split; [discriminate |].
    intros (? & ? & ? & ? & ? & _). discriminate.
Qed.

Example hidden_resources_raise :
  fetch_and_aggregate_member_resources hidden_resources alliance_world 7
  = type_error.
Proof. reflexivity. Qed.

(** ** The bank history *)

Lemma is_duplicate_entry_spec bank_records timestamp total_value :
  is_duplicate_entry bank_records timestamp total_value = true
  <-> Exists (close_record timestamp total_value) bank_records.
Proof.
  induction bank_records as [| record rest IH]; cbn [is_duplicate_entry].
  - split; [discriminate | intros H; inversion H].
  - cbv zeta. rewrite Exists_cons, <- IH. unfold close_record.
    destruct (Z.ltb_spec (Z.abs (br_timestamp record - timestamp)) 300)
      as [Hnear | Hfar]; cbn [andb].
    + destruct (br_total_value record) as [v |].
      * destruct (Qeq_bool v total_value) eqn:E.
        -- apply Qeq_bool_iff in E. split; [| reflexivity]. intros _. left.
           split; [exact Hnear | exists v; split; [reflexivity | exact E]].
        -- split; [intros H; right; exact H |].
           intros [(_ & w & [= <-] & Hw) | H]; [| exact H].
           apply Qeq_bool_iff in Hw. congruence.
      * split; [intros H; right; exact H |].
        intros [(_ & w & Hw & _) | H]; [discriminate | exact H].
    + split; [intros H; right; exact H |].
      intros [(Hnear & _) | H]; [lia | exact H].
Qed.

Lemma ForallOrdPairs_snoc {A} (R : A -> A -> Prop) l x :
  ForallOrdPairs R l -> Forall (fun y => R y x) l ->
  ForallOrdPairs R (l ++ [x]).
Proof.
  induction 1 as [| y l Hy Hl IH]; intros Hx; cbn [app].
  - repeat constructor.
  - apply Forall_cons in Hx as [Hyx Hx]. constructor.
    + apply Forall_app. split; [exact Hy | constructor; [exact Hyx | constructor]].
    + apply IH, Hx.
Qed.

(** One recording step keeps the history free of duplicates, only ever
    appends, and leaves the reading represented. *)
Lemma record_bank_data_spec bank_records timestamp requested_by total_value :
  duplicate_free bank_records ->
  let history := record_bank_data bank_records timestamp requested_by
                   total_value in
  duplicate_free history
  /\ (exists added, history = bank_records ++ added
                    /\ (length added <= 1)%nat)
  /\ forall v, total_value = Some v ->
               Exists (close_record timestamp v) history.
Proof.
  intros Hfree. cbv zeta. unfold record_bank_data.
  destruct total_value as [v |].
  - destruct (is_duplicate_entry bank_records timestamp v) eqn:E; cbn [negb].
    + split; [exact Hfree |].
      split; [exists []; rewrite app_nil_r; split; [reflexivity | cbn; lia] |].
      intros v' [= <-]. apply is_duplicate_entry_spec, E.
    + split; [| split].
      * apply ForallOrdPairs_snoc; [exact Hfree |].
        apply Forall_forall. intros record Hin Hdup.
        assert (Hex : Exists (close_record timestamp v) bank_records).
        { apply Exists_exists. exists record. split; [exact Hin |].
          destruct Hdup as (Hnear & x & w & Hx & [= <-] & Hxw).
          split; [exact Hnear | exists x; split; assumption]. }
        apply is_duplicate_entry_spec in Hex. congruence.
      * eexists. split; [reflexivity | cbn; lia].
      * intros v' [= <-]. apply Exists_app. right. constructor.
        split; [rewrite Z.sub_diag; cbn; lia |].
        exists v. split; reflexivity.
  - split; [exact Hfree |].
    split; [exists []; rewrite app_nil_r; split; [reflexivity | cbn; lia] |].
    discriminate.
Qed.

(** X15.  Recording never creates a duplicate: a history without two
    records of the same total value less than 300 s apart stays so after
    any sequence of readings.  The history only grows, by at most one
    record per reading, and every reading that has a total value ends up
    represented by a record with that value less than 300 s from it. *)
Theorem recording_keeps_duplicate_free bank_records readings :
  duplicate_free bank_records ->
  let history := record_readings bank_records readings in
  duplicate_free history
  /\ (exists added, history = bank_records ++ added
                    /\ (length added <= length readings)%nat)
  /\ forall r v,
       r ∈ readings -> reading_total_value r = Some v ->
       Exists (close_record (reading_time r) v) history.
Proof.
  revert bank_records.
  induction readings as [| r readings IH]; intros bank_records Hfree;
    cbv zeta.
  - cbn [record_readings foldl]. split; [exact Hfree |].
    split; [exists []; rewrite app_nil_r; split; [reflexivity | cbn; lia] |].
    intros r v Hin. inversion Hin.
  - unfold record_readings. cbn [foldl].
    destruct (record_bank_data_spec bank_records (reading_time r)
                (reading_for r) (reading_total_value r) Hfree)
      as (Hfree1 & (added1 & Hadd1 & Hlen1) & Hrep1).
    cbv zeta in Hfree1, Hadd1, Hrep1.
    destruct (IH _ Hfree1) as (Hfree' & (added & Hadd & Hlen) & Hrep).
    cbv zeta in Hfree', Hadd, Hrep. unfold record_readings in *.
    split; [exact Hfree' |]. split.
    + exists (added1 ++ added). rewrite Hadd, Hadd1, <- app_assoc.
      split; [reflexivity |]. rewrite length_app. cbn [length]. lia.
    + intros r' v [-> | Hin]%elem_of_cons Hv.
      * rewrite Hadd. apply Exists_app. left. apply Hrep1, Hv.
      * apply Hrep; assumption.
Qed.

Lemma recording_keeps_duplicate_free_witness :
  let history := record_readings [] bank_readings in
  duplicate_free history
  /\ (exists added, history = [] ++ added
                    /\ (length added <= length bank_readings)%nat)
  /\ forall r v,
       r ∈ bank_readings -> reading_total_value r = Some v ->
       Exists (close_record (reading_time r) v) history.
Proof.
  apply (recording_keeps_duplicate_free [] bank_readings). constructor.
Defined.

Lemma filter_all_kept {A} (f : A -> bool) l :
  length (List.filter f l) = length l -> List.filter f l = l.
Proof.
  induction l as [| x l IH]; [reflexivity |]. cbn [List.filter].
  pose proof (filter_length_le f l) as Hle.
  destruct (f x); cbn [length]; intros H; [f_equal; apply IH |]; lia.
Qed.

Lemma filter_sublist {A} (f : A -> bool) l : sublist (List.filter f l) l.
Proof.
  induction l as [| x l IH]; [constructor |]. cbn [List.filter].
  destruct (f x); [apply sublist_skip | apply sublist_cons]; exact IH.
Qed.

(** X16.  [remove_outliers] keeps, in their order, exactly the records
    whose total value is present and at least 500 million.  It announces a
    removal exactly when something was removed, with the number of records
    removed, and on the records it kept it finds nothing more to remove. *)
Theorem remove_outliers_spec bank_records :
  let kept := fst (remove_outliers bank_records) in
  let message := snd (remove_outliers bank_records) in
  sublist kept bank_records
  /\ (forall record,
        record ∈ kept
        <-> record ∈ bank_records
            /\ exists v, br_total_value record = Some v /\ 500000000 <= v)
  /\ match message with
     | no_outlier_found => kept = bank_records
     | outliers_removed removed_count =>
         (0 < removed_count)%Z
         /\ removed_count
            = Z.of_nat (length (List.filter (fun r => negb (keeps r))
                                  bank_records))
     end
  /\ remove_outliers kept = (kept, no_outlier_found).
Proof.
  cbv zeta. unfold remove_outliers. cbn [fst snd].
  split; [apply filter_sublist |]. split; [| split].
  - intros record. rewrite !list_elem_of_In, filter_In. unfold keeps.
    split.
    + intros [Hin Hk]. split; [exact Hin |].
      destruct (br_total_value record) as [v |]; [| discriminate].
      exists v. split; [reflexivity | apply Qle_bool_iff, Hk].
    + intros [Hin (v & -> & Hv)]. split; [exact Hin |].
      apply Qle_bool_iff, Hv.
  - pose proof (filter_length keeps bank_records) as Hlen.
    destruct (Z.ltb_spec 0 (Z.of_nat (length bank_records)
                            - Z.of_nat (length (List.filter keeps
                                                  bank_records))))
      as [Hpos | Hzero].
    + split; [exact Hpos | lia].
    + apply filter_all_kept.
      pose proof (filter_length_le keeps bank_records). lia.
  - f_equal.
    + induction bank_records as [| r l IH]; [reflexivity |].
      cbn [List.filter]. destruct (keeps r) eqn:E; [| exact IH].
      cbn [List.filter]. rewrite E, IH. reflexivity.
    + assert (H : List.filter keeps (List.filter keeps bank_records)
                  = List.filter keeps bank_records).
      { induction bank_records as [| r l IH]; [reflexivity |].
        cbn [List.filter]. destruct (keeps r) eqn:E; [| exact IH].
        cbn [List.filter]. rewrite E, IH. reflexivity. }
      rewrite H, Z.sub_diag. reflexivity.
Qed.

(** ** The statistics of the bank history *)

Lemma py_max_fold (l : list Q) :
  forall x,
    let m := foldl (fun m y => if Qlt_bool m y then y else m) x l in
    (m = x \/ In m l) /\ x <= m /\ Forall (fun t => t <= m) l.
Proof.
  induction l as [| y l IH]; intros x; cbn zeta.
  - cbn [foldl]. split; [left; reflexivity |].
    split; [apply Qle_refl | constructor].
  - cbn [foldl].
    destruct (IH (if Qlt_bool x y then y else x)) as (Hin & Hle & Hall).
    cbn zeta in Hin, Hle, Hall.
    destruct (Qlt_bool x y) eqn:E.
    + apply Qlt_bool_iff in E.
      split; [right; destruct Hin as [-> | Hin]; [left | right]; auto |].
      split; [lra |]. constructor; assumption.
    + apply Qlt_bool_false in E.
      split; [destruct Hin as [-> | Hin]; [left | right; right]; auto |].
      split; [assumption |]. constructor; [lra | assumption].
Qed.

Lemma py_max_list_spec (l : list Q) :
  match py_max_list l with
  | Some m => In m l /\ Forall (fun t => t <= m) l
  | None => l = []
  end.
Proof.
  destruct l as [| x l]; [reflexivity |]. cbn [py_max_list].
  destruct (py_max_fold l x) as (Hin & Hle & Hall). cbn zeta in *.
  split; [destruct Hin as [-> | Hin]; [left | right]; auto |].
  constructor; assumption.
Qed.

Lemma foldl_Qplus (l : list Q) : forall a, foldl Qplus a l == a + Qsum l.
Proof.
  induction l as [| x l IH]; intros a; cbn [foldl].
  - change (Qsum []) with 0. ring.
  - rewrite IH, Qsum_cons. ring.
Qed.

Lemma Qsum_bounds (lo hi : Q) (l : list Q) :
  Forall (fun v => lo <= v <= hi) l ->
  lo * inject_Z (Z.of_nat (length l)) <= Qsum l
  /\ Qsum l <= hi * inject_Z (Z.of_nat (length l)).
Proof.
  induction 1 as [| v l [Hlo Hhi] _ [IHlo IHhi]].
  - change (inject_Z (Z.of_nat (length (@nil Q)))) with 0.
    change (Qsum []) with 0. split; lra.
  - rewrite Qsum_cons. cbn [length].
    rewrite Nat2Z.inj_succ, <- Z.add_1_r, inject_Z_plus.
    change (inject_Z 1) with 1. split; lra.
Qed.

(** X17.  For at least two records that all have a total value the command
    sends statistics.  In them every value lies between the minimum and the
    maximum, and so do the first value, the last one and the average; at
    least one day is counted; the daily growth times the days is the
    growth; and the two percentages are 0 when the first value is 0
    (nothing is divided by it), and otherwise the growth and the daily
    growth as hundredths of the first value. *)
Theorem bank_statistics_spec filtered_records total_values :
  total_values_of filtered_records = Some total_values ->
  (2 <= length filtered_records)%nat ->
  exists s,
    bank_statistics filtered_records = statistics s
    /\ Forall (fun v => min_value s <= v <= max_value s) total_values
    /\ (min_value s <= earliest_value s <= max_value s
        /\ min_value s <= latest_value s <= max_value s
        /\ min_value s <= avg_value s <= max_value s)
    /\ (1 <= days_elapsed s)%Z
    /\ daily_growth s * inject_Z (days_elapsed s) == growth s
    /\ growth s == latest_value s - earliest_value s
    /\ (earliest_value s == 0 ->
        growth_percent s = 0 /\ daily_growth_percent s = 0)
    /\ (~ earliest_value s == 0 ->
        growth_percent s * earliest_value s == growth s * 100
        /\ daily_growth_percent s * earliest_value s
           == daily_growth s * 100).
Proof.
  intros Hvalues Hlen. unfold bank_statistics. rewrite Hvalues.
  pose proof (length_mapM _ _ _ Hvalues) as Hsame.
  destruct filtered_records as [| first_record [| r2 records]];
    [cbn in Hlen; lia | cbn in Hlen; lia |].
  destruct total_values as [| earliest [| v2 values]];
    [discriminate | discriminate |].
  pose proof (py_min_list_spec (earliest :: v2 :: values)) as Hmin.
  pose proof (py_max_list_spec (earliest :: v2 :: values)) as Hmax.
  destruct (py_min_list (earliest :: v2 :: values)) as [lo |];
    [| discriminate].
  destruct (py_max_list (earliest :: v2 :: values)) as [hi |];
    [| discriminate].
  destruct Hmin as [_ Hmin], Hmax as [_ Hmax].
  destruct (last (earliest :: v2 :: values)) as [latest |] eqn:Hlast;
    [| apply last_None in Hlast; discriminate].
  destruct (last (first_record :: r2 :: records)) as [last_record |] eqn:Hlr;
    [| apply last_None in Hlr; discriminate].
  eexists. split; [reflexivity |].
  cbn [earliest_value latest_value min_value max_value avg_value growth
         growth_percent days_elapsed daily_growth daily_growth_percent].
  set (n := inject_Z (Z.of_nat (length (earliest :: v2 :: values)))).
  set (days := Z.max ((br_timestamp last_record - br_timestamp first_record)
                      / 86400) 1).
  assert (Hall : Forall (fun v => lo <= v <= hi) (earliest :: v2 :: values)).
  { rewrite List.Forall_forall in *. intros v Hv. split; auto. }
  assert (Hn : 0 < n).
  { subst n. rewrite <- (Zlt_Qlt 0). cbn [length]. lia. }
  assert (Hdays : 0 < inject_Z days).
  { rewrite <- (Zlt_Qlt 0). subst days. lia. }
  assert (Hearliest : lo <= earliest <= hi).
  { apply Forall_cons in Hall as [H _]. exact H. }
  assert (Hlatest : lo <= latest <= hi).
  { rewrite List.Forall_forall in Hall. apply Hall.
    apply list_elem_of_In, last_Some_elem_of, Hlast. }
  split; [exact Hall |]. split; [split; [exact Hearliest |]; split;
                                  [exact Hlatest |] |].
  - destruct (Qsum_bounds lo hi _ Hall) as [Hlo Hhi]. fold n in Hlo, Hhi.
    rewrite foldl_Qplus, Qplus_0_l. split.
    + apply Qle_shift_div_l; assumption.
    + apply Qle_shift_div_r; assumption.
  - split; [subst days; lia |].
    split; [field; lra |]. split; [reflexivity |]. split.
    + intros H0. apply Qeq_bool_iff in H0. rewrite H0. cbn [negb].
      split; reflexivity.
    + intros Hne.
      assert (E : Qeq_bool earliest 0 = false).
      { destruct (Qeq_bool earliest 0) eqn:E; [| reflexivity].
        apply Qeq_bool_iff in E. contradiction. }
      rewrite E. cbn [negb].
      split; field; repeat split; solve [assumption | lra].
Qed.

Lemma bank_statistics_spec_witness :
  exists s,
    bank_statistics three_records = statistics s
    /\ Forall (fun v => min_value s <= v <= max_value s)
         [600000000; 500000000; 900000000]
    /\ (min_value s <= earliest_value s <= max_value s
        /\ min_value s <= latest_value s <= max_value s
        /\ min_value s <= avg_value s <= max_value s)
    /\ (1 <= days_elapsed s)%Z
    /\ daily_growth s * inject_Z (days_elapsed s) == growth s
    /\ growth s == latest_value s - earliest_value s
    /\ (earliest_value s == 0 ->
        growth_percent s = 0 /\ daily_growth_percent s = 0)
    /\ (~ earliest_value s == 0 ->
        growth_percent s * earliest_value s == growth s * 100
        /\ daily_growth_percent s * earliest_value s
           == daily_growth s * 100).
Proof.
  apply (bank_statistics_spec three_records
           [600000000; 500000000; 900000000]).
  - reflexivity.
  - cbn. lia.
Defined.

(** ** The taxes of an alliance, day by day *)

Lemma tax_keys_all k : k ∈ tax_keys.
Proof.
  unfold tax_keys. destruct k as [| []];
    repeat (first [apply list_elem_of_here | apply list_elem_of_further]).
Qed.

Lemma tax_keys_NoDup : NoDup tax_keys.
Proof. apply (bool_decide_unpack _). vm_compute. exact I. Qed.

Lemma tax_amounts_fold (record : TaxRecord) keys :
  NoDup keys ->
  forall (amounts : Stock) k,
    foldl (fun amounts resource =>
             match tax_amount record resource with
             | Some v =>
                 if Qeq_bool v 0 then amounts
                 else fun k => if decide (k = resource)
                               then amounts k + v else amounts k
             | None => amounts
             end) amounts keys k
    == amounts k + (if decide (k ∈ keys) then taxed_amount k record else 0).
Proof.
  induction 1 as [| key keys Hkey Hkeys IH]; intros amounts k.
  - cbn [foldl]. rewrite decide_False by apply not_elem_of_nil. ring.
  - cbn [foldl]. rewrite IH.
    destruct (decide (k = key)) as [-> | Hne].
    + rewrite (decide_False (P := key ∈ keys)) by exact Hkey.
      rewrite (decide_True (P := key ∈ key :: keys))
        by apply list_elem_of_here.
      unfold taxed_amount.
      destruct (tax_amount record key) as [v |]; cbn [default from_option Datatypes.id].
      * destruct (Qeq_bool v 0) eqn:E.
        -- apply Qeq_bool_iff in E. rewrite E. ring.
        -- rewrite decide_True by reflexivity. ring.
      * ring.
    + assert (Hsame : (if decide (k ∈ key :: keys)
                       then taxed_amount k record else 0)
                      = (if decide (k ∈ keys)
                         then taxed_amount k record else 0)).
      { destruct (decide (k ∈ keys)) as [Hin | Hnin].
        - rewrite decide_True by (apply list_elem_of_further, Hin).
          reflexivity.
        - rewrite decide_False; [reflexivity |].
          intros [? | ?]%elem_of_cons; contradiction. }
      rewrite Hsame.
      destruct (tax_amount record key) as [v |]; [| reflexivity].
      destruct (Qeq_bool v 0); [reflexivity |].
      rewrite decide_False by exact Hne. reflexivity.
Qed.

Lemma add_tax_amounts day_data record k :
  day_amounts (add_tax day_data record) k
  == day_amounts day_data k + taxed_amount k record.
Proof.
  unfold add_tax. cbn [day_amounts].
  rewrite (tax_amounts_fold record tax_keys tax_keys_NoDup).
  rewrite decide_True by apply tax_keys_all. reflexivity.
Qed.

Lemma taxed_snoc date_str tax_records record :
  taxed date_str (tax_records ++ [record])
  = taxed date_str tax_records
    ++ (if tax_id record && bool_decide (tax_day record = Some date_str)
        then [record] else []).
Proof. unfold taxed. rewrite List.filter_app. reflexivity. Qed.

Lemma tax_loop_invariant tax_records :
  daily_invariant tax_records (foldl tax_step ∅ tax_records).
Proof.
  induction tax_records as [| record tax_records IH] using rev_ind.
  - intros date_str. cbn [foldl]. rewrite lookup_empty. reflexivity.
  - rewrite foldl_app. cbn [foldl].
    set (daily := foldl tax_step ∅ tax_records) in *.
    intros date_str. specialize (IH date_str).
    rewrite taxed_snoc. unfold tax_step.
    destruct (tax_id record); cbn [negb andb];
      [| rewrite app_nil_r; exact IH].
    destruct (tax_day record) as [d |];
      [| rewrite bool_decide_eq_false_2 by discriminate;
         rewrite app_nil_r; exact IH].
    cbv zeta. destruct (decide (d = date_str)) as [-> | Hne].
    + rewrite lookup_insert_eq, bool_decide_eq_true_2 by reflexivity.
      split; [| split; [| split]].
      * destruct (daily !! date_str) as [day_data |]; [apply IH | reflexivity].
      * intros H. apply app_eq_nil in H as [_ H]. discriminate.
      * rewrite length_app. cbn [length add_tax day_count].
        destruct (daily !! date_str) as [day_data |]; cbn [default from_option Datatypes.id].
        -- destruct IH as (_ & _ & -> & _). lia.
        -- rewrite IH. cbn. lia.
      * intros k. rewrite add_tax_amounts, map_app, Qsum_app.
        cbn [map]. rewrite Qsum_cons. change (Qsum []) with 0.
        destruct (daily !! date_str) as [day_data |]; cbn [default from_option Datatypes.id].
        -- destruct IH as (_ & _ & _ & ->). ring.
        -- rewrite IH. cbn [day_init day_amounts map].
           change (Qsum []) with 0. ring.
    + rewrite lookup_insert_ne by exact Hne.
      rewrite bool_decide_eq_false_2 by congruence.
      rewrite app_nil_r. exact IH.
Qed.

Lemma day_value_fold market_prices day_data keys :
  forall total_value,
    foldl (fun total_value k =>
             match k with
             | money => total_value
             | stocked r =>
                 if Qlt_bool 0 (day_amounts day_data k)
                 then total_value
                      + day_amounts day_data k
                        * dict_get market_prices (resource_key r) 0
                 else total_value
             end) total_value keys
    == total_value
       + Qsum (map (fun k => match k with
                             | money => 0
                             | stocked r =>
                                 priced_amount market_prices day_data r
                             end) keys).
Proof.
  induction keys as [| k keys IH]; intros total_value; cbn [foldl map].
  - change (Qsum []) with 0. ring.
  - rewrite IH, Qsum_cons. destruct k as [| r]; [ring |].
    unfold priced_amount, price.
    destruct (Qlt_bool 0 (day_amounts day_data (stocked r))); ring.
Qed.

Lemma day_value_spec market_prices day_data :
  day_value market_prices day_data
  == day_amounts day_data money
     + Qsum (map (priced_amount market_prices day_data) priced_resources).
Proof.
  unfold day_value. rewrite day_value_fold.
  unfold tax_keys, priced_resources. cbn [map]. rewrite !Qsum_cons. ring.
Qed.

Lemma insert_day_perm x l : insert_day x l ≡ₚ x :: l.
Proof.
  induction l as [| y l IH]; cbn [insert_day]; [reflexivity |].
  destruct (String.leb x.1 y.1); [reflexivity |].
  rewrite IH. apply perm_swap.
Qed.

Lemma insert_day_sorted x l :
  Sorted keys_ascending l -> Sorted keys_ascending (insert_day x l).
Proof.
  induction 1 as [| y l Hl IH Hy]; cbn [insert_day].
  - repeat constructor.
  - destruct (String.leb x.1 y.1) eqn:E.
    + constructor; [constructor; assumption |]. constructor. exact E.
    + constructor; [exact IH |].
      assert (Hyx : keys_ascending y x).
      { unfold keys_ascending.
        destruct (String.leb_total x.1 y.1) as [H | H]; congruence. }
      destruct l as [| z l]; cbn [insert_day].
      * constructor. exact Hyx.
      * destruct (String.leb x.1 z.1); constructor; [exact Hyx |].
        inversion Hy; assumption.
Qed.

Lemma sorted_items_spec (daily_records : gmap string DayData) :
  sorted_items daily_records ≡ₚ map_to_list daily_records
  /\ Sorted keys_ascending (sorted_items daily_records).
Proof.
  unfold sorted_items.
  induction (map_to_list daily_records) as [| x l [IHp IHs]]; cbn [foldr].
  - split; [reflexivity | constructor].
  - split; [rewrite insert_day_perm, IHp; reflexivity |].
    apply insert_day_sorted, IHs.
Qed.

Lemma Sorted_values (l : list (string * DayData)) :
  Forall (fun x => day_date x.2 = x.1) l ->
  Sorted keys_ascending l -> Sorted dates_ascending l.*2.
Proof.
  intros Hdates. induction 1 as [| x l Hl IH Hx]; [constructor |].
  apply Forall_cons in Hdates as [Hxd Hdates]. cbn [fmap list_fmap].
  constructor; [apply IH, Hdates |].
  destruct Hx as [| y l Hxy]; [constructor |].
  apply Forall_cons in Hdates as [Hyd _]. constructor.
  unfold dates_ascending. rewrite Hxd, Hyd. exact Hxy.
Qed.

Lemma dates_of_items (l : list (string * DayData)) :
  Forall (fun x => day_date x.2 = x.1) l -> map day_date l.*2 = l.*1.
Proof.
  induction 1 as [| x l Hx _ IH]; [reflexivity |].
  cbn [fmap list_fmap map]. rewrite Hx. f_equal. exact IH.
Qed.

(** The days that the function returns, read off the dict of the loop. *)
Lemma tax_days tax_records market_prices (day_data : DayData) :
  let priced := set_total_value market_prices
                <$> foldl tax_step ∅ tax_records in
  (forall date_str,
      (date_str, day_data) ∈ sorted_items priced ->
      day_date day_data = date_str
      /\ day_count day_data
         = Z.of_nat (length (taxed date_str tax_records))
      /\ (forall k,
            day_amounts day_data k
            == Qsum (map (taxed_amount k) (taxed date_str tax_records)))
      /\ day_total_value day_data
         == day_amounts day_data money
            + Qsum (map (priced_amount market_prices day_data)
                      priced_resources))
  /\ forall date_str,
       date_str ∈ (sorted_items priced).*1
       <-> taxed date_str tax_records <> [].
Proof.
  cbv zeta. pose proof (tax_loop_invariant tax_records) as Hinv.
  set (daily := foldl tax_step ∅ tax_records) in *.
  destruct (sorted_items_spec (set_total_value market_prices <$> daily))
    as [Hperm _].
  split.
  - intros date_str Hin. rewrite Hperm in Hin.
    apply elem_of_map_to_list, lookup_fmap_Some in Hin
      as (day0 & <- & Hday0).
    specialize (Hinv date_str). rewrite Hday0 in Hinv.
    destruct Hinv as (Hdate & _ & Hcount & Hamounts).
    cbn [set_total_value day_date day_count day_amounts day_total_value].
    split; [exact Hdate |]. split; [exact Hcount |].
    split; [exact Hamounts |]. exact (day_value_spec market_prices day0).
  - intros date_str. rewrite Hperm. specialize (Hinv date_str). split.
    + intros ([d x] & -> & Hin)%list_elem_of_fmap. cbn [fst] in *.
      apply elem_of_map_to_list, lookup_fmap_Some in Hin
        as (day0 & _ & Hday0).
      rewrite Hday0 in Hinv. apply Hinv.
    + intros Htaxed. destruct (daily !! date_str) as [day0 |] eqn:Hday0;
        [| contradiction].
      apply list_elem_of_fmap.
      exists (date_str, set_total_value market_prices day0).
      split; [reflexivity |].
      apply elem_of_map_to_list. rewrite lookup_fmap, Hday0. reflexivity.
Qed.

(** X18.  The days that [process_alliance_tax_data] returns are the days on
    which some record with a tax id was dated, each once, in ascending
    order of the date.  The count of a day is the number of those records,
    each amount is their sum, and the total value is the money plus the
    value, at the prices of the market, of the resources whose amount is
    positive; records without a tax id or without a readable date count
    nowhere. *)
Theorem tax_days_spec tax_history market_prices alliance_id alliance_name
    tax_records :
  let days :=
    (process_alliance_tax_data tax_history market_prices alliance_id
       alliance_name tax_records).1.2 in
  Sorted dates_ascending days
  /\ NoDup (map day_date days)
  /\ (forall date_str,
        date_str ∈ map day_date days <-> taxed date_str tax_records <> [])
  /\ Forall (fun day_data =>
               let records := taxed (day_date day_data) tax_records in
               day_count day_data = Z.of_nat (length records)
               /\ (forall k,
                     day_amounts day_data k
                     == Qsum (map (taxed_amount k) records))
               /\ day_total_value day_data
                  == day_amounts day_data money
                     + Qsum (map (priced_amount market_prices day_data)
                               priced_resources))
            days.
Proof.
  cbv zeta. unfold process_alliance_tax_data.
  destruct tax_records as [| record tax_records].
  - cbn [fst snd map].
    split; [constructor |]. split; [constructor |].
    split; [| constructor].
    intros date_str. split; [intros H; inversion H | intros H; contradiction].
  - cbv zeta. cbn [fst snd].
    set (records := record :: tax_records).
    set (priced := set_total_value market_prices
                   <$> foldl tax_step ∅ records).
    destruct (sorted_items_spec priced) as [Hperm Hsorted].
    assert (Hitems : forall x, x ∈ sorted_items priced ->
                       day_date x.2 = x.1
                       /\ day_count x.2
                          = Z.of_nat (length (taxed x.1 records))
                       /\ (forall k,
                             day_amounts x.2 k
                             == Qsum (map (taxed_amount k) (taxed x.1 records)))
                       /\ day_total_value x.2
                          == day_amounts x.2 money
                             + Qsum (map (priced_amount market_prices x.2)
                                       priced_resources)).
    { intros [d x] Hin.
      apply (proj1 (tax_days records market_prices x) d Hin). }
    assert (Hdates : Forall (fun x => day_date x.2 = x.1)
                       (sorted_items priced)).
    { apply Forall_forall. intros x Hin. apply (Hitems x Hin). }
    split; [apply Sorted_values; assumption |].
    rewrite (dates_of_items _ Hdates).
    split; [rewrite Hperm; apply NoDup_fst_map_to_list |].
    split.
    + intros date_str.
      apply (proj2 (tax_days records market_prices (day_init "")) date_str).
    + apply Forall_forall. intros x ([d x'] & -> & Hin)%list_elem_of_fmap.
      cbn [snd]. destruct (Hitems _ Hin) as (Hd & Hc & Ha & Hv).
      cbn [fst snd] in *. cbv zeta. rewrite Hd.
      split; [exact Hc |]. split; [exact Ha | exact Hv].
Qed.

Example tax_batch_days :
  map (fun d => (day_date d, day_count d))
    (process_alliance_tax_data ∅ DEFAULT_PRICES 7 "Bank" tax_batch).1.2
  = [("2024-05-01", 1%Z); ("2024-05-02", 2%Z)].
Proof. vm_compute. reflexivity. Qed.

(** X19.  The tax history on file changes for this alliance only.  With no
    tax record it does not change at all.  Otherwise the entry of the
    alliance keeps its name if it had one, its days without a tax in the
    batch stay as they were, and each day of the batch is stored as it is
    returned. *)
Theorem tax_history_update tax_history market_prices alliance_id
    alliance_name tax_records :
  let run := process_alliance_tax_data tax_history market_prices alliance_id
               alliance_name tax_records in
  let days := run.1.2 in
  let history := run.2 in
  let old_days :=
    from_option taxes_daily_records ∅ (tax_history !! alliance_id) in
  (forall a, a <> alliance_id -> history !! a = tax_history !! a)
  /\ match tax_records with
     | [] => history = tax_history
     | _ =>
         exists entry,
           history !! alliance_id = Some entry
           /\ taxes_name entry
              = from_option taxes_name alliance_name
                  (tax_history !! alliance_id)
           /\ (forall date_str,
                 taxed date_str tax_records = [] ->
                 taxes_daily_records entry !! date_str
                 = old_days !! date_str)
           /\ (forall date_str,
                 taxed date_str tax_records <> [] ->
                 exists day_data,
                   taxes_daily_records entry !! date_str = Some day_data
                   /\ day_data ∈ days
                   /\ day_date day_data = date_str)
     end.
Proof.
  cbv zeta. unfold process_alliance_tax_data.
  destruct tax_records as [| record tax_records].
  - cbn [fst snd]. split; reflexivity.
  - cbv zeta. cbn [fst snd].
    set (records := record :: tax_records).
    pose proof (tax_loop_invariant records) as Hinv.
    set (daily := foldl tax_step ∅ records) in *.
    set (priced := set_total_value market_prices <$> daily).
    split; [intros a Ha; apply lookup_insert_ne; congruence |].
    eexists. split; [apply lookup_insert_eq |].
    cbn [taxes_name taxes_daily_records].
    split; [destruct (tax_history !! alliance_id); reflexivity |].
    assert (Hold : taxes_daily_records
                     (default {| taxes_name := alliance_name;
                                 taxes_daily_records := ∅ |}
                        (tax_history !! alliance_id))
                   = from_option taxes_daily_records ∅
                       (tax_history !! alliance_id))
      by (destruct (tax_history !! alliance_id); reflexivity).
    rewrite Hold. split.
    + intros date_str Hnone. apply lookup_union_r.
      subst priced. rewrite lookup_fmap. specialize (Hinv date_str).
      destruct (daily !! date_str) as [day0 |]; [| reflexivity].
      destruct Hinv as (_ & Hsome & _). contradiction.
    + intros date_str Hsome. specialize (Hinv date_str).
      destruct (daily !! date_str) as [day0 |] eqn:Hday0; [| contradiction].
      assert (Hp : priced !! date_str
                   = Some (set_total_value market_prices day0))
        by (subst priced; rewrite lookup_fmap, Hday0; reflexivity).
      exists (set_total_value market_prices day0).
      split; [apply lookup_union_Some_raw; left; exact Hp |].
      split; [| apply Hinv].
      apply list_elem_of_fmap.
      exists (date_str, set_total_value market_prices day0).
      split; [reflexivity |].
      rewrite (proj1 (sorted_items_spec priced)).
      apply elem_of_map_to_list, Hp.
Qed.
